(** * frc-radio-api: the access-point radio controller

    A shallow embedding of the Go package [radio] and the properties of
    its configuration reconciler.  Two variants of the controller are
    embedded, each from its own source file:

    - [Module Legacy]: the single-file controller (Run loop, request
      handling, station staging with placeholders, credential hashing);
    - [Module AP]: [radio/radio_ap.go], the access-point build with VLANs,
      channel bandwidth, syslog and the bounded retry loop.

    The world outside the process (the UCI configuration tree, the shell,
    the random source and the order in which the Go runtime ranges over a
    map) is an explicit value threaded through every function.  Calls of
    [time.Sleep] and of the logger change nothing of it and are left
    out. *)

From Stdlib Require Import ZArith String Ascii DecimalString DecimalZ DecimalPos Lia.
From stdpp Require Import gmap strings list fin_maps.

Open Scope Z_scope.

(** ** Strings and formatting *)

(** [strconv.Itoa] and the [%d] verb of [fmt.Sprintf]. *)
Definition itoa (z : Z) : string := NilZero.string_of_int (Z.to_int z).

(** [strings.HasPrefix s prefix]. *)
Definition HasPrefix (s prefix : string) : bool := String.prefix prefix s.

Definition quote : ascii := "034"%char.

(** The bytes of a Go string. *)
Definition bytes_of_string (s : string) : list Z :=
  (fun c => Z.of_N (N_of_ascii c)) <$> list_ascii_of_string s.

(** [strings.Contains s substr]. *)
Fixpoint Contains (s substr : string) : bool :=
  if String.prefix substr s then true
  else match s with
       | String _ s' => Contains s' substr
       | EmptyString => false
       end.

Definition isDigit (c : ascii) : bool :=
  let n := nat_of_ascii c in (48 <=? n)%nat && (n <=? 57)%nat.

(** The value of a run of decimal digits read after [acc]. *)
Fixpoint digitsValue (acc : Z) (s : string) : Z :=
  match s with
  | EmptyString => acc
  | String c s' => digitsValue (10 * acc + (Z.of_nat (nat_of_ascii c) - 48)) s'
  end.

(** The value that [strconv.Atoi] returns, its error being dropped by
    every caller here: an optional sign and at least one decimal digit, the
    value cut off at the bounds of a 64-bit [int]; zero on a syntax
    error. *)
Definition Atoi (s : string) : Z :=
  let '(negative, digits) :=
    match s with
    | String c rest =>
        if Ascii.eqb c "+" then (false, rest)
        else if Ascii.eqb c "-" then (true, rest)
        else (false, s)
    | EmptyString => (false, s)
    end in
  match digits with
  | EmptyString => 0
  | _ =>
      if forallb isDigit (list_ascii_of_string digits) then
        let n := digitsValue 0 digits in
        if negative then (if 2 ^ 63 <? n then - 2 ^ 63 else - n)
        else (if 2 ^ 63 <=? n then 2 ^ 63 - 1 else n)
      else 0
  end.

(** ** The station enumeration ([station_string.go])

    [type station int] with [red1 .. blue3] numbered 0 .. 5, as the
    compile-time check of the generated file pins down. *)

Definition station := Z.

Definition red1 : station := 0.
Definition red2 : station := 1.
Definition red3 : station := 2.
Definition blue1 : station := 3.
Definition blue2 : station := 4.
Definition blue3 : station := 5.
Definition stationCount : Z := 6.

Definition _station_name : string := "red1red2red3blue1blue2blue3".
Definition _station_index : list nat := [0; 4; 8; 12; 17; 22; 27]%nat.

Definition station_String (i : station) : string :=
  if (i <? 0) || (i >=? Z.of_nat (length _station_index) - 1) then
    "station(" +:+ itoa i +:+ ")"
  else
    let lo := nth (Z.to_nat i) _station_index 0%nat in
    let hi := nth (Z.to_nat (i + 1)) _station_index 0%nat in
    substring lo (hi - lo) _station_name.

(** The stations in the order of [for s := red1; s <= blue3; s++]. *)
Definition allStations : list station := [red1; red2; red3; blue1; blue2; blue3].

(** ** SHA-256 ([crypto/sha256]) and [encoding/hex] *)

Module Sha256.

Definition w32 (x : Z) : Z := x mod 2 ^ 32.
Definition add32 (x y : Z) : Z := w32 (x + y).
Definition rotr (n x : Z) : Z :=
  Z.lor (Z.shiftr x n) (w32 (Z.shiftl x (32 - n))).
Definition not32 (x : Z) : Z := Z.lxor x 4294967295.

Definition Ch (x y z : Z) : Z := Z.lxor (Z.land x y) (Z.land (not32 x) z).
Definition Maj (x y z : Z) : Z :=
  Z.lxor (Z.lxor (Z.land x y) (Z.land x z)) (Z.land y z).
Definition Sigma0 (x : Z) : Z :=
  Z.lxor (Z.lxor (rotr 2 x) (rotr 13 x)) (rotr 22 x).
Definition Sigma1 (x : Z) : Z :=
  Z.lxor (Z.lxor (rotr 6 x) (rotr 11 x)) (rotr 25 x).
Definition sigma0 (x : Z) : Z :=
  Z.lxor (Z.lxor (rotr 7 x) (rotr 18 x)) (Z.shiftr x 3).
Definition sigma1 (x : Z) : Z :=
  Z.lxor (Z.lxor (rotr 17 x) (rotr 19 x)) (Z.shiftr x 10).

Definition K : list Z :=
  [ 1116352408; 1899447441; 3049323471; 3921009573; 961987163; 1508970993;
    2453635748; 2870763221; 3624381080; 310598401; 607225278; 1426881987;
    1925078388; 2162078206; 2614888103; 3248222580; 3835390401; 4022224774;
    264347078; 604807628; 770255983; 1249150122; 1555081692; 1996064986;
    2554220882; 2821834349; 2952996808; 3210313671; 3336571891; 3584528711;
    113926993; 338241895; 666307205; 773529912; 1294757372; 1396182291;
    1695183700; 1986661051; 2177026350; 2456956037; 2730485921; 2820302411;
    3259730800; 3345764771; 3516065817; 3600352804; 4094571909; 275423344;
    430227734; 506948616; 659060556; 883997877; 958139571; 1322822218;
    1537002063; 1747873779; 1955562222; 2024104815; 2227730452; 2361852424;
    2428436474; 2756734187; 3204031479; 3329325298 ].

Definition H0 : list Z :=
  [ 1779033703; 3144134277; 1013904242; 2773480762;
    1359893119; 2600822924; 528734635; 1541459225 ].

(** Padding: a one bit, zeros up to 56 modulo 64, the bit length on
    eight big-endian bytes. *)
Definition be_bytes (n : nat) (x : Z) : list Z :=
  (fun i => Z.shiftr x (8 * Z.of_nat i) mod 256) <$> rev (seq 0 n).

Definition pad (msg : list Z) : list Z :=
  let len := Z.of_nat (length msg) in
  msg ++ [128] ++ replicate (Z.to_nat ((55 - len) mod 64)) 0
      ++ be_bytes 8 (8 * len).

Fixpoint words (fuel : nat) (bs : list Z) : list Z :=
  match fuel, bs with
  | S fuel', a :: b :: c :: d :: rest =>
      (((a * 256 + b) * 256 + c) * 256 + d) :: words fuel' rest
  | _, _ => []
  end.

Fixpoint schedule (n : nat) (w : list Z) : list Z :=
  match n with
  | O => w
  | S n' =>
      let i := length w in
      let at_ k := nth (i - k) w 0 in
      schedule n'
        (w ++ [add32 (add32 (sigma1 (at_ 2%nat)) (at_ 7%nat))
                     (add32 (sigma0 (at_ 15%nat)) (at_ 16%nat))])
  end.

Record regs := Regs { ra : Z; rb : Z; rc : Z; rd : Z; re : Z; rf : Z; rg : Z; rh : Z }.

Definition round (r : regs) (kw : Z * Z) : regs :=
  let t1 := add32 (add32 (add32 (rh r) (Sigma1 (re r))) (Ch (re r) (rf r) (rg r)))
                  (add32 (fst kw) (snd kw)) in
  let t2 := add32 (Sigma0 (ra r)) (Maj (ra r) (rb r) (rc r)) in
  Regs (add32 t1 t2) (ra r) (rb r) (rc r) (add32 (rd r) t1) (re r) (rf r) (rg r).

Definition regs_of (h : list Z) : regs :=
  Regs (nth 0 h 0) (nth 1 h 0) (nth 2 h 0) (nth 3 h 0)
       (nth 4 h 0) (nth 5 h 0) (nth 6 h 0) (nth 7 h 0).

Definition list_of (r : regs) : list Z :=
  [ra r; rb r; rc r; rd r; re r; rf r; rg r; rh r].

Definition compress (h : list Z) (block : list Z) : list Z :=
  let w := schedule 48 (words 16 block) in
  let r := foldl round (regs_of h) (zip K w) in
  zip_with add32 h (list_of r).

Fixpoint blocks (fuel : nat) (h : list Z) (bs : list Z) : list Z :=
  match fuel, bs with
  | S fuel', _ :: _ => blocks fuel' (compress h (take 64 bs)) (drop 64 bs)
  | _, _ => h
  end.

(** The 32 bytes of the digest. *)
Definition sum (msg : list Z) : list Z :=
  let p := pad msg in
  mjoin (be_bytes 4 <$> blocks (length p) H0 p).

End Sha256.

Definition hexdigit (n : Z) : ascii :=
  nth (Z.to_nat n) (list_ascii_of_string "0123456789abcdef") "0"%char.

(** [hex.EncodeToString]. *)
Fixpoint EncodeToString (bs : list Z) : string :=
  match bs with
  | [] => EmptyString
  | b :: rest => String (hexdigit (b / 16)) (String (hexdigit (b mod 16)) (EncodeToString rest))
  end.

Definition sha256_hex (s : string) : string :=
  EncodeToString (Sha256.sum (bytes_of_string s)).

(** ** The world outside the process *)

(** A Go [(string, error)] result. *)
Inductive result := Ok (out : string) | Error (msg : string).

(** How a function call ends: it returns its [error] ([None] is [nil]),
    the goroutine panics, or the bounded unrolling of a [for {}] loop was
    too short to reach its exit. *)
Inductive exit := Returns (err : option string) | Panics | OutOfFuel.

(** What the environment answers.  Every oracle is indexed by the number
    of earlier calls of its kind, so that an environment scripts a whole
    run: the error of the n-th [uciTree.Commit] ([None]: it succeeds), the
    reply of the n-th [shell.runCommand], the n-th number drawn from
    [math/rand], and the seed of the order of the n-th [range] over a
    map. *)
Record Env := {
  commitError : nat -> option string;
  shellReply : nat -> list string -> result;
  randomInt : nat -> nat;
  rangeSeed : nat -> nat
}.

Definition UciKey : Type := string * string * string.

(** The UCI tree as the process holds it ([tree], staged values included),
    what was last written out by a commit ([saved]), and how many times
    each oracle has been consulted. *)
Record World := {
  tree : gmap UciKey string;
  saved : gmap UciKey string;
  commits : nat;
  shellLog : list (list string);
  draws : nat;
  ranges : nat
}.

(** [uciTree.SetType config section option uci.TypeOption value]: a staged
    write. *)
Definition SetType (config section opt value : string) (w : World) : World :=
  {| tree := <[(config, section, opt) := value]> (tree w); saved := saved w;
     commits := commits w; shellLog := shellLog w; draws := draws w;
     ranges := ranges w |}.

(** [uciTree.GetLast config section option]: the value and whether it was
    found. *)
Definition GetLast (config section opt : string) (w : World) : option string :=
  tree w !! (config, section, opt).

(** [uciTree.Commit ()]: on success everything staged is written out. *)
Definition Commit (env : Env) (w : World) : option string * World :=
  match commitError env (commits w) with
  | Some e =>
      (Some e, {| tree := tree w; saved := saved w; commits := S (commits w);
                  shellLog := shellLog w; draws := draws w; ranges := ranges w |})
  | None =>
      (None, {| tree := tree w; saved := tree w; commits := S (commits w);
                shellLog := shellLog w; draws := draws w; ranges := ranges w |})
  end.

(** [shell.runCommand args...]; the log keeps the latest command first. *)
Definition runCommand (env : Env) (args : list string) (w : World) : result * World :=
  (shellReply env (length (shellLog w)) args,
   {| tree := tree w; saved := saved w; commits := commits w;
      shellLog := args :: shellLog w; draws := draws w; ranges := ranges w |}).

(** [rand.Intn n]. *)
Definition Intn (env : Env) (n : Z) (w : World) : Z * World :=
  (Z.of_nat (randomInt env (draws w)) mod n,
   {| tree := tree w; saved := saved w; commits := commits w;
      shellLog := shellLog w; draws := S (draws w); ranges := ranges w |}).

(** The order of one [range] over a map: some permutation of its entries,
    picked by the seed. *)
Definition goRange {A} (seed : nat) (l : list A) : list A :=
  default l (permutations l !! (seed mod length (permutations l))%nat).

Definition rangeMap {K} `{Countable K} {V} (env : Env) (m : gmap K V) (w : World)
  : list (K * V) * World :=
  (goRange (rangeSeed env (ranges w)) (map_to_list m),
   {| tree := tree w; saved := saved w; commits := commits w;
      shellLog := shellLog w; draws := draws w; ranges := S (ranges w) |}).

(** [fmt.Sprintf("@wifi-iface[%d]", position)] *)
Definition wifiIface (position : Z) : string := "@wifi-iface[" +:+ itoa position +:+ "]".

(** ** The SSID pattern

    [ssidRe] is the literal text ESSID, a colon, a space and a double
    quote, then one capture group of any number of characters among the
    hyphen, the word characters and the space, then a double quote.  The
    function [findSsid] is [ssidRe.FindStringSubmatch] followed by
    [matches[1]], and [None] when nothing matches.  The character class
    does not contain the double quote, so at each start the only candidate
    is the longest run of class characters. *)

Definition isSsidChar (c : ascii) : bool :=
  let n := nat_of_ascii c in
  (n =? 45)%nat || (n =? 32)%nat || (n =? 95)%nat
  || ((48 <=? n)%nat && (n <=? 57)%nat)
  || ((65 <=? n)%nat && (n <=? 90)%nat)
  || ((97 <=? n)%nat && (n <=? 122)%nat).

Fixpoint spanSsid (s : string) : string * string :=
  match s with
  | String c s' =>
      if isSsidChar c then let '(run, rest) := spanSsid s' in (String c run, rest)
      else (EmptyString, s)
  | EmptyString => (EmptyString, EmptyString)
  end.

Definition ssidOpen : string := "ESSID: " +:+ String quote EmptyString.

Definition matchSsidAt (s : string) : option string :=
  if String.prefix ssidOpen s then
    let '(run, rest) :=
      spanSsid (substring (String.length ssidOpen)
                          (String.length s - String.length ssidOpen) s) in
    match rest with
    | String c _ => if Ascii.eqb c quote then Some run else None
    | EmptyString => None
    end
  else None.

Fixpoint findSsid (s : string) : option string :=
  match matchSsidAt s with
  | Some ssid => Some ssid
  | None => match s with
            | String _ s' => findSsid s'
            | EmptyString => None
            end
  end.

(** What [iwinfo <iface> info] prints for an interface broadcasting [ssid]
    (first line only). *)
Definition iwinfoLine (iface ssid : string) : string :=
  iface +:+ "     ESSID: " +:+ String quote ssid +:+ String quote EmptyString.

(** ** Credential hashing *)

Definition saltCharacters : string :=
  "abcdefghijklmnopqrstuvwxyzABCDEFGHIJKLMNOPQRSTUVWXYZ0123456789".
Definition saltLength : nat := 16.

(** [saltCharacters[i]] *)
Definition saltChar (i : Z) : ascii :=
  default "000"%char (String.get (Z.to_nat i) saltCharacters).

(** The loop filling [saltBytes]: one draw per character. *)
Fixpoint drawSalt (env : Env) (n : nat) (w : World) : string * World :=
  match n with
  | O => (EmptyString, w)
  | S n' =>
      let '(i, w1) := Intn env (Z.of_nat (String.length saltCharacters)) w in
      let '(rest, w2) := drawSalt env n' w1 in
      (String (saltChar i) rest, w2)
  end.

(** The body shared by both signatures of [getHashedWpaKeyAndSalt], from
    the [GetLast] on: [position] is the index of the [@wifi-iface]
    section. *)
Definition hashedWpaKeyAndSaltAt (env : Env) (position : Z) (w : World)
  : (string * string) * World :=
  match GetLast "wireless" (wifiIface position) "key" w with
  | None => ((EmptyString, EmptyString), w)
  | Some wpaKey =>
      let '(salt, w') := drawSalt env saltLength w in
      ((sha256_hex (wpaKey +:+ salt), salt), w')
  end.

(** ** The single-file controller *)

Module Legacy.

Inductive radioType := typeUnknown | typeLinksys | typeVividHosting.

Definition statusBooting : string := "BOOTING".
Definition statusConfiguring : string := "CONFIGURING".
Definition statusActive : string := "ACTIVE".
Definition statusError : string := "ERROR".

Module StationConfiguration.
Record t := mk { Ssid : string; WpaKey : string }.
End StationConfiguration.

Module ConfigurationRequest.
Record t := mk {
  Channel : Z;
  StationConfigurations : gmap string StationConfiguration.t
}.
End ConfigurationRequest.

(** The fields of [StationStatus] that a status refresh writes; the
    telemetry fields start at their zero value and only the monitoring
    poll touches them. *)
Record StationStatus := {
  Ssid : string;
  HashedWpaKey : string;
  WpaKeySalt : string
}.

(** A [nil] pointer in [StationStatuses] is [None]; the buffered channel
    is the list of the requests it holds, oldest first; the field [Type]
    is spelled [Type_]. *)
Record Radio := {
  Channel : Z;
  Status : string;
  StationStatuses : gmap string (option StationStatus);
  Type_ : radioType;
  ConfigurationRequestChannel : list ConfigurationRequest.t;
  device : string;
  stationInterfaces : gmap station string
}.

Definition State : Type := Radio * World.

Definition setChannel (c : Z) (r : Radio) : Radio :=
  {| Channel := c; Status := Status r; StationStatuses := StationStatuses r;
     Type_ := Type_ r; ConfigurationRequestChannel := ConfigurationRequestChannel r;
     device := device r; stationInterfaces := stationInterfaces r |}.

Definition setStatus (s : string) (r : Radio) : Radio :=
  {| Channel := Channel r; Status := s; StationStatuses := StationStatuses r;
     Type_ := Type_ r; ConfigurationRequestChannel := ConfigurationRequestChannel r;
     device := device r; stationInterfaces := stationInterfaces r |}.

Definition setStationStatuses (m : gmap string (option StationStatus)) (r : Radio) : Radio :=
  {| Channel := Channel r; Status := Status r; StationStatuses := m;
     Type_ := Type_ r; ConfigurationRequestChannel := ConfigurationRequestChannel r;
     device := device r; stationInterfaces := stationInterfaces r |}.

Definition setChannelQueue (q : list ConfigurationRequest.t) (r : Radio) : Radio :=
  {| Channel := Channel r; Status := Status r; StationStatuses := StationStatuses r;
     Type_ := Type_ r; ConfigurationRequestChannel := q;
     device := device r; stationInterfaces := stationInterfaces r |}.

(** [getHashedWpaKeyAndSalt(station)] *)
Definition getHashedWpaKeyAndSalt (env : Env) (s : station) (w : World)
  : (string * string) * World :=
  hashedWpaKeyAndSaltAt env (s + 1) w.

(** The body of the loop of [updateStationStatuses] for one entry of
    [stationInterfaces]; [Some] is the error the function returns with. *)
Definition refreshStation (env : Env) (entry : station * string) (st : State)
  : option string * State :=
  let '(s, stationInterface) := entry in
  let '(radio, w) := st in
  match runCommand env ["iwinfo"; stationInterface; "info"] w with
  | (Error err, w1) =>
      (Some ("error getting iwinfo for interface " +:+ stationInterface +:+ ": " +:+ err),
       (radio, w1))
  | (Ok output, w1) =>
      match findSsid output with
      | Some ssid =>
          if HasPrefix ssid "no-team-" then
            (None,
             (setStationStatuses (<[station_String s := None]> (StationStatuses radio)) radio,
              w1))
          else
            let '((hashed, salt), w2) := getHashedWpaKeyAndSalt env s w1 in
            let status := {| Ssid := ssid; HashedWpaKey := hashed; WpaKeySalt := salt |} in
            (None,
             (setStationStatuses (<[station_String s := Some status]> (StationStatuses radio))
                                 radio,
              w2))
      | None =>
          (Some ("error parsing iwinfo output for interface " +:+ stationInterface
                 +:+ ": " +:+ output),
           (radio, w1))
      end
  end.

Fixpoint refreshStations (env : Env) (entries : list (station * string)) (st : State)
  : option string * State :=
  match entries with
  | [] => (None, st)
  | entry :: rest =>
      match refreshStation env entry st with
      | (Some err, st') => (Some err, st')
      | (None, st') => refreshStations env rest st'
      end
  end.

(** [updateStationStatuses]: a [range] over the map [stationInterfaces]. *)
Definition updateStationStatuses (env : Env) (st : State) : option string * State :=
  let '(radio, w) := st in
  let '(entries, w1) := rangeMap env (stationInterfaces radio) w in
  refreshStations env entries (radio, w1).

(** The body of the loop of [stationSsidsAreCorrect]: [false] is an early
    [return false]. *)
Definition ssidIsCorrect (radio : Radio)
    (stationConfigurations : gmap string StationConfiguration.t)
    (entry : string * option StationStatus) : bool :=
  let '(stationName, stationStatus) := entry in
  match stationConfigurations !! stationName with
  | Some config =>
      match default None (StationStatuses radio !! stationName) with
      | None => false
      | Some status =>
          if decide (Ssid status = StationConfiguration.Ssid config) then true else false
      end
  | None =>
      match stationStatus with
      | Some _ => false
      | None => true
      end
  end.

Definition stationSsidsAreCorrect (env : Env)
    (stationConfigurations : gmap string StationConfiguration.t) (st : State)
  : bool * World :=
  let '(radio, w) := st in
  let '(entries, w1) := rangeMap env (StationStatuses radio) w in
  (forallb (ssidIsCorrect radio stationConfigurations) entries, w1).

(** The body of [for stationIndex := 0; stationIndex < 6; stationIndex++]
    in [configureStations], commit included. *)
Definition stageStation (env : Env) (type : radioType)
    (stationConfigurations : gmap string StationConfiguration.t)
    (stationIndex : Z) (w : World) : option string * World :=
  let position := stationIndex + 1 in
  let '(ssid, wpaKey) :=
    match stationConfigurations !! station_String stationIndex with
    | Some config => (StationConfiguration.Ssid config, StationConfiguration.WpaKey config)
    | None => let ssid := "no-team-" +:+ itoa position in (ssid, ssid)
    end in
  let wifiInterface := wifiIface position in
  let w1 := SetType "wireless" wifiInterface "ssid" ssid w in
  let w2 := SetType "wireless" wifiInterface "key" wpaKey w1 in
  let w3 := match type with
            | typeVividHosting => SetType "wireless" wifiInterface "sae_password" wpaKey w2
            | _ => w2
            end in
  Commit env w3.

Fixpoint stageStations (env : Env) (type : radioType)
    (stationConfigurations : gmap string StationConfiguration.t)
    (indices : list Z) (w : World) : option string * World :=
  match indices with
  | [] => (None, w)
  | stationIndex :: rest =>
      match stageStation env type stationConfigurations stationIndex w with
      | (Some err, w') => (Some err, w')
      | (None, w') => stageStations env type stationConfigurations rest w'
      end
  end.

(** [configureStations]: the [for {}] loop has no exit but convergence or
    a hard failure; [fuel] bounds the number of passes unrolled, and
    [retryCount] is only logged. *)
Fixpoint configureStationsFrom (env : Env) (fuel : nat)
    (stationConfigurations : gmap string StationConfiguration.t)
    (retryCount : Z) (st : State) : exit * State :=
  match fuel with
  | O => (OutOfFuel, st)
  | S fuel' =>
      let '(radio, w) := st in
      match stageStations env (Type_ radio) stationConfigurations [0; 1; 2; 3; 4; 5] w with
      | (Some err, w1) =>
          (Returns (Some ("failed to commit wireless configuration: " +:+ err)), (radio, w1))
      | (None, w1) =>
          match runCommand env ["wifi"; "reload"; device radio] w1 with
          | (Error err, w2) =>
              (Returns (Some ("failed to reload configuration for device " +:+ device radio
                              +:+ ": " +:+ err)),
               (radio, w2))
          | (Ok _, w2) =>
              match updateStationStatuses env (radio, w2) with
              | (Some err, st3) =>
                  (Returns (Some ("error updating station statuses: " +:+ err)), st3)
              | (None, (radio3, w3)) =>
                  let '(correct, w4) :=
                    stationSsidsAreCorrect env stationConfigurations (radio3, w3) in
                  if correct then (Returns None, (radio3, w4))
                  else configureStationsFrom env fuel' stationConfigurations
                         (retryCount + 1) (radio3, w4)
              end
          end
      end
  end.

Definition configureStations (env : Env) (fuel : nat)
    (stationConfigurations : gmap string StationConfiguration.t) (st : State)
  : exit * State :=
  configureStationsFrom env fuel stationConfigurations 1 st.

(** [configure] *)
Definition configure (env : Env) (fuel : nat) (request : ConfigurationRequest.t)
    (st : State) : exit * State :=
  let '(radio, w) := st in
  let '(radio, w) :=
    if 0 <? ConfigurationRequest.Channel request then
      (setChannel (ConfigurationRequest.Channel request) radio,
       SetType "wireless" (device radio) "channel"
               (itoa (ConfigurationRequest.Channel request)) w)
    else (radio, w) in
  match Type_ radio with
  | typeLinksys =>
      match configureStations env fuel ∅ (radio, w) with
      | (Returns None, st1) =>
          configureStations env fuel (ConfigurationRequest.StationConfigurations request) st1
      | other => other
      end
  | _ => configureStations env fuel (ConfigurationRequest.StationConfigurations request)
                           (radio, w)
  end.

(** The loop [for i := 0; i < numExtraRequests; i++ { request = <-ch }]. *)
Fixpoint drain (numExtraRequests : nat) (request : ConfigurationRequest.t)
    (queue : list ConfigurationRequest.t)
  : ConfigurationRequest.t * list ConfigurationRequest.t :=
  match numExtraRequests, queue with
  | S n, next :: queue' => drain n next queue'
  | _, _ => (request, queue)
  end.

(** [handleConfigurationRequest].  [request] has been received by [Run];
    the channel holds the requests queued behind it.  [arrived] are the
    requests that producers send on the channel after the first [len] and
    before the second: they join the tail of the channel and none of them
    is received in this call. *)
Definition handleConfigurationRequest (env : Env) (fuel : nat)
    (request : ConfigurationRequest.t) (arrived : list ConfigurationRequest.t)
    (st : State) : exit * State :=
  let '(radio, w) := st in
  let numExtraRequests := length (ConfigurationRequestChannel radio) in
  let '(request, rest) := drain numExtraRequests request (ConfigurationRequestChannel radio) in
  let radio := setStatus statusConfiguring (setChannelQueue rest radio) in
  match configure env fuel request (radio, w) with
  | (Returns (Some err), (radio1, w1)) =>
      let radio2 := setChannelQueue (ConfigurationRequestChannel radio1 ++ arrived) radio1 in
      (Returns (Some err), (setStatus statusError radio2, w1))
  | (Returns None, (radio1, w1)) =>
      let radio2 := setChannelQueue (ConfigurationRequestChannel radio1 ++ arrived) radio1 in
      if (length (ConfigurationRequestChannel radio2) =? 0)%nat then
        (Returns None, (setStatus statusActive radio2, w1))
      else (Returns None, (radio2, w1))
  | other => other
  end.

(** One turn of the [for { select { ... } }] loop of [Run] in which the
    select receives [request]: the error of the handler is dropped and the
    loop goes on with the new state.  [None]: the handler did not return,
    and neither does the turn. *)
Definition runRequestTurn (env : Env) (fuel : nat)
    (request : ConfigurationRequest.t) (arrived : list ConfigurationRequest.t)
    (st : State) : option State :=
  match handleConfigurationRequest env fuel request arrived st with
  | (Returns _, st') => Some st'
  | _ => None
  end.

End Legacy.

(** ** The access-point build ([radio/radio_ap.go]) *)

Module AP.

(** Maximum number of times to retry configuring the radio. *)
Definition maxRetryCount : Z := 3.

Inductive RadioType := TypeUnknown | TypeLinksys | TypeVividHosting.

(** [AllianceVlans] is a string type. *)
Definition Vlans102030 : string := "10_20_30".
Definition Vlans405060 : string := "40_50_60".
Definition Vlans708090 : string := "70_80_90".

Module StationConfiguration.
Record t := mk { Ssid : string; WpaKey : string }.
End StationConfiguration.

(** [StationConfigurations] maps a station name to a pointer: [None] is
    the [nil] pointer of a station that is being unconfigured. *)
Module ConfigurationRequest.
Record t := mk {
  Channel : Z;
  ChannelBandwidth : string;
  RedVlans : string;
  BlueVlans : string;
  SyslogIpAddress : string;
  StationConfigurations : gmap string (option StationConfiguration.t)
}.
End ConfigurationRequest.

(** The fields of [NetworkStatus] that a status refresh writes. *)
Record NetworkStatus := {
  Ssid : string;
  HashedWpaKey : string;
  WpaKeySalt : string
}.

Record Radio := {
  Channel : Z;
  ChannelBandwidth : string;
  RedVlans : string;
  BlueVlans : string;
  Status : string;
  StationStatuses : gmap string (option NetworkStatus);
  SyslogIpAddress : string;
  Version : string;
  ConfigurationRequestChannel : list ConfigurationRequest.t;
  Type_ : RadioType;
  device : string;
  stationInterfaces : gmap station string
}.

Definition State : Type := Radio * World.

Definition setChannel (c : Z) (r : Radio) : Radio :=
  {| Channel := c; ChannelBandwidth := ChannelBandwidth r; RedVlans := RedVlans r;
     BlueVlans := BlueVlans r; Status := Status r; StationStatuses := StationStatuses r;
     SyslogIpAddress := SyslogIpAddress r; Version := Version r;
     ConfigurationRequestChannel := ConfigurationRequestChannel r; Type_ := Type_ r;
     device := device r; stationInterfaces := stationInterfaces r |}.

Definition setChannelBandwidth (b : string) (r : Radio) : Radio :=
  {| Channel := Channel r; ChannelBandwidth := b; RedVlans := RedVlans r;
     BlueVlans := BlueVlans r; Status := Status r; StationStatuses := StationStatuses r;
     SyslogIpAddress := SyslogIpAddress r; Version := Version r;
     ConfigurationRequestChannel := ConfigurationRequestChannel r; Type_ := Type_ r;
     device := device r; stationInterfaces := stationInterfaces r |}.

Definition setVlans (red blue : string) (r : Radio) : Radio :=
  {| Channel := Channel r; ChannelBandwidth := ChannelBandwidth r; RedVlans := red;
     BlueVlans := blue; Status := Status r; StationStatuses := StationStatuses r;
     SyslogIpAddress := SyslogIpAddress r; Version := Version r;
     ConfigurationRequestChannel := ConfigurationRequestChannel r; Type_ := Type_ r;
     device := device r; stationInterfaces := stationInterfaces r |}.

Definition setSyslogIpAddress (a : string) (r : Radio) : Radio :=
  {| Channel := Channel r; ChannelBandwidth := ChannelBandwidth r; RedVlans := RedVlans r;
     BlueVlans := BlueVlans r; Status := Status r; StationStatuses := StationStatuses r;
     SyslogIpAddress := a; Version := Version r;
     ConfigurationRequestChannel := ConfigurationRequestChannel r; Type_ := Type_ r;
     device := device r; stationInterfaces := stationInterfaces r |}.

Definition setStationStatuses (m : gmap string (option NetworkStatus)) (r : Radio) : Radio :=
  {| Channel := Channel r; ChannelBandwidth := ChannelBandwidth r; RedVlans := RedVlans r;
     BlueVlans := BlueVlans r; Status := Status r; StationStatuses := m;
     SyslogIpAddress := SyslogIpAddress r; Version := Version r;
     ConfigurationRequestChannel := ConfigurationRequestChannel r; Type_ := Type_ r;
     device := device r; stationInterfaces := stationInterfaces r |}.

(** [getStationVlan] returns the VLAN number for the given team station. *)
Definition getStationVlan (radio : Radio) (s : station) : Z :=
  let '(vlans, position) :=
    if decide (s = red1 \/ s = red2 \/ s = red3) then (RedVlans radio, s - red1 + 1)
    else if decide (s = blue1 \/ s = blue2 \/ s = blue3) then (BlueVlans radio, s - blue1 + 1)
    else (EmptyString, 0) in
  if decide (vlans = Vlans102030) then 10 * position
  else if decide (vlans = Vlans405060) then 10 * (position + 3)
  else if decide (vlans = Vlans708090) then 10 * (position + 6)
  else -1.

(** Modelled from the spec: [getSsid] is defined outside this file.  The
    status refresh invokes the device introspection command against the
    interface and parses the reported SSID; a command failure or a parse
    failure is an error. *)
Definition getSsid (env : Env) (stationInterface : string) (w : World) : result * World :=
  match runCommand env ["iwinfo"; stationInterface; "info"] w with
  | (Error err, w1) =>
      (Error ("error getting iwinfo for interface " +:+ stationInterface +:+ ": " +:+ err), w1)
  | (Ok output, w1) =>
      match findSsid output with
      | Some ssid => (Ok ssid, w1)
      | None =>
          (Error ("error parsing iwinfo output for interface " +:+ stationInterface
                  +:+ ": " +:+ output), w1)
      end
  end.

(** Modelled from the spec: [getHashedWpaKeyAndSalt] is defined outside
    this file and is called here with the index of the interface section.
    It hashes the key that the configuration store currently holds for
    that index, with a fresh salt. *)
Definition getHashedWpaKeyAndSalt (env : Env) (position : Z) (w : World)
  : (string * string) * World :=
  hashedWpaKeyAndSaltAt env position w.

(** [radio.stationInterfaces[station]]: the zero value when absent. *)
Definition interfaceOf (radio : Radio) (s : station) : string :=
  default EmptyString (stationInterfaces radio !! s).

(** The body of the loop of [updateStationStatuses] for one station. *)
Definition refreshStation (env : Env) (s : station) (st : State) : option string * State :=
  let '(radio, w) := st in
  match getSsid env (interfaceOf radio s) w with
  | (Error err, w1) => (Some err, (radio, w1))
  | (Ok ssid, w1) =>
      if HasPrefix ssid "no-team-" then
        (None,
         (setStationStatuses (<[station_String s := None]> (StationStatuses radio)) radio, w1))
      else
        let '((hashed, salt), w2) := getHashedWpaKeyAndSalt env (s + 1) w1 in
        let status := {| Ssid := ssid; HashedWpaKey := hashed; WpaKeySalt := salt |} in
        (None,
         (setStationStatuses (<[station_String s := Some status]> (StationStatuses radio)) radio,
          w2))
  end.

Fixpoint refreshStations (env : Env) (stations : list station) (st : State)
  : option string * State :=
  match stations with
  | [] => (None, st)
  | s :: rest =>
      match refreshStation env s st with
      | (Some err, st') => (Some err, st')
      | (None, st') => refreshStations env rest st'
      end
  end.

(** [updateStationStatuses]: [for station := red1; station <= blue3; station++]. *)
Definition updateStationStatuses (env : Env) (st : State) : option string * State :=
  refreshStations env allStations st.

(** The body of the loop of [stationSsidsAreCorrect] for one entry of
    [StationStatuses]: go on with the next entry, return false, or
    dereference the [nil] configuration of a station that the request
    unassigns. *)
Inductive ssidCheck := CheckNext | CheckFalse | CheckPanics.

Definition checkSsid (stationConfigurations : gmap string (option StationConfiguration.t))
    (entry : string * option NetworkStatus) : ssidCheck :=
  let '(stationName, stationStatus) := entry in
  match stationConfigurations !! stationName with
  | Some config =>
      match stationStatus with
      | None => CheckFalse
      | Some status =>
          match config with
          | None => CheckPanics
          | Some c =>
              if decide (Ssid status = StationConfiguration.Ssid c) then CheckNext
              else CheckFalse
          end
      end
  | None =>
      match stationStatus with
      | Some _ => CheckFalse
      | None => CheckNext
      end
  end.

(** [Some b]: the function returns [b]; [None]: it panics. *)
Fixpoint checkSsids (stationConfigurations : gmap string (option StationConfiguration.t))
    (entries : list (string * option NetworkStatus)) : option bool :=
  match entries with
  | [] => Some true
  | entry :: rest =>
      match checkSsid stationConfigurations entry with
      | CheckNext => checkSsids stationConfigurations rest
      | CheckFalse => Some false
      | CheckPanics => None
      end
  end.

Definition stationSsidsAreCorrect (env : Env)
    (stationConfigurations : gmap string (option StationConfiguration.t)) (st : State)
  : option bool * World :=
  let '(radio, w) := st in
  let '(entries, w1) := rangeMap env (StationStatuses radio) w in
  (checkSsids stationConfigurations entries, w1).

(** Convert station name to station enum: the zero value [red1] when no
    station has that name. *)
Definition stationOfName (stationName : string) : station :=
  default 0 (head (filter (fun s => station_String s = stationName) allStations)).

(** The body of the staging loop of [configureStations] for one entry of
    the request. *)
Definition stageStation (radio : Radio)
    (entry : string * option StationConfiguration.t) (w : World) : World :=
  let '(stationName, config) := entry in
  match config with
  | None => w
  | Some config =>
      let s := stationOfName stationName in
      let position := s + 1 in
      let wifiInterface := wifiIface position in
      let w1 := SetType "wireless" wifiInterface "ssid" (StationConfiguration.Ssid config) w in
      let w2 := SetType "wireless" wifiInterface "key" (StationConfiguration.WpaKey config) w1 in
      let w3 := match Type_ radio with
                | TypeVividHosting =>
                    SetType "wireless" wifiInterface "sae_password"
                            (StationConfiguration.WpaKey config) w2
                | _ => w2
                end in
      let vlan := "vlan" +:+ itoa (getStationVlan radio s) in
      SetType "wireless" wifiInterface "network" vlan w3
  end.

Definition stageStations (radio : Radio)
    (entries : list (string * option StationConfiguration.t)) (w : World) : World :=
  foldl (fun w entry => stageStation radio entry w) w entries.

(** How one turn of the [for {}] loop of [configureStations] ends, before
    the retry count is looked at. *)
Inductive passResult :=
| Converged
| Mismatch
| Aborted (err : string)
| PassPanics.

(** One turn of the loop: stage, commit, reload, refresh, compare. *)
Definition configureStationsPass (env : Env)
    (stationConfigurations : gmap string (option StationConfiguration.t)) (st : State)
  : passResult * State :=
  let '(radio, w) := st in
  let '(entries, w0) := rangeMap env stationConfigurations w in
  let w1 := stageStations radio entries w0 in
  match Commit env w1 with
  | (Some err, w2) =>
      (Aborted ("failed to commit wireless configuration: " +:+ err), (radio, w2))
  | (None, w2) =>
      match runCommand env ["wifi"; "reload"; device radio] w2 with
      | (Error err, w3) =>
          (Aborted ("failed to reload configuration for device " +:+ device radio
                    +:+ ": " +:+ err),
           (radio, w3))
      | (Ok _, w3) =>
          match updateStationStatuses env (radio, w3) with
          | (Some err, st4) => (Aborted ("error updating station statuses: " +:+ err), st4)
          | (None, (radio4, w4)) =>
              match stationSsidsAreCorrect env stationConfigurations (radio4, w4) with
              | (Some true, w5) => (Converged, (radio4, w5))
              | (Some false, w5) => (Mismatch, (radio4, w5))
              | (None, w5) => (PassPanics, (radio4, w5))
              end
          end
      end
  end.

(** [configureStations]: the loop from a given [retryCount] on; [fuel]
    bounds the number of turns unrolled. *)
Fixpoint configureStationsFrom (env : Env) (fuel : nat)
    (stationConfigurations : gmap string (option StationConfiguration.t))
    (retryCount : Z) (st : State) : exit * State :=
  match fuel with
  | O => (OutOfFuel, st)
  | S fuel' =>
      match configureStationsPass env stationConfigurations st with
      | (Aborted err, st') => (Returns (Some err), st')
      | (PassPanics, st') => (Panics, st')
      | (Converged, st') => (Returns None, st')
      | (Mismatch, st') =>
          if retryCount >=? maxRetryCount then
            (Returns (Some ("failed to configure stations after " +:+ itoa retryCount
                            +:+ " attempts")),
             st')
          else
            configureStationsFrom env fuel' stationConfigurations (retryCount + 1) st'
      end
  end.

Definition configureStations (env : Env) (fuel : nat)
    (stationConfigurations : gmap string (option StationConfiguration.t)) (st : State)
  : exit * State :=
  configureStationsFrom env fuel stationConfigurations 1 st.

(** The end of [configure], from the VLAN groups on. *)
Definition configureAfterBandwidth (env : Env) (fuel : nat)
    (request : ConfigurationRequest.t) (st : State) : exit * State :=
  let '(radio, w) := st in
  let radio :=
    if decide (ConfigurationRequest.RedVlans request <> EmptyString
               /\ ConfigurationRequest.BlueVlans request <> EmptyString) then
      setVlans (ConfigurationRequest.RedVlans request)
               (ConfigurationRequest.BlueVlans request) radio
    else radio in
  let syslog := ConfigurationRequest.SyslogIpAddress request in
  let afterSyslog : option string * State :=
    if decide (syslog <> EmptyString) then
      let w1 := SetType "system" "@system[0]" "log_ip" syslog w in
      match Commit env w1 with
      | (Some err, w2) =>
          (Some ("failed to commit system configuration: " +:+ err), (radio, w2))
      | (None, w2) =>
          let radio := setSyslogIpAddress syslog radio in
          match runCommand env ["/etc/init.d/log"; "restart"] w2 with
          | (Error err, w3) =>
              (Some ("failed to restart syslog service: " +:+ err), (radio, w3))
          | (Ok _, w3) => (None, (radio, w3))
          end
      end
    else (None, (radio, w)) in
  match afterSyslog with
  | (Some err, st1) => (Returns (Some err), st1)
  | (None, (radio, w)) =>
      match Type_ radio with
      | TypeLinksys =>
          (* Clear the state of the radio before loading teams. *)
          match configureStations env fuel ∅ (radio, w) with
          | (Returns None, st2) =>
              configureStations env fuel
                (ConfigurationRequest.StationConfigurations request) st2
          | other => other
          end
      | _ =>
          configureStations env fuel
            (ConfigurationRequest.StationConfigurations request) (radio, w)
      end
  end.

(** The [switch] on the requested bandwidth: [None] is its [default]
    case. *)
Definition htmodeOf (bandwidth : string) : option string :=
  if decide (bandwidth = "20MHz") then Some "HT20"
  else if decide (bandwidth = "40MHz") then Some "HT40"
  else None.

(** [configure] configures the radio with the given configuration. *)
Definition configure (env : Env) (fuel : nat) (request : ConfigurationRequest.t)
    (st : State) : exit * State :=
  let '(radio, w) := st in
  let '(radio, w) :=
    if 0 <? ConfigurationRequest.Channel request then
      (setChannel (ConfigurationRequest.Channel request) radio,
       SetType "wireless" (device radio) "channel"
               (itoa (ConfigurationRequest.Channel request)) w)
    else (radio, w) in
  let bandwidth := ConfigurationRequest.ChannelBandwidth request in
  if decide (bandwidth <> EmptyString) then
    match htmodeOf bandwidth with
    | None => (Returns (Some ("invalid channel bandwidth: " +:+ bandwidth)), (radio, w))
    | Some htmode =>
        configureAfterBandwidth env fuel request
          (setChannelBandwidth bandwidth radio,
           SetType "wireless" (device radio) "htmode" htmode w)
    end
  else configureAfterBandwidth env fuel request (radio, w).

(** [determineAndSetType] determines the model of the radio; the model
    is the empty string when the store has none. *)
Definition determineAndSetType (w : World) : RadioType :=
  let model := default EmptyString (GetLast "system" "@system[0]" "model" w) in
  if Contains model "VH" then TypeVividHosting else TypeLinksys.

(** [isStarted] returns true if the Wi-Fi interface is up and running. *)
Definition isStarted (env : Env) (st : State) : bool * State :=
  let '(radio, w) := st in
  match runCommand env ["iwinfo"; interfaceOf radio blue3; "info"] w with
  | (Ok _, w1) => (true, (radio, w1))
  | (Error _, w1) => (false, (radio, w1))
  end.

(** [NewRadio], from the hardware type on: the device and the interface
    of each station. *)
Definition deviceOf (type : RadioType) : string :=
  match type with
  | TypeLinksys => "radio0"
  | TypeVividHosting => "wifi1"
  | TypeUnknown => EmptyString
  end.

Definition interfacesOf (type : RadioType) : gmap station string :=
  match type with
  | TypeLinksys =>
      list_to_map [(red1, "wlan0"); (red2, "wlan0-1"); (red3, "wlan0-2");
                   (blue1, "wlan0-3"); (blue2, "wlan0-4"); (blue3, "wlan0-5")]
  | TypeVividHosting =>
      list_to_map [(red1, "ath1"); (red2, "ath11"); (red3, "ath12");
                   (blue1, "ath13"); (blue2, "ath14"); (blue3, "ath15")]
  | TypeUnknown => ∅
  end.

(** [NewRadio] creates a new Radio instance and initializes its fields to
    default values.  [version] is what [determineAndSetVersion], which is
    defined outside this file, stores in [Version]; [None] is the exit of
    the process through [log.Fatal]. *)
Definition NewRadio (version : string) (w : World) : option Radio :=
  let type := determineAndSetType w in
  match type with
  | TypeUnknown => None
  | _ =>
      Some {| Channel := 0; ChannelBandwidth := EmptyString;
              RedVlans := Vlans102030; BlueVlans := Vlans405060;
              Status := "BOOTING";
              StationStatuses :=
                foldl (fun m s => <[station_String s := None]> m) ∅ allStations;
              SyslogIpAddress := EmptyString; Version := version;
              ConfigurationRequestChannel := []; Type_ := type;
              device := deviceOf type; stationInterfaces := interfacesOf type |}
  end.

(** [setInitialState] initializes the in-memory state to match the radio's
    current configuration. *)
Definition setInitialState (env : Env) (st : State) : State :=
  let '(radio, w) := st in
  let channel := default EmptyString (GetLast "wireless" (device radio) "channel" w) in
  let radio := setChannel (Atoi channel) radio in
  let htmode := default EmptyString (GetLast "wireless" (device radio) "htmode" w) in
  let radio :=
    setChannelBandwidth
      (if decide (htmode = "HT20") then "20MHz"
       else if decide (htmode = "HT40") then "40MHz"
       else "INVALID") radio in
  let '(_, (radio, w)) := updateStationStatuses env (radio, w) in
  (setSyslogIpAddress (default EmptyString (GetLast "system" "@system[0]" "log_ip" w)) radio,
   w).

End AP.

(** ** Scenarios

    Concrete environments and radios on which the functions above are run. *)

Module Scenario.

(** A device that answers every command, and reports on the n-th command
    the SSID [ssidOf n iface] for the interface [iface]; commits succeed. *)
Definition device (ssidOf : nat -> string -> string) : Env :=
  {| commitError := fun _ => None;
     shellReply := fun n args =>
       match args with
       | [cmd; iface; _] =>
           if decide (cmd = "iwinfo") then Ok (iwinfoLine iface (ssidOf n iface))
           else Ok EmptyString
       | _ => Ok EmptyString
       end;
     randomInt := fun n => (7 * n + 3)%nat;
     rangeSeed := fun n => (5 * n)%nat |}.

(** The placeholder SSID of the interface, as a device without teams
    reports it. *)
Definition placeholderOf (iface : string) : string :=
  if decide (iface = "ath1" \/ iface = "wlan0") then "no-team-1"
  else if decide (iface = "ath11" \/ iface = "wlan0-1") then "no-team-2"
  else if decide (iface = "ath12" \/ iface = "wlan0-2") then "no-team-3"
  else if decide (iface = "ath13" \/ iface = "wlan0-3") then "no-team-4"
  else if decide (iface = "ath14" \/ iface = "wlan0-4") then "no-team-5"
  else "no-team-6".

(** A device without teams: every interface reports its placeholder. *)
Definition quiet : Env := device (fun _ iface => placeholderOf iface).

(** A device whose first interface broadcasts [ssid] from its n-th
    command on, and its placeholder before; no team elsewhere. *)
Definition serving (n : nat) (ssid : string) : Env :=
  device (fun k iface =>
            if decide (iface = "ath1" \/ iface = "wlan0") then
              if (k <? n)%nat then placeholderOf iface else ssid
            else placeholderOf iface).



(** The environment [base], but for its n-th commit, which fails. *)
Definition readOnly (n : nat) (base : Env) : Env :=
  {| commitError := fun k =>
       if (k =? n)%nat then Some "permission denied" else commitError base k;
     shellReply := shellReply base;
     randomInt := randomInt base; rangeSeed := rangeSeed base |}.

(** The same device next to a random source of period 16. *)
Definition periodic : Env :=
  {| commitError := commitError quiet; shellReply := shellReply quiet;
     randomInt := fun n => (n mod 16)%nat; rangeSeed := rangeSeed quiet |}.

Definition emptyWorld : World :=
  {| tree := ∅; saved := ∅; commits := 0; shellLog := []; draws := 0; ranges := 0 |}.

(** A store that holds a key for the first interface section. *)
Definition keyWorld : World :=
  SetType "wireless" (wifiIface 1) "key" "hunter22" emptyWorld.


Definition vividInterfaces : gmap station string :=
  list_to_map [(red1, "ath1"); (red2, "ath11"); (red3, "ath12");
               (blue1, "ath13"); (blue2, "ath14"); (blue3, "ath15")].

Definition linksysInterfaces : gmap station string :=
  list_to_map [(red1, "wlan0"); (red2, "wlan0-1"); (red3, "wlan0-2");
               (blue1, "wlan0-3"); (blue2, "wlan0-4"); (blue3, "wlan0-5")].

(** The radio that [NewRadio] builds on Vivid-Hosting hardware. *)
Definition vividRadio : AP.Radio :=
  {| AP.Channel := 0; AP.ChannelBandwidth := EmptyString;
     AP.RedVlans := AP.Vlans102030; AP.BlueVlans := AP.Vlans405060;
     AP.Status := "BOOTING";
     AP.StationStatuses := list_to_map ((fun s => (station_String s, None)) <$> allStations);
     AP.SyslogIpAddress := EmptyString; AP.Version := EmptyString;
     AP.ConfigurationRequestChannel := [];
     AP.Type_ := AP.TypeVividHosting; AP.device := "wifi1";
     AP.stationInterfaces := vividInterfaces |}.

(** Requests of the single-file controller: no team, and one team on the
    first red station. *)
Definition noTeams (channel : Z) : Legacy.ConfigurationRequest.t :=
  Legacy.ConfigurationRequest.mk channel ∅.

Definition oneTeam (channel : Z) (ssid key : string) : Legacy.ConfigurationRequest.t :=
  Legacy.ConfigurationRequest.mk channel
    {[ "red1" := Legacy.StationConfiguration.mk ssid key ]}.

(** A request of the access-point build without VLAN groups and syslog
    address. *)
Definition apRequest (channel : Z) (bandwidth : string)
    (stations : gmap string (option AP.StationConfiguration.t)) : AP.ConfigurationRequest.t :=
  AP.ConfigurationRequest.mk channel bandwidth EmptyString EmptyString EmptyString stations.

Definition team (ssid key : string) : option AP.StationConfiguration.t :=
  Some (AP.StationConfiguration.mk ssid key).

(** The radio that [NewRadio] of the single-file controller builds. *)
Definition legacyRadio (type : Legacy.radioType) : Legacy.Radio :=
  {| Legacy.Channel := 0; Legacy.Status := Legacy.statusBooting;
     Legacy.StationStatuses :=
       list_to_map ((fun s => (station_String s, None)) <$> allStations);
     Legacy.Type_ := type; Legacy.ConfigurationRequestChannel := [];
     Legacy.device := match type with Legacy.typeVividHosting => "wifi1" | _ => "radio0" end;
     Legacy.stationInterfaces :=
       match type with
       | Legacy.typeVividHosting => vividInterfaces
       | _ => linksysInterfaces
       end |}.

End Scenario.

(** ** The vocabulary of the specification

    Notions that the specification uses to describe the code; the
    properties below relate them to the functions embedded above. *)

Module Spec.

(** The two alliances, each in the order of its positions 1, 2, 3. *)
Definition redAlliance : list station := [red1; red2; red3].
Definition blueAlliance : list station := [blue1; blue2; blue3].

(** The position (1 to 3) of a station within its alliance; 0 for a value
    that is no station. *)
Definition positionInAlliance (s : station) : Z :=
  match list_find (fun t => t = s) redAlliance, list_find (fun t => t = s) blueAlliance with
  | Some (i, _), _ => Z.of_nat i + 1
  | None, Some (i, _) => Z.of_nat i + 1
  | None, None => 0
  end.

(** The VLAN group that the radio holds for the alliance of a station. *)
Definition allianceVlans (radio : AP.Radio) (s : station) : string :=
  if bool_decide (s ∈ redAlliance) then AP.RedVlans radio else AP.BlueVlans radio.

(** The offset that a VLAN group selects. *)
Definition vlanOffset (group : string) : option Z :=
  if decide (group = "10_20_30") then Some 0
  else if decide (group = "40_50_60") then Some 3
  else if decide (group = "70_80_90") then Some 6
  else None.

(** The salt that a sequence of random draws spells. *)
Definition saltOfDraws (ds : list nat) : string :=
  string_of_list_ascii
    ((fun d => saltChar (Z.of_nat d mod Z.of_nat (String.length saltCharacters))) <$> ds).

(** The draws that a call starting in world [w] consumes. *)
Definition nextDraws (env : Env) (w : World) (n : nat) : list nat :=
  randomInt env <$> seq (draws w) n.

(** Letters and digits. *)
Definition isAlphanumeric (c : ascii) : bool :=
  let n := nat_of_ascii c in
  ((48 <=? n)%nat && (n <=? 57)%nat)
  || ((65 <=? n)%nat && (n <=? 90)%nat)
  || ((97 <=? n)%nat && (n <=? 122)%nat).

(** The options that staging a station writes. *)
Definition stationOption (opt : string) : Prop :=
  opt = "ssid" \/ opt = "key" \/ opt = "sae_password" \/ opt = "network".

(** Lower-case hexadecimal digits. *)
Definition isLowerHex (c : ascii) : bool :=
  let n := nat_of_ascii c in
  ((48 <=? n)%nat && (n <=? 57)%nat) || ((97 <=? n)%nat && (n <=? 102)%nat).

(** The configuration store is the same in two worlds: nothing was staged
    and no commit was attempted in between. *)
Definition storeKept (w w' : World) : Prop :=
  tree w' = tree w /\ saved w' = saved w /\ commits w' = commits w.

(** What the reconciler of the single-file controller never writes: every
    field of the radio but the channel and the station statuses. *)
Definition legacyFrame (r r' : Legacy.Radio) : Prop :=
  Legacy.Status r' = Legacy.Status r
  /\ Legacy.Type_ r' = Legacy.Type_ r
  /\ Legacy.ConfigurationRequestChannel r' = Legacy.ConfigurationRequestChannel r
  /\ Legacy.device r' = Legacy.device r
  /\ Legacy.stationInterfaces r' = Legacy.stationInterfaces r.

(** What a status refresh of the access-point build never writes: every
    field of the radio but the station statuses. *)
Definition apFrame (r r' : AP.Radio) : Prop :=
  r' = AP.setStationStatuses (AP.StationStatuses r') r.


(** The world that a turn of the loop of [configureStations] has staged
    when it commits. *)
Definition stagedBy (env : Env)
    (stationConfigurations : gmap string (option AP.StationConfiguration.t))
    (st : AP.State) : World :=
  AP.stageStations st.1 (rangeMap env stationConfigurations st.2).1
                   (rangeMap env stationConfigurations st.2).2.



(** What the single-file controller stages for the station of index [i]:
    the SSID and the key of the request, or the placeholder for both. *)
Definition legacyStaged (stationConfigurations : gmap string Legacy.StationConfiguration.t)
    (i : Z) : string * string :=
  match stationConfigurations !! station_String i with
  | Some config =>
      (Legacy.StationConfiguration.Ssid config, Legacy.StationConfiguration.WpaKey config)
  | None => ("no-team-" +:+ itoa (i + 1), "no-team-" +:+ itoa (i + 1))
  end.

(** The statuses read from the device match a request of the single-file
    controller: every entry of a station that the request names is a status
    with the requested SSID, every other entry is nil. *)
Definition legacyMatches (stationConfigurations : gmap string Legacy.StationConfiguration.t)
    (statuses : gmap string (option Legacy.StationStatus)) : Prop :=
  forall name status,
    statuses !! name = Some status ->
    match stationConfigurations !! name with
    | Some config =>
        exists st, status = Some st
                   /\ Legacy.Ssid st = Legacy.StationConfiguration.Ssid config
    | None => status = None
    end.

(** The same for a request of the access-point build; an entry of a
    station that the request names with a nil configuration never
    matches. *)
Definition apMatches (stationConfigurations : gmap string (option AP.StationConfiguration.t))
    (statuses : gmap string (option AP.NetworkStatus)) : Prop :=
  forall name status,
    statuses !! name = Some status ->
    match stationConfigurations !! name with
    | Some (Some config) =>
        exists st, status = Some st /\ AP.Ssid st = AP.StationConfiguration.Ssid config
    | Some None => False
    | None => status = None
    end.

(** The number of [wifi reload] commands run so far. *)
Definition reloads (w : World) : nat :=
  length (filter (fun args => head args = Some "wifi") (shellLog w)).

(** The world after [n] more draws from the random source. *)
Definition afterDraws (n : nat) (w : World) : World :=
  {| tree := tree w; saved := saved w; commits := commits w; shellLog := shellLog w;
     draws := (n + draws w)%nat; ranges := ranges w |}.

End Spec.

(** * Properties *)

(** ** Sanity checks of the primitives *)

Example sha256_abc :
  sha256_hex "abc" = "ba7816bf8f01cfea414140de5dae2223b00361a396177a9cb410ff61f20015ad".
Proof. vm_compute. reflexivity. Qed.

Example sha256_empty :
  sha256_hex EmptyString = "e3b0c44298fc1c149afbf4c8996fb92427ae41e4649b934ca495991b7852b855".
Proof. vm_compute. reflexivity. Qed.

Example sha256_two_blocks :
  sha256_hex "aaaaaaaaaaaaaaaaaaaaaaaaaaaaaaaaaaaaaaaaaaaaaaaaaaaaaaaa"
  = "b35439a4ac6f0948b6d6f9e3c6af0f5f590ce20f1bde7090ef7970686ec6738a".
Proof. vm_compute. reflexivity. Qed.

Example station_String_values :
  station_String <$> allStations = ["red1"; "red2"; "red3"; "blue1"; "blue2"; "blue3"]
  /\ station_String 6 = "station(6)" /\ station_String (-1) = "station(-1)".
Proof. vm_compute. auto. Qed.

Example findSsid_values :
  findSsid (iwinfoLine "wlan0" "1234") = Some "1234"
  /\ findSsid (iwinfoLine "ath15" "no-team-6") = Some "no-team-6"
  /\ findSsid "wlan0     ESSID: unknown" = None
  /\ findSsid (iwinfoLine "wlan0" "caf#") = None
  /\ findSsid (iwinfoLine "wlan0" EmptyString) = Some EmptyString.
Proof. vm_compute. auto 6. Qed.

(** ** Evaluating a run without printing its world *)

Lemma pair_of_fst {A B} (p : A * B) (a : A) : p.1 = a -> p = (a, p.2).
Proof. destruct p. by intros <-. Qed.


(** ** Station names *)

Lemma station_cases (s : station) :
  0 <= s <= 5 -> s = red1 \/ s = red2 \/ s = red3 \/ s = blue1 \/ s = blue2 \/ s = blue3.
Proof. unfold red1, red2, red3, blue1, blue2, blue3. lia. Qed.

Lemma itoa_parse z : NilZero.int_of_string (itoa z) = Some (Z.to_int z).
Proof.
  unfold itoa. apply NilZero.isi; destruct z; simpl; try discriminate;
    intros [= H]; exact (DecimalPos.Unsigned.to_uint_nonnil _ H).
Qed.
Lemma itoa_inj i j : itoa i = itoa j -> i = j.
Proof.
  intros H. assert (E : Some (Z.to_int i) = Some (Z.to_int j)).
  { rewrite <- !itoa_parse. by rewrite H. }
  injection E as E. rewrite <- (DecimalZ.of_to i), <- (DecimalZ.of_to j). by rewrite E.
Qed.
Lemma length_append (a b : string) :
  String.length (a +:+ b) = (String.length a + String.length b)%nat.
Proof. induction a as [| x a IH]; simpl; [reflexivity | by rewrite IH]. Qed.
Lemma string_app_inv_tail (a b c : string) : a +:+ c = b +:+ c -> a = b.
Proof.
  intros H.
  assert (L : String.length a = String.length b).
  { apply (f_equal String.length) in H. rewrite !length_append in H. lia. }
  revert b H L. induction a as [| x a IH]; intros [| y b] H L;
    try discriminate L; [reflexivity |].
  cbn in H. injection H as -> H. f_equal. apply IH; [exact H | by injection L].
Qed.

Lemma station_String_out (i : station) :
  ~ 0 <= i <= 5 -> station_String i = "station(" +:+ itoa i +:+ ")".
Proof.
  intros H. unfold station_String.
  destruct (Z.ltb_spec i 0); [reflexivity |].
  rewrite Z.geb_leb.
  destruct (Z.leb_spec (Z.of_nat (length _station_index) - 1) i); [reflexivity |].
  exfalso. cbn in *. lia.
Qed.
Lemma station_String_in (i : station) :
  0 <= i <= 5 -> String.get 0 (station_String i) <> Some "s"%char.
Proof.
  intros H. destruct (station_cases i H) as [-> | [-> | [-> | [-> | [-> | ->]]]]];
    vm_compute; discriminate.
Qed.
Lemma station_String_inj (i j : station) : station_String i = station_String j -> i = j.
Proof.
  intros H.
  destruct (decide (0 <= i <= 5)) as [Hi | Hi], (decide (0 <= j <= 5)) as [Hj | Hj].
  - destruct (station_cases i Hi) as [-> | [-> | [-> | [-> | [-> | ->]]]]];
      destruct (station_cases j Hj) as [-> | [-> | [-> | [-> | [-> | ->]]]]];
      first [reflexivity | vm_compute in H; discriminate H].
  - exfalso. apply (station_String_in i Hi). rewrite H, (station_String_out j Hj). reflexivity.
  - exfalso. apply (station_String_in j Hj). rewrite <- H, (station_String_out i Hi). reflexivity.
  - rewrite (station_String_out i Hi), (station_String_out j Hj) in H.
    apply String.app_inj in H. apply string_app_inv_tail in H. by apply itoa_inj.
Qed.

(** Two different station values never print the same name, whether
    they are among the six stations or not. *)
Theorem station_String_distinct (i j : station) :
  i <> j -> station_String i <> station_String j.
Proof. intros Hne E. apply Hne. by apply station_String_inj. Qed.

(** ** VLAN numbers *)



(** C7. For each of the six stations [getStationVlan] returns
    [10 * (position + offset)], where the position (1 to 3) is the one of
    the station within its alliance and the offset 0, 3 or 6 is selected by
    the VLAN group of that alliance; for any other group value it returns
    the sentinel -1. *)
Theorem getStationVlan_formula (radio : AP.Radio) (s : station) :
  0 <= s <= 5 ->
  1 <= Spec.positionInAlliance s <= 3
  /\ AP.getStationVlan radio s =
       match Spec.vlanOffset (Spec.allianceVlans radio s) with
       | Some offset => 10 * (Spec.positionInAlliance s + offset)
       | None => -1
       end.
Proof.
  intros Hs.
  destruct (station_cases s Hs) as [-> | [-> | [-> | [-> | [-> | ->]]]]];
    (split; [vm_compute; split; discriminate |]);
    unfold AP.getStationVlan, Spec.vlanOffset, Spec.allianceVlans;
    cbn [bool_decide decide_rel]; simpl;
    repeat case_decide;
    unfold AP.Vlans102030, AP.Vlans405060, AP.Vlans708090 in *;
    try congruence; reflexivity.
Qed.

Lemma getStationVlan_formula_witness :
  0 <= blue2 <= 5
  /\ 1 <= Spec.positionInAlliance blue2 <= 3
  /\ AP.getStationVlan Scenario.vividRadio blue2 =
       match Spec.vlanOffset (Spec.allianceVlans Scenario.vividRadio blue2) with
       | Some offset => 10 * (Spec.positionInAlliance blue2 + offset)
       | None => -1
       end.
Proof.
  assert (H : 0 <= blue2 <= 5) by (unfold blue2; lia).
  split; [exact H | exact (getStationVlan_formula Scenario.vividRadio blue2 H)].
Defined.

(** The three groups give 10, 20, 30, then 40, 50, 60, then 70, 80, 90 by
    position, for either alliance. *)
Lemma getStationVlan_groups (radio : AP.Radio) (red blue : string) :
  let r := AP.setVlans red blue radio in
  (red = "10_20_30" -> AP.getStationVlan r <$> Spec.redAlliance = [10; 20; 30])
  /\ (red = "40_50_60" -> AP.getStationVlan r <$> Spec.redAlliance = [40; 50; 60])
  /\ (red = "70_80_90" -> AP.getStationVlan r <$> Spec.redAlliance = [70; 80; 90])
  /\ (blue = "10_20_30" -> AP.getStationVlan r <$> Spec.blueAlliance = [10; 20; 30])
  /\ (blue = "40_50_60" -> AP.getStationVlan r <$> Spec.blueAlliance = [40; 50; 60])
  /\ (blue = "70_80_90" -> AP.getStationVlan r <$> Spec.blueAlliance = [70; 80; 90]).
Proof. repeat split; intros ->; reflexivity. Qed.

(** A value that is no station gets the sentinel. *)
Lemma getStationVlan_invalid_station (radio : AP.Radio) (s : station) :
  ~ 0 <= s <= 5 -> AP.getStationVlan radio s = -1.
Proof.
  intros Hs. unfold AP.getStationVlan.
  destruct (decide (s = red1 \/ s = red2 \/ s = red3)) as [H | _].
  { unfold red1, red2, red3 in H. lia. }
  destruct (decide (s = blue1 \/ s = blue2 \/ s = blue3)) as [H | _].
  { unfold blue1, blue2, blue3 in H. lia. }
  reflexivity.
Qed.

(** ** What the primitives leave alone *)

Lemma storeKept_refl w : Spec.storeKept w w.
Proof. by repeat split. Qed.

Lemma storeKept_trans w1 w2 w3 :
  Spec.storeKept w1 w2 -> Spec.storeKept w2 w3 -> Spec.storeKept w1 w3.
Proof. intros (? & ? & ?) (? & ? & ?). repeat split; congruence. Qed.

Lemma runCommand_storeKept env args w : Spec.storeKept w (runCommand env args w).2.
Proof. by repeat split. Qed.

Lemma rangeMap_storeKept {K} `{Countable K} {V} env (m : gmap K V) w :
  Spec.storeKept w (rangeMap env m w).2.
Proof. by repeat split. Qed.

(** ** Credential hashing *)

Lemma drawSalt_spec env n w :
  drawSalt env n w = (Spec.saltOfDraws (Spec.nextDraws env w n), Spec.afterDraws n w).
Proof.
  revert w. induction n as [| n IH]; intros w.
  - destruct w; reflexivity.
  - cbn [drawSalt]. unfold Intn at 1. rewrite IH.
    unfold Spec.saltOfDraws, Spec.nextDraws, Spec.afterDraws. cbn.
    f_equal. f_equal. lia.
Qed.

Lemma string_of_list_ascii_length (l : list ascii) :
  String.length (string_of_list_ascii l) = length l.
Proof. induction l as [| c l IH]; cbn; [reflexivity | by rewrite IH]. Qed.

Lemma saltOfDraws_length ds : String.length (Spec.saltOfDraws ds) = length ds.
Proof. unfold Spec.saltOfDraws. by rewrite string_of_list_ascii_length, length_fmap. Qed.

Lemma saltChar_checked :
  forallb (fun i => Spec.isAlphanumeric (saltChar (Z.of_nat i))
                    && forallb (fun j => implb (Ascii.eqb (saltChar (Z.of_nat i))
                                                          (saltChar (Z.of_nat j)))
                                               (i =? j)%nat)
                               (seq 0 62))
          (seq 0 62) = true.
Proof. vm_compute. reflexivity. Qed.

Lemma saltChar_alphanumeric (i : nat) :
  (i < 62)%nat -> Spec.isAlphanumeric (saltChar (Z.of_nat i)) = true.
Proof.
  intros Hi. pose proof saltChar_checked as C.
  rewrite forallb_forall in C. specialize (C i).
  rewrite in_seq in C. apply andb_true_iff in C as [C _]; [exact C | lia].
Qed.

Lemma saltChar_inj (i j : nat) :
  (i < 62)%nat -> (j < 62)%nat ->
  saltChar (Z.of_nat i) = saltChar (Z.of_nat j) -> i = j.
Proof.
  intros Hi Hj E. pose proof saltChar_checked as C.
  rewrite forallb_forall in C. specialize (C i).
  rewrite in_seq in C. apply andb_true_iff in C as [_ C]; [| lia].
  rewrite forallb_forall in C. specialize (C j).
  rewrite in_seq in C. rewrite E, Ascii.eqb_refl in C. cbn in C.
  apply Nat.eqb_eq, C. lia.
Qed.

Lemma saltOfDraws_mod ds :
  Spec.saltOfDraws ds
  = string_of_list_ascii ((fun d => saltChar (Z.of_nat d)) <$> ((fun d => d mod 62)%nat <$> ds)).
Proof.
  unfold Spec.saltOfDraws. f_equal. rewrite <- list_fmap_compose.
  apply list_fmap_ext. intros _ d _. cbn [compose]. f_equal.
  change (String.length saltCharacters) with 62%nat.
  by rewrite Nat2Z.inj_mod.
Qed.

Lemma saltOfDraws_alphanumeric ds :
  forallb Spec.isAlphanumeric (list_ascii_of_string (Spec.saltOfDraws ds)) = true.
Proof.
  rewrite saltOfDraws_mod, list_ascii_of_string_of_list_ascii.
  induction ds as [| d ds IH]; [reflexivity |].
  cbn [fmap list_fmap forallb]. rewrite IH, saltChar_alphanumeric; [reflexivity |].
  apply Nat.mod_upper_bound. lia.
Qed.

(** Two sequences of draws spell the same salt exactly when they agree
    modulo the number of salt characters. *)
Lemma saltOfDraws_eq_iff ds1 ds2 :
  Spec.saltOfDraws ds1 = Spec.saltOfDraws ds2
  <-> (fun d => d mod 62)%nat <$> ds1 = (fun d => d mod 62)%nat <$> ds2.
Proof.
  rewrite !saltOfDraws_mod. split; [| by intros ->].
  intros E. apply (f_equal list_ascii_of_string) in E.
  rewrite !list_ascii_of_string_of_list_ascii in E.
  revert ds2 E. induction ds1 as [| a ds1 IH]; intros [| b ds2] E;
    try discriminate E; [reflexivity |].
  rewrite !fmap_cons in E. injection E as E1 E2.
  rewrite !fmap_cons. f_equal; [| by apply IH].
  apply saltChar_inj; [apply Nat.mod_upper_bound; lia .. | exact E1].
Qed.

Lemma hashedWpaKeyAndSaltAt_storeKept env position w :
  Spec.storeKept w (hashedWpaKeyAndSaltAt env position w).2.
Proof.
  unfold hashedWpaKeyAndSaltAt. destruct (GetLast _ _ _ w); [| apply storeKept_refl].
  rewrite drawSalt_spec. by repeat split.
Qed.

Lemma goRange_Permutation {A} (seed : nat) (l : list A) : goRange seed l ≡ₚ l.
Proof.
  unfold goRange. destruct (permutations l !! _) as [l' |] eqn:E; [| reflexivity].
  symmetry. apply permutations_Permutation. by eapply list_elem_of_lookup_2.
Qed.

(** ** Status refresh of the single-file controller *)

Lemma legacy_refreshStation_storeKept env entry st :
  Spec.storeKept st.2 (Legacy.refreshStation env entry st).2.2.
Proof.
  destruct entry as [s iface], st as [radio w]. unfold Legacy.refreshStation.
  pose proof (runCommand_storeKept env ["iwinfo"; iface; "info"] w) as K.
  destruct (runCommand env _ w) as [[output | err] w1]; [| exact K].
  destruct (findSsid output) as [ssid |]; [| exact K].
  destruct (HasPrefix ssid "no-team-"); [exact K |].
  pose proof (hashedWpaKeyAndSaltAt_storeKept env (s + 1) w1) as K2.
  unfold Legacy.getHashedWpaKeyAndSalt.
  destruct (hashedWpaKeyAndSaltAt env (s + 1) w1) as [[hashed salt] w2].
  exact (storeKept_trans _ _ _ K K2).
Qed.

Lemma legacy_refreshStation_other env t iface st s :
  t <> s ->
  Legacy.StationStatuses (Legacy.refreshStation env (t, iface) st).2.1 !! station_String s
  = Legacy.StationStatuses st.1 !! station_String s.
Proof.
  intros Hne. destruct st as [radio w]. unfold Legacy.refreshStation.
  assert (N : station_String t <> station_String s)
    by (intros E; apply Hne; by apply station_String_inj).
  destruct (runCommand env _ w) as [[output | err] w1]; [| reflexivity].
  destruct (findSsid output) as [ssid |]; [| reflexivity].
  destruct (HasPrefix ssid "no-team-").
  - cbn. by rewrite lookup_insert_ne.
  - destruct (Legacy.getHashedWpaKeyAndSalt env t w1) as [[hashed salt] w2].
    cbn. by rewrite lookup_insert_ne.
Qed.

Lemma legacy_refreshStations_others env entries st s :
  s ∉ entries.*1 ->
  Legacy.StationStatuses (Legacy.refreshStations env entries st).2.1 !! station_String s
  = Legacy.StationStatuses st.1 !! station_String s.
Proof.
  revert st. induction entries as [| [t iface] rest IH]; intros st Hs; [reflexivity |].
  rewrite fmap_cons, not_elem_of_cons in Hs. destruct Hs as [Hne Hrest].
  cbn [Legacy.refreshStations].
  pose proof (legacy_refreshStation_other env t iface st s (not_eq_sym Hne)) as E.
  destruct (Legacy.refreshStation env (t, iface) st) as [[err |] st']; [exact E |].
  rewrite IH; [exact E | exact Hrest].
Qed.

(** A status entry written for a station whose key is missing: cleared, or
    with empty hash and salt. *)
Lemma legacy_refreshStation_without_key env s iface radio w st' :
  GetLast "wireless" (wifiIface (s + 1)) "key" w = None ->
  Legacy.refreshStation env (s, iface) (radio, w) = (None, st') ->
  exists status,
    Legacy.StationStatuses st'.1 !! station_String s = Some status
    /\ draws st'.2 = draws w
    /\ match status with
       | None => True
       | Some status =>
           Legacy.HashedWpaKey status = EmptyString /\ Legacy.WpaKeySalt status = EmptyString
       end.
Proof.
  intros Hkey. unfold Legacy.refreshStation.
  assert (D : forall a, draws (runCommand env a w).2 = draws w) by reflexivity.
  assert (T : forall a, GetLast "wireless" (wifiIface (s + 1)) "key" (runCommand env a w).2 = None)
    by (intros a; exact Hkey).
  specialize (D ["iwinfo"; iface; "info"]). specialize (T ["iwinfo"; iface; "info"]).
  destruct (runCommand env _ w) as [[output | err] w1]; [| discriminate].
  destruct (findSsid output) as [ssid |]; [| discriminate].
  destruct (HasPrefix ssid "no-team-").
  - intros [= <-]. exists None. cbn. by rewrite lookup_insert_eq.
  - unfold Legacy.getHashedWpaKeyAndSalt, hashedWpaKeyAndSaltAt. cbn in T. rewrite T.
    intros [= <-]. eexists. cbn. rewrite lookup_insert_eq. by repeat split.
Qed.

Lemma legacy_refreshStations_without_key env entries st st' s iface :
  NoDup entries.*1 ->
  (s, iface) ∈ entries ->
  GetLast "wireless" (wifiIface (s + 1)) "key" st.2 = None ->
  Legacy.refreshStations env entries st = (None, st') ->
  exists status,
    Legacy.StationStatuses st'.1 !! station_String s = Some status
    /\ match status with
       | None => True
       | Some status =>
           Legacy.HashedWpaKey status = EmptyString /\ Legacy.WpaKeySalt status = EmptyString
       end.
Proof.
  revert st. induction entries as [| [t i] rest IH]; intros st Hnd Hin Hkey Hrun.
  { by apply elem_of_nil in Hin. }
  rewrite fmap_cons in Hnd. apply NoDup_cons in Hnd as [Hfresh Hnd].
  cbn [Legacy.refreshStations] in Hrun.
  pose proof (legacy_refreshStation_storeKept env (t, i) st) as (Ktree & _ & _).
  destruct (Legacy.refreshStation env (t, i) st) as [[err |] st1] eqn:E1; [discriminate |].
  apply elem_of_cons in Hin as [[= -> ->] | Hin].
  - destruct st as [radio w].
    destruct (legacy_refreshStation_without_key env t i radio w st1 Hkey E1)
      as (status & Hlook & _ & Hstatus).
    exists status. split; [| exact Hstatus].
    pose proof (legacy_refreshStations_others env rest st1 t Hfresh) as O.
    rewrite Hrun in O. cbn in O. by rewrite O.
  - apply (IH st1); [exact Hnd | exact Hin | | exact Hrun].
    unfold GetLast in *. cbn in Ktree. by rewrite Ktree.
Qed.

(** C10. If the configuration store holds no WPA key for the interface
    section of a station, [getHashedWpaKeyAndSalt] returns two empty strings,
    signals nothing and leaves the world, random source included, as it
    was; a status refresh then gives that station a status with empty
    [HashedWpaKey] and [WpaKeySalt], unless it clears it. *)
Theorem getHashedWpaKeyAndSalt_without_key (env : Env) (s : station) (w : World) :
  GetLast "wireless" (wifiIface (s + 1)) "key" w = None ->
  Legacy.getHashedWpaKeyAndSalt env s w = ((EmptyString, EmptyString), w)
  /\ (forall radio iface output ssid,
        shellReply env (length (shellLog w)) ["iwinfo"; iface; "info"] = Ok output ->
        findSsid output = Some ssid ->
        HasPrefix ssid "no-team-" = false ->
        exists w',
          Legacy.refreshStation env (s, iface) (radio, w)
          = (None,
             (Legacy.setStationStatuses
                (<[station_String s :=
                     Some {| Legacy.Ssid := ssid; Legacy.HashedWpaKey := EmptyString;
                             Legacy.WpaKeySalt := EmptyString |}]>
                   (Legacy.StationStatuses radio)) radio,
              w'))
          /\ draws w' = draws w)
  /\ (forall radio st',
        is_Some (Legacy.stationInterfaces radio !! s) ->
        Legacy.updateStationStatuses env (radio, w) = (None, st') ->
        exists status,
          Legacy.StationStatuses st'.1 !! station_String s = Some status
          /\ match status with
             | None => True
             | Some status =>
                 Legacy.HashedWpaKey status = EmptyString
                 /\ Legacy.WpaKeySalt status = EmptyString
             end).
Proof.
  intros Hkey. split; [| split].
  - unfold Legacy.getHashedWpaKeyAndSalt, hashedWpaKeyAndSaltAt. by rewrite Hkey.
  - intros radio iface output ssid Hreply Hparse Hprefix.
    unfold Legacy.refreshStation, runCommand. rewrite Hreply, Hparse, Hprefix.
    unfold Legacy.getHashedWpaKeyAndSalt, hashedWpaKeyAndSaltAt.
    change (GetLast "wireless" (wifiIface (s + 1)) "key" _)
      with (GetLast "wireless" (wifiIface (s + 1)) "key" w).
    rewrite Hkey. eexists. split; reflexivity.
  - intros radio st' [iface Hiface] Hrun. unfold Legacy.updateStationStatuses in Hrun.
    destruct (rangeMap env (Legacy.stationInterfaces radio) w) as [entries w1] eqn:R.
    unfold rangeMap in R. injection R as <- <-.
    pose proof (goRange_Permutation (rangeSeed env (ranges w))
                  (map_to_list (Legacy.stationInterfaces radio))) as P.
    eapply legacy_refreshStations_without_key; [| | | exact Hrun].
    + rewrite P. apply NoDup_fst_map_to_list.
    + rewrite P. by apply elem_of_map_to_list.
    + exact Hkey.
Qed.

Lemma getHashedWpaKeyAndSalt_without_key_witness :
  GetLast "wireless" (wifiIface (red1 + 1)) "key" Scenario.emptyWorld = None
  /\ Legacy.getHashedWpaKeyAndSalt Scenario.quiet red1 Scenario.emptyWorld
     = ((EmptyString, EmptyString), Scenario.emptyWorld).
Proof.
  split; [reflexivity |].
  exact (proj1 (getHashedWpaKeyAndSalt_without_key Scenario.quiet red1 Scenario.emptyWorld
                  eq_refl)).
Defined.

(** C9, as the code has it.  When the configuration store holds a WPA key
    for the station, [getHashedWpaKeyAndSalt] consumes sixteen draws of the
    random source and returns the salt they spell, sixteen letters and
    digits that do not depend on the key, next to the hex-encoded SHA-256
    of the key followed by that salt; another call returns the same salt
    exactly when its sixteen draws agree with these modulo 62. *)
Theorem getHashedWpaKeyAndSalt_with_key (env : Env) (s : station) (w : World)
    (wpaKey : string) :
  GetLast "wireless" (wifiIface (s + 1)) "key" w = Some wpaKey ->
  let salt := Spec.saltOfDraws (Spec.nextDraws env w saltLength) in
  Legacy.getHashedWpaKeyAndSalt env s w
  = ((sha256_hex (wpaKey +:+ salt), salt), Spec.afterDraws saltLength w)
  /\ String.length salt = 16%nat
  /\ forallb Spec.isAlphanumeric (list_ascii_of_string salt) = true
  /\ (forall env' w',
        Spec.saltOfDraws (Spec.nextDraws env' w' saltLength) = salt
        <-> (fun d => d mod 62)%nat <$> Spec.nextDraws env' w' saltLength
            = (fun d => d mod 62)%nat <$> Spec.nextDraws env w saltLength).
Proof.
  intros Hkey salt. subst salt. split; [| split; [| split]].
  - unfold Legacy.getHashedWpaKeyAndSalt, hashedWpaKeyAndSaltAt.
    by rewrite Hkey, drawSalt_spec.
  - unfold Spec.nextDraws. by rewrite saltOfDraws_length, length_fmap, length_seq.
  - apply saltOfDraws_alphanumeric.
  - intros env' w'. apply saltOfDraws_eq_iff.
Qed.

Lemma getHashedWpaKeyAndSalt_with_key_witness :
  GetLast "wireless" (wifiIface (red1 + 1)) "key" Scenario.keyWorld = Some "hunter22"
  /\ Legacy.getHashedWpaKeyAndSalt Scenario.quiet red1 Scenario.keyWorld
     = (("21ed98aa181b9a1de6e90f3244df0ed8b1fe5e7ab12e985791d13f3a19eb06b7",
         "dkryFMT07elszGNU"),
        Spec.afterDraws saltLength Scenario.keyWorld).
Proof.
  split; [reflexivity |].
  etransitivity;
    [exact (proj1 (getHashedWpaKeyAndSalt_with_key Scenario.quiet red1 Scenario.keyWorld
                     "hunter22" eq_refl))
    | vm_compute; reflexivity].
Defined.

(** C9, as stated, fails: without a key in the store the salt is empty, and
    with a key and a random source that repeats, two successive calls return
    the same salt. *)
Lemma getHashedWpaKeyAndSalt_salt_not_always_fresh :
  String.length (Legacy.getHashedWpaKeyAndSalt Scenario.quiet red1 Scenario.emptyWorld).1.2
  <> 16%nat
  /\ (let first := Legacy.getHashedWpaKeyAndSalt Scenario.periodic red1 Scenario.keyWorld in
      let second := Legacy.getHashedWpaKeyAndSalt Scenario.periodic red1 first.2 in
      first.1.2 = "abcdefghijklmnop" /\ second.1.2 = first.1.2
      /\ draws second.2 = 32%nat).
Proof. split; [vm_compute; discriminate | vm_compute; auto]. Qed.

(** ** Request handling of the single-file controller *)

Lemma legacyFrame_refl r : Spec.legacyFrame r r.
Proof. by repeat split. Qed.

Lemma legacyFrame_trans r1 r2 r3 :
  Spec.legacyFrame r1 r2 -> Spec.legacyFrame r2 r3 -> Spec.legacyFrame r1 r3.
Proof. intros (? & ? & ? & ? & ?) (? & ? & ? & ? & ?). repeat split; congruence. Qed.

Lemma legacy_refreshStation_frame env entry st :
  Spec.legacyFrame st.1 (Legacy.refreshStation env entry st).2.1.
Proof.
  destruct entry as [s iface], st as [radio w]. unfold Legacy.refreshStation.
  destruct (runCommand env _ w) as [[output | err] w1]; [| apply legacyFrame_refl].
  destruct (findSsid output) as [ssid |]; [| apply legacyFrame_refl].
  destruct (HasPrefix ssid "no-team-"); [by repeat split |].
  destruct (Legacy.getHashedWpaKeyAndSalt env s w1) as [[hashed salt] w2].
  by repeat split.
Qed.

Lemma legacy_refreshStations_frame env entries st :
  Spec.legacyFrame st.1 (Legacy.refreshStations env entries st).2.1.
Proof.
  revert st. induction entries as [| entry rest IH]; intros st; [apply legacyFrame_refl |].
  cbn [Legacy.refreshStations].
  pose proof (legacy_refreshStation_frame env entry st) as F.
  destruct (Legacy.refreshStation env entry st) as [[err |] st1]; [exact F |].
  exact (legacyFrame_trans _ _ _ F (IH st1)).
Qed.

Lemma legacy_updateStationStatuses_frame env st :
  Spec.legacyFrame st.1 (Legacy.updateStationStatuses env st).2.1.
Proof.
  destruct st as [radio w]. unfold Legacy.updateStationStatuses.
  destruct (rangeMap env (Legacy.stationInterfaces radio) w) as [entries w1].
  apply (legacy_refreshStations_frame env entries (radio, w1)).
Qed.

Lemma legacy_configureStationsFrom_frame env fuel cfgs retryCount st :
  Spec.legacyFrame st.1 (Legacy.configureStationsFrom env fuel cfgs retryCount st).2.1.
Proof.
  revert retryCount st. induction fuel as [| fuel IH]; intros retryCount [radio w];
    [apply legacyFrame_refl |].
  cbn [Legacy.configureStationsFrom].
  destruct (Legacy.stageStations env _ cfgs _ w) as [[err |] w1]; [apply legacyFrame_refl |].
  destruct (runCommand env _ w1) as [[output | err] w2]; [| apply legacyFrame_refl].
  pose proof (legacy_updateStationStatuses_frame env (radio, w2)) as F.
  destruct (Legacy.updateStationStatuses env (radio, w2)) as [[err |] [radio3 w3]];
    [exact F |].
  destruct (Legacy.stationSsidsAreCorrect env cfgs (radio3, w3)) as [[|] w4]; [exact F |].
  exact (legacyFrame_trans _ _ _ F (IH _ (radio3, w4))).
Qed.

Lemma legacy_configure_frame env fuel request st :
  Spec.legacyFrame st.1 (Legacy.configure env fuel request st).2.1.
Proof.
  destruct st as [radio w]. unfold Legacy.configure, Legacy.configureStations.
  set (st0 := if 0 <? Legacy.ConfigurationRequest.Channel request then _ else _).
  assert (F0 : Spec.legacyFrame radio st0.1).
  { subst st0. destruct (0 <? _); by repeat split. }
  destruct st0 as [radio0 w0]. cbn [fst] in F0.
  assert (T0 : Legacy.Type_ radio0 = Legacy.Type_ radio) by apply F0.
  destruct (Legacy.Type_ radio0).
  - exact (legacyFrame_trans _ _ _ F0 (legacy_configureStationsFrom_frame env fuel _ 1 (radio0, w0))).
  - pose proof (legacy_configureStationsFrom_frame env fuel ∅ 1 (radio0, w0)) as F1.
    destruct (Legacy.configureStationsFrom env fuel ∅ 1 (radio0, w0)) as [[[err |] | |] st1];
      try exact (legacyFrame_trans _ _ _ F0 F1).
    exact (legacyFrame_trans _ _ _ F0
             (legacyFrame_trans _ _ _ F1 (legacy_configureStationsFrom_frame env fuel _ 1 st1))).
  - exact (legacyFrame_trans _ _ _ F0 (legacy_configureStationsFrom_frame env fuel _ 1 (radio0, w0))).
Qed.

Lemma drain_all (request : Legacy.ConfigurationRequest.t) queue :
  Legacy.drain (length queue) request queue = (default request (last queue), []).
Proof.
  revert request. induction queue as [| next queue IH]; intros request; [reflexivity |].
  cbn [length Legacy.drain]. rewrite IH, last_cons. by destruct (last queue).
Qed.

(** What [handleConfigurationRequest] does once the request to apply is
    known. *)
Lemma handleConfigurationRequest_unfold env fuel request arrived radio w :
  let newest := default request (last (Legacy.ConfigurationRequestChannel radio)) in
  let start := (Legacy.setStatus Legacy.statusConfiguring (Legacy.setChannelQueue [] radio), w) in
  Legacy.handleConfigurationRequest env fuel request arrived (radio, w)
  = match Legacy.configure env fuel newest start with
    | (Returns (Some err), (radio1, w1)) =>
        (Returns (Some err),
         (Legacy.setStatus Legacy.statusError (Legacy.setChannelQueue arrived radio1), w1))
    | (Returns None, (radio1, w1)) =>
        (Returns None,
         (match arrived with
          | [] => Legacy.setStatus Legacy.statusActive (Legacy.setChannelQueue arrived radio1)
          | _ => Legacy.setChannelQueue arrived radio1
          end, w1))
    | other => other
    end.
Proof.
  intros newest start. unfold Legacy.handleConfigurationRequest.
  rewrite drain_all. fold newest. fold start.
  pose proof (legacy_configure_frame env fuel newest start) as (_ & _ & Q & _).
  destruct (Legacy.configure env fuel newest start) as [[[err |] | |] [radio1 w1]];
    try reflexivity; cbn in Q; rewrite Q; cbn [app]; [reflexivity |].
  by destruct arrived.
Qed.

(** C6. Whatever is queued behind the request that [Run] received, the
    handler behaves as if only the most recently enqueued request had been
    received with nothing behind it: that request alone reaches [configure],
    the older ones are taken off the channel and change neither the result
    nor the state in which the call ends. *)
Theorem handleConfigurationRequest_coalesces (env : Env) (fuel : nat)
    (request : Legacy.ConfigurationRequest.t) (arrived : list Legacy.ConfigurationRequest.t)
    (radio : Legacy.Radio) (w : World) :
  let newest := default request (last (Legacy.ConfigurationRequestChannel radio)) in
  Legacy.handleConfigurationRequest env fuel request arrived (radio, w)
  = Legacy.handleConfigurationRequest env fuel newest arrived
      (Legacy.setChannelQueue [] radio, w)
  /\ Legacy.ConfigurationRequestChannel
       (Legacy.handleConfigurationRequest env fuel request arrived (radio, w)).2.1
     = match (Legacy.handleConfigurationRequest env fuel request arrived (radio, w)).1 with
       | Returns _ => arrived
       | _ => []
       end.
Proof.
  intros newest. split.
  - rewrite !handleConfigurationRequest_unfold. reflexivity.
  - rewrite handleConfigurationRequest_unfold. fold newest.
    set (start := (Legacy.setStatus _ _, w)).
    pose proof (legacy_configure_frame env fuel newest start) as (_ & _ & Q & _).
    destruct (Legacy.configure env fuel newest start) as [[[err |] | |] [radio1 w1]];
      cbn in Q |- *; try exact Q; try reflexivity.
    by destruct arrived.
Qed.

(** C8, as the code has it.  When [configure] returns, the handler returns
    too and the loop of [Run] goes on; the status is ERROR after an error,
    ACTIVE after a success with nothing queued in the meantime, and still
    CONFIGURING after a success with further requests waiting. *)
Theorem handleConfigurationRequest_status (env : Env) (fuel : nat)
    (request : Legacy.ConfigurationRequest.t) (arrived : list Legacy.ConfigurationRequest.t)
    (radio : Legacy.Radio) (w : World) (err : option string) (st1 : Legacy.State) :
  let newest := default request (last (Legacy.ConfigurationRequestChannel radio)) in
  Legacy.configure env fuel newest
    (Legacy.setStatus Legacy.statusConfiguring (Legacy.setChannelQueue [] radio), w)
  = (Returns err, st1) ->
  exists radio',
    Legacy.handleConfigurationRequest env fuel request arrived (radio, w)
    = (Returns err, (radio', st1.2))
    /\ Legacy.runRequestTurn env fuel request arrived (radio, w) = Some (radio', st1.2)
    /\ Legacy.Status radio'
       = match err, arrived with
         | Some _, _ => Legacy.statusError
         | None, [] => Legacy.statusActive
         | None, _ :: _ => Legacy.statusConfiguring
         end.
Proof.
  intros newest Hconf. unfold Legacy.runRequestTurn.
  rewrite handleConfigurationRequest_unfold. fold newest.
  pose proof (legacy_configure_frame env fuel newest
                (Legacy.setStatus Legacy.statusConfiguring (Legacy.setChannelQueue [] radio), w))
    as (S & _).
  rewrite Hconf in S |- *. destruct st1 as [radio1 w1]. cbn in S.
  destruct err as [e |]; [| destruct arrived as [| a arrived]];
    eexists; (split; [reflexivity | split; [reflexivity |]]); cbn; try reflexivity.
  exact S.
Qed.

(** Three requests are queued before the controller starts on the first:
    the channel of the last one is applied, and the run is the one of the
    last request alone. *)
Lemma handleConfigurationRequest_coalesces_witness :
  let env := Scenario.serving 0 "1234" in
  let radio :=
    Legacy.setChannelQueue [Scenario.noTeams 6; Scenario.oneTeam 11 "1234" "hunter22"]
      (Scenario.legacyRadio Legacy.typeVividHosting) in
  let st := (radio, Scenario.emptyWorld) in
  Legacy.handleConfigurationRequest env 1 (Scenario.noTeams 1) [] st
  = Legacy.handleConfigurationRequest env 1 (Scenario.oneTeam 11 "1234" "hunter22") []
      (Legacy.setChannelQueue [] radio, Scenario.emptyWorld)
  /\ (Legacy.handleConfigurationRequest env 1 (Scenario.noTeams 1) [] st).1 = Returns None
  /\ Legacy.Channel (Legacy.handleConfigurationRequest env 1 (Scenario.noTeams 1) [] st).2.1
     = 11
  /\ Legacy.ConfigurationRequestChannel
       (Legacy.handleConfigurationRequest env 1 (Scenario.noTeams 1) [] st).2.1 = [].
Proof.
  intros env radio st. split.
  - exact (proj1 (handleConfigurationRequest_coalesces env 1 (Scenario.noTeams 1)
                    [] radio Scenario.emptyWorld)).
  - vm_compute. auto.
Defined.

Lemma handleConfigurationRequest_status_witness :
  let radio := Scenario.legacyRadio Legacy.typeLinksys in
  let start :=
    (Legacy.setStatus Legacy.statusConfiguring (Legacy.setChannelQueue [] radio),
     Scenario.emptyWorld) in
  let st1 := (Legacy.configure Scenario.quiet 1 (Scenario.noTeams 36) start).2 in
  Legacy.configure Scenario.quiet 1 (Scenario.noTeams 36) start = (Returns None, st1)
  /\ exists radio',
       Legacy.handleConfigurationRequest Scenario.quiet 1 (Scenario.noTeams 36) []
         (radio, Scenario.emptyWorld)
       = (Returns None, (radio', st1.2))
       /\ Legacy.runRequestTurn Scenario.quiet 1 (Scenario.noTeams 36) []
            (radio, Scenario.emptyWorld)
          = Some (radio', st1.2)
       /\ Legacy.Status radio' = Legacy.statusActive.
Proof.
  intros radio start st1.
  assert (H0 : (Legacy.configure Scenario.quiet 1 (Scenario.noTeams 36) start).1
               = Returns None) by (vm_compute; reflexivity).
  pose proof (pair_of_fst _ _ H0) as H.
  split; [exact H |].
  exact (handleConfigurationRequest_status Scenario.quiet 1 (Scenario.noTeams 36) []
           radio Scenario.emptyWorld None st1 H).
Defined.

(** C8, as stated, fails: [configure] succeeds while another request has
    been queued, and the status is left at CONFIGURING, not ACTIVE. *)
Lemma handleConfigurationRequest_success_not_active :
  let st := (Scenario.legacyRadio Legacy.typeLinksys, Scenario.emptyWorld) in
  let out :=
    Legacy.handleConfigurationRequest Scenario.quiet 1 (Scenario.noTeams 36)
      [Scenario.noTeams 40] st in
  out.1 = Returns None
  /\ Legacy.Status out.2.1 = "CONFIGURING"
  /\ Legacy.Status out.2.1 <> Legacy.statusActive.
Proof. vm_compute. repeat split; discriminate. Qed.

(** ** Status refresh of the access-point build *)

Lemma apFrame_refl r : Spec.apFrame r r.
Proof. by destruct r. Qed.

Lemma apFrame_trans r1 r2 r3 : Spec.apFrame r1 r2 -> Spec.apFrame r2 r3 -> Spec.apFrame r1 r3.
Proof. unfold Spec.apFrame. intros H1 H2. rewrite H2 at 1. rewrite H1 at 1. reflexivity. Qed.

Lemma getSsid_storeKept env iface w : Spec.storeKept w (AP.getSsid env iface w).2.
Proof.
  unfold AP.getSsid.
  pose proof (runCommand_storeKept env ["iwinfo"; iface; "info"] w) as K.
  destruct (runCommand env _ w) as [[output | err] w1]; [| exact K].
  by destruct (findSsid output).
Qed.

Lemma ap_refreshStation_kept env s st :
  Spec.storeKept st.2 (AP.refreshStation env s st).2.2
  /\ Spec.apFrame st.1 (AP.refreshStation env s st).2.1.
Proof.
  destruct st as [radio w]. unfold AP.refreshStation.
  pose proof (getSsid_storeKept env (AP.interfaceOf radio s) w) as K.
  destruct (AP.getSsid env _ w) as [[ssid | err] w1]; [| split; [exact K | apply apFrame_refl]].
  destruct (HasPrefix ssid "no-team-"); [split; [exact K | by destruct radio] |].
  pose proof (hashedWpaKeyAndSaltAt_storeKept env (s + 1) w1) as K2.
  unfold AP.getHashedWpaKeyAndSalt.
  destruct (hashedWpaKeyAndSaltAt env (s + 1) w1) as [[hashed salt] w2].
  split; [exact (storeKept_trans _ _ _ K K2) | by destruct radio].
Qed.

Lemma ap_refreshStations_kept env stations st :
  Spec.storeKept st.2 (AP.refreshStations env stations st).2.2
  /\ Spec.apFrame st.1 (AP.refreshStations env stations st).2.1.
Proof.
  revert st. induction stations as [| s rest IH]; intros st.
  { split; [apply storeKept_refl | apply apFrame_refl]. }
  cbn [AP.refreshStations].
  pose proof (ap_refreshStation_kept env s st) as [K F].
  destruct (AP.refreshStation env s st) as [[err |] st1]; [by split |].
  destruct (IH st1) as [K1 F1].
  split; [exact (storeKept_trans _ _ _ K K1) | exact (apFrame_trans _ _ _ F F1)].
Qed.

Lemma ap_refreshStation_other env t st s :
  t <> s ->
  AP.StationStatuses (AP.refreshStation env t st).2.1 !! station_String s
  = AP.StationStatuses st.1 !! station_String s.
Proof.
  intros Hne. destruct st as [radio w]. unfold AP.refreshStation.
  assert (N : station_String t <> station_String s)
    by (intros E; apply Hne; by apply station_String_inj).
  destruct (AP.getSsid env _ w) as [[ssid | err] w1]; [| reflexivity].
  destruct (HasPrefix ssid "no-team-").
  - cbn. by rewrite lookup_insert_ne.
  - destruct (AP.getHashedWpaKeyAndSalt env (t + 1) w1) as [[hashed salt] w2].
    cbn. by rewrite lookup_insert_ne.
Qed.


Lemma ap_refreshStations_others env stations st s :
  s ∉ stations ->
  AP.StationStatuses (AP.refreshStations env stations st).2.1 !! station_String s
  = AP.StationStatuses st.1 !! station_String s.
Proof.
  revert st. induction stations as [| t rest IH]; intros st Hs; [reflexivity |].
  rewrite not_elem_of_cons in Hs. destruct Hs as [Hne Hrest].
  cbn [AP.refreshStations].
  pose proof (ap_refreshStation_other env t st s (not_eq_sym Hne)) as E.
  destruct (AP.refreshStation env t st) as [[err |] st']; [exact E |].
  rewrite IH; [exact E | exact Hrest].
Qed.

Lemma allStations_NoDup : NoDup allStations.
Proof. compute_done. Qed.









(** ** The reconciliation loop of the access-point build *)

(** Staging writes the tree and nothing else. *)
Lemma ap_stageStation_kept radio entry w :
  let w' := AP.stageStation radio entry w in
  saved w' = saved w /\ commits w' = commits w /\ shellLog w' = shellLog w
  /\ draws w' = draws w /\ ranges w' = ranges w.
Proof.
  destruct entry as [name [config |]]; [| by repeat split].
  unfold AP.stageStation. by destruct (AP.Type_ radio).
Qed.

Lemma ap_stageStations_kept radio entries w :
  let w' := AP.stageStations radio entries w in
  saved w' = saved w /\ commits w' = commits w /\ shellLog w' = shellLog w
  /\ draws w' = draws w /\ ranges w' = ranges w.
Proof.
  unfold AP.stageStations. revert w.
  induction entries as [| entry rest IH]; intros w; [by repeat split |].
  cbn [foldl]. destruct (IH (AP.stageStation radio entry w)) as (-> & -> & -> & -> & ->).
  apply ap_stageStation_kept.
Qed.

Lemma ap_updateStationStatuses_kept env st :
  Spec.storeKept st.2 (AP.updateStationStatuses env st).2.2
  /\ Spec.apFrame st.1 (AP.updateStationStatuses env st).2.1.
Proof. apply ap_refreshStations_kept. Qed.

Lemma ap_pass_store env cfgs st :
  let out := AP.configureStationsPass env cfgs st in
  commits out.2.2 = S (commits st.2)
  /\ tree out.2.2 = tree (Spec.stagedBy env cfgs st)
  /\ match commitError env (commits st.2) with
     | None => saved out.2.2 = tree (Spec.stagedBy env cfgs st)
     | Some e =>
         out.1 = AP.Aborted ("failed to commit wireless configuration: " +:+ e)
         /\ out.2.1 = st.1
         /\ saved out.2.2 = saved st.2
         /\ shellLog out.2.2 = shellLog st.2
     end.
Proof.
  destruct st as [radio w]. unfold Spec.stagedBy, AP.configureStationsPass. cbn [fst snd].
  destruct (rangeMap env cfgs w) as [entries w0] eqn:R. cbn [fst snd].
  assert (R0 : saved w0 = saved w /\ commits w0 = commits w /\ shellLog w0 = shellLog w).
  { unfold rangeMap in R. by injection R as <- <-. }
  destruct R0 as (Rs & Rc & Rl).
  pose proof (ap_stageStations_kept radio entries w0) as (Ss & Sc & Sl & _).
  set (w1 := AP.stageStations radio entries w0) in *.
  unfold Commit. rewrite Sc, Rc.
  destruct (commitError env (commits w)) as [e |].
  { cbn. repeat split; congruence. }
  set (w2 := {| tree := tree w1; saved := tree w1 |}).
  pose proof (runCommand_storeKept env ["wifi"; "reload"; AP.device radio] w2)
    as (T3 & S3 & C3).
  destruct (runCommand env _ w2) as [[output | err] w3]; cbn [snd] in T3, S3, C3.
  2: { cbn [fst snd]. by rewrite T3, S3, C3. }
  pose proof (ap_updateStationStatuses_kept env (radio, w3)) as [(T4 & S4 & C4) _].
  destruct (AP.updateStationStatuses env (radio, w3)) as [[err |] [radio4 w4]];
    cbn [fst snd] in T4, S4, C4.
  { cbn [fst snd]. by rewrite T4, S4, C4, T3, S3, C3. }
  unfold AP.stationSsidsAreCorrect.
  destruct (rangeMap env (AP.StationStatuses radio4) w4) as [entries' w5] eqn:R5.
  assert (K5 : Spec.storeKept w4 w5).
  { unfold rangeMap in R5. injection R5 as _ <-. by repeat split. }
  destruct K5 as (T5 & S5 & C5).
  destruct (AP.checkSsids cfgs entries') as [[|] |]; cbn [fst snd];
    by rewrite T5, S5, C5, T4, S4, C4, T3, S3, C3.
Qed.













(** The device never reports the requested SSID: three attempts, then the
    convergence error. *)
Lemma configureStations_never_matching :
  let cfgs : gmap string (option AP.StationConfiguration.t) :=
    {[ "red1" := Scenario.team "1234" "hunter22" ]} in
  let out := AP.configureStations Scenario.quiet 10 cfgs
               (Scenario.vividRadio, Scenario.emptyWorld) in
  out.1 = Returns (Some "failed to configure stations after 3 attempts")
  /\ commits out.2.2 = 3%nat /\ Spec.reloads out.2.2 = 3%nat.
Proof. vm_compute. auto. Qed.

(** C5. Every turn of the loop of [configureStations] commits once, after
    the whole staging loop, which itself commits nothing: a commit that
    succeeds writes out everything staged in that turn, and a commit that
    fails makes [configureStations] return the commit error at once,
    whatever the retry count, with nothing written out and no command
    run. *)
Theorem configureStations_single_commit (env : Env)
    (cfgs : gmap string (option AP.StationConfiguration.t)) (st : AP.State) :
  let out := AP.configureStationsPass env cfgs st in
  commits (Spec.stagedBy env cfgs st) = commits st.2
  /\ commits out.2.2 = S (commits st.2)
  /\ tree out.2.2 = tree (Spec.stagedBy env cfgs st)
  /\ (commitError env (commits st.2) = None ->
      saved out.2.2 = tree (Spec.stagedBy env cfgs st))
  /\ (forall e fuel retryCount,
        commitError env (commits st.2) = Some e ->
        AP.configureStationsFrom env (S fuel) cfgs retryCount st
        = (Returns (Some ("failed to commit wireless configuration: " +:+ e)), out.2)
        /\ out.2.1 = st.1
        /\ saved out.2.2 = saved st.2
        /\ shellLog out.2.2 = shellLog st.2).
Proof.
  intros out. pose proof (ap_pass_store env cfgs st) as (C & T & S). fold out in C, T, S.
  split; [| split; [exact C | split; [exact T | split]]].
  - unfold Spec.stagedBy.
    destruct (ap_stageStations_kept st.1 (rangeMap env cfgs st.2).1 (rangeMap env cfgs st.2).2)
      as (_ & -> & _).
    reflexivity.
  - intros Hok. by rewrite Hok in S.
  - intros e fuel retryCount Hfail. rewrite Hfail in S. destruct S as (R & S1 & S2 & S3).
    split; [| by repeat split].
    cbn [AP.configureStationsFrom]. fold out. destruct out as [r st']. cbn in R. by subst r.
Qed.

(** The store refuses the first commit: the error comes back from the
    first turn, nothing is written out and no command is run. *)
Lemma configureStations_single_commit_witness :
  let env := Scenario.readOnly 0 Scenario.quiet in
  let cfgs : gmap string (option AP.StationConfiguration.t) :=
    {[ "red1" := Scenario.team "1234" "hunter22" ]} in
  let st := (Scenario.vividRadio, Scenario.emptyWorld) in
  commitError env (commits st.2) = Some "permission denied"
  /\ (AP.configureStations env 3 cfgs st).1
     = Returns (Some "failed to commit wireless configuration: permission denied")
  /\ commits (AP.configureStations env 3 cfgs st).2.2 = 1%nat
  /\ saved (AP.configureStations env 3 cfgs st).2.2 = ∅
  /\ shellLog (AP.configureStations env 3 cfgs st).2.2 = [].
Proof.
  intros env cfgs st.
  assert (H : commitError env (commits st.2) = Some "permission denied") by reflexivity.
  destruct (configureStations_single_commit env cfgs st) as (_ & _ & _ & _ & F).
  destruct (F "permission denied" 2%nat 1 H) as (E & _).
  unfold AP.configureStations. rewrite E. cbn [fst snd].
  split; [exact H |].
  split; [reflexivity |].
  split; [vm_compute; reflexivity |].
  split; vm_compute; reflexivity.
Defined.

(** ** Validation of the channel bandwidth *)

Lemma htmodeOf_invalid bandwidth :
  bandwidth <> "20MHz" -> bandwidth <> "40MHz" -> AP.htmodeOf bandwidth = None.
Proof. intros H1 H2. unfold AP.htmodeOf. by repeat case_decide. Qed.

(** C4, as the code has it.  A request whose bandwidth is not empty and is
    neither 20MHz nor 40MHz makes [configure] return the validation error.
    Nothing is committed, no command is run, and every field of the radio
    other than the channel and every entry of the tree other than the
    channel of the device are as before; when the request carries no
    channel (zero or less), nothing at all has changed. *)
Theorem configure_invalid_bandwidth (env : Env) (fuel : nat)
    (request : AP.ConfigurationRequest.t) (radio : AP.Radio) (w : World) :
  let bandwidth := AP.ConfigurationRequest.ChannelBandwidth request in
  let out := AP.configure env fuel request (radio, w) in
  bandwidth <> EmptyString -> bandwidth <> "20MHz" -> bandwidth <> "40MHz" ->
  out.1 = Returns (Some ("invalid channel bandwidth: " +:+ bandwidth))
  /\ saved out.2.2 = saved w
  /\ commits out.2.2 = commits w
  /\ shellLog out.2.2 = shellLog w
  /\ out.2.1 = AP.setChannel (AP.Channel out.2.1) radio
  /\ (forall key, key <> ("wireless", AP.device radio, "channel") ->
        tree out.2.2 !! key = tree w !! key)
  /\ (AP.ConfigurationRequest.Channel request <= 0 -> out.2 = (radio, w)).
Proof.
  intros bandwidth out Hne H20 H40. subst out. unfold AP.configure. fold bandwidth.
  rewrite (htmodeOf_invalid bandwidth H20 H40).
  destruct (decide (bandwidth <> EmptyString)) as [_ | N]; [| by destruct (N Hne)].
  destruct (Z.ltb_spec 0 (AP.ConfigurationRequest.Channel request)) as [Hpos | Hle];
    cbn [fst snd].
  - repeat split; try reflexivity.
    + intros key Hkey. unfold SetType. cbn [tree]. by rewrite lookup_insert_ne.
    + intros Hle. lia.
  - repeat split; try reflexivity. by destruct radio.
Qed.

Lemma configure_invalid_bandwidth_witness :
  let request := Scenario.apRequest 0 "80MHz" ∅ in
  let out := AP.configure Scenario.quiet 3 request (Scenario.vividRadio, Scenario.emptyWorld) in
  AP.ConfigurationRequest.ChannelBandwidth request <> EmptyString
  /\ AP.ConfigurationRequest.ChannelBandwidth request <> "20MHz"
  /\ AP.ConfigurationRequest.ChannelBandwidth request <> "40MHz"
  /\ out.1 = Returns (Some "invalid channel bandwidth: 80MHz")
  /\ out.2 = (Scenario.vividRadio, Scenario.emptyWorld).
Proof.
  intros request out.
  assert (H0 : AP.ConfigurationRequest.ChannelBandwidth request <> EmptyString)
    by discriminate.
  assert (H20 : AP.ConfigurationRequest.ChannelBandwidth request <> "20MHz") by discriminate.
  assert (H40 : AP.ConfigurationRequest.ChannelBandwidth request <> "40MHz") by discriminate.
  destruct (configure_invalid_bandwidth Scenario.quiet 3 request Scenario.vividRadio
              Scenario.emptyWorld H0 H20 H40) as (E & _ & _ & _ & _ & _ & U).
  split; [exact H0 |]. split; [exact H20 |]. split; [exact H40 |].
  split; [exact E |]. apply U. cbn. lia.
Defined.

(** C4, as stated, fails twice: a request with a channel and an unknown
    bandwidth returns the validation error after the channel has been set
    and staged, and a request with an empty bandwidth, which is neither
    20MHz nor 40MHz, is not a validation error at all. *)
Lemma configure_invalid_bandwidth_mutates :
  (let out := AP.configure Scenario.quiet 3 (Scenario.apRequest 36 "80MHz" ∅)
                (Scenario.vividRadio, Scenario.emptyWorld) in
   out.1 = Returns (Some "invalid channel bandwidth: 80MHz")
   /\ AP.Channel Scenario.vividRadio = 0
   /\ AP.Channel out.2.1 = 36
   /\ GetLast "wireless" "wifi1" "channel" Scenario.emptyWorld = None
   /\ GetLast "wireless" "wifi1" "channel" out.2.2 = Some "36")
  /\ (AP.configure Scenario.quiet 3 (Scenario.apRequest 0 EmptyString ∅)
        (Scenario.vividRadio, Scenario.emptyWorld)).1 = Returns None.
Proof. vm_compute. repeat split; reflexivity. Qed.

(** ** Staging of the stations *)

Lemma wifiIface_inj (a b : Z) : wifiIface a = wifiIface b -> a = b.
Proof.
  unfold wifiIface. intros H. apply String.app_inj in H.
  apply string_app_inv_tail in H. by apply itoa_inj.
Qed.



(** What an entry with a configuration writes in the section of its
    station. *)
Lemma ap_stageStation_own radio name c w :
  let section := wifiIface (AP.stationOfName name + 1) in
  let t := tree (AP.stageStation radio (name, Some c) w) in
  t !! ("wireless", section, "ssid") = Some (AP.StationConfiguration.Ssid c)
  /\ t !! ("wireless", section, "key") = Some (AP.StationConfiguration.WpaKey c)
  /\ t !! ("wireless", section, "network")
     = Some ("vlan" +:+ itoa (AP.getStationVlan radio (AP.stationOfName name)))
  /\ t !! ("wireless", section, "sae_password")
     = match AP.Type_ radio with
       | AP.TypeVividHosting => Some (AP.StationConfiguration.WpaKey c)
       | _ => tree w !! ("wireless", section, "sae_password")
       end.
Proof.
  intros section t. subst t. unfold AP.stageStation. fold section.
  destruct (AP.Type_ radio); unfold SetType; cbn [tree];
    repeat split;
    repeat first [ rewrite lookup_insert_eq; reflexivity
                 | rewrite lookup_insert_ne by discriminate ];
    reflexivity.
Qed.






(** ** Comparing the statuses with the request *)

Lemma rangeMap_elem_of {K} `{Countable K} {V} env (m : gmap K V) w k v :
  (k, v) ∈ (rangeMap env m w).1 <-> m !! k = Some v.
Proof.
  unfold rangeMap. cbn [fst]. rewrite goRange_Permutation. apply elem_of_map_to_list.
Qed.

Lemma legacy_compare_matches (env : Env)
    (cfgs : gmap string Legacy.StationConfiguration.t) (radio : Legacy.Radio) (w : World) :
  (Legacy.stationSsidsAreCorrect env cfgs (radio, w)).1 = true
  <-> Spec.legacyMatches cfgs (Legacy.StationStatuses radio).
Proof.
  unfold Legacy.stationSsidsAreCorrect.
  destruct (rangeMap env (Legacy.StationStatuses radio) w) as [entries w1] eqn:R.
  cbn [fst]. rewrite forallb_forall.
  assert (M : forall name status,
             (name, status) ∈ entries <-> Legacy.StationStatuses radio !! name = Some status).
  { intros name status. rewrite <- (rangeMap_elem_of env _ w). by rewrite R. }
  split.
  - intros Hall name status Hlook.
    assert (Hin : In (name, status) entries) by (by apply list_elem_of_In, M).
    specialize (Hall _ Hin).
    unfold Legacy.ssidIsCorrect in Hall. rewrite Hlook in Hall. unfold default, id in Hall.
    destruct (cfgs !! name) as [config |]; destruct status as [st |]; try discriminate;
      try reflexivity.
    exists st. split; [reflexivity |].
    by destruct (decide (Legacy.Ssid st = Legacy.StationConfiguration.Ssid config)).
  - intros Hmatch [name status] Hin. apply list_elem_of_In, M in Hin.
    specialize (Hmatch name status Hin). unfold Legacy.ssidIsCorrect. rewrite Hin.
    unfold default, id. destruct (cfgs !! name) as [config |].
    + destruct Hmatch as (st & -> & E).
      by destruct (decide (Legacy.Ssid st = Legacy.StationConfiguration.Ssid config)).
    + by subst status.
Qed.

(** In whatever order the statuses are ranged over, the single-file
    controller finds them correct exactly when they match the request. *)
Theorem legacy_stationSsidsAreCorrect_iff (env : Env)
    (cfgs : gmap string Legacy.StationConfiguration.t) (radio : Legacy.Radio) (w : World) :
  (Legacy.stationSsidsAreCorrect env cfgs (radio, w)).1 = true
  <-> Spec.legacyMatches cfgs (Legacy.StationStatuses radio).
Proof. exact (legacy_compare_matches env cfgs radio w). Qed.

Lemma checkSsids_true cfgs entries :
  AP.checkSsids cfgs entries = Some true
  <-> forall entry, entry ∈ entries -> AP.checkSsid cfgs entry = AP.CheckNext.
Proof.
  induction entries as [| e rest IH]; cbn [AP.checkSsids].
  - split; [intros _ entry H; by apply elem_of_nil in H | done].
  - destruct (AP.checkSsid cfgs e) eqn:E.
    + rewrite IH. split.
      * intros H entry Hin. apply elem_of_cons in Hin as [-> | Hin]; [exact E | by apply H].
      * intros H entry Hin. apply H. by right.
    + split; [discriminate |]. intros H. specialize (H e (list_elem_of_here _ _)). congruence.
    + split; [discriminate |]. intros H. specialize (H e (list_elem_of_here _ _)). congruence.
Qed.

(** A panic of the comparison comes from an entry with a status whose
    station the request names with a nil configuration. *)
Lemma checkSsids_panics cfgs entries :
  AP.checkSsids cfgs entries = None ->
  exists name st, (name, Some st) ∈ entries /\ cfgs !! name = Some None.
Proof.
  induction entries as [| [name status] rest IH]; cbn [AP.checkSsids]; [discriminate |].
  destruct (AP.checkSsid cfgs (name, status)) eqn:E.
  - intros H. destruct (IH H) as (n & st & Hin & Hc). exists n, st. split; [by right | exact Hc].
  - discriminate.
  - intros _. unfold AP.checkSsid in E.
    destruct (cfgs !! name) as [[c |] |] eqn:Ec; destruct status as [st |];
      try discriminate;
      [by destruct (decide (AP.Ssid st = AP.StationConfiguration.Ssid c)) |].
    exists name, st. split; [by left | exact Ec].
Qed.

Lemma ap_compare_matches (env : Env)
    (cfgs : gmap string (option AP.StationConfiguration.t)) (radio : AP.Radio) (w : World) :
  (AP.stationSsidsAreCorrect env cfgs (radio, w)).1 = Some true
  <-> Spec.apMatches cfgs (AP.StationStatuses radio).
Proof.
  unfold AP.stationSsidsAreCorrect.
  destruct (rangeMap env (AP.StationStatuses radio) w) as [entries w1] eqn:R.
  cbn [fst]. rewrite checkSsids_true.
  assert (M : forall name status,
             (name, status) ∈ entries <-> AP.StationStatuses radio !! name = Some status).
  { intros name status. rewrite <- (rangeMap_elem_of env _ w). by rewrite R. }
  split.
  - intros Hall name status Hlook.
    specialize (Hall (name, status) (proj2 (M name status) Hlook)).
    unfold AP.checkSsid in Hall.
    destruct (cfgs !! name) as [[c |] |]; destruct status as [st |]; try discriminate;
      try reflexivity.
    exists st. split; [reflexivity |].
    by destruct (decide (AP.Ssid st = AP.StationConfiguration.Ssid c)).
  - intros Hmatch [name status] Hin. apply M in Hin.
    specialize (Hmatch name status Hin). unfold AP.checkSsid.
    destruct (cfgs !! name) as [[c |] |].
    + destruct Hmatch as (st & -> & E).
      by destruct (decide (AP.Ssid st = AP.StationConfiguration.Ssid c)).
    + destruct Hmatch.
    + by subst status.
Qed.

(** In whatever order the statuses are ranged over, the access-point build
    finds them correct exactly when they match the request. *)
Theorem ap_stationSsidsAreCorrect_iff (env : Env)
    (cfgs : gmap string (option AP.StationConfiguration.t)) (radio : AP.Radio) (w : World) :
  (AP.stationSsidsAreCorrect env cfgs (radio, w)).1 = Some true
  <-> Spec.apMatches cfgs (AP.StationStatuses radio).
Proof. exact (ap_compare_matches env cfgs radio w). Qed.

Lemma ap_compare_panics (env : Env)
    (cfgs : gmap string (option AP.StationConfiguration.t)) (radio : AP.Radio) (w : World) :
  (AP.stationSsidsAreCorrect env cfgs (radio, w)).1 = None ->
  exists name st,
    AP.StationStatuses radio !! name = Some (Some st) /\ cfgs !! name = Some None.
Proof.
  unfold AP.stationSsidsAreCorrect.
  destruct (rangeMap env (AP.StationStatuses radio) w) as [entries w1] eqn:R.
  cbn [fst]. intros H. destruct (checkSsids_panics cfgs entries H) as (name & st & Hin & Hc).
  exists name, st. split; [| exact Hc].
  apply (rangeMap_elem_of env _ w). by rewrite R.
Qed.

(** The comparison panics only on a station that broadcasts an SSID while
    the request names it with a nil configuration. *)
Theorem ap_stationSsidsAreCorrect_panics (env : Env)
    (cfgs : gmap string (option AP.StationConfiguration.t)) (radio : AP.Radio) (w : World) :
  (AP.stationSsidsAreCorrect env cfgs (radio, w)).1 = None ->
  exists name st,
    AP.StationStatuses radio !! name = Some (Some st) /\ cfgs !! name = Some None.
Proof. exact (ap_compare_panics env cfgs radio w). Qed.

(** ** What a status refresh leaves in the map *)

Lemma ap_refreshStation_written env s st st' :
  AP.refreshStation env s st = (None, st') ->
  exists status,
    AP.StationStatuses st'.1 !! station_String s = Some status
    /\ (forall x, status = Some x -> HasPrefix (AP.Ssid x) "no-team-" = false).
Proof.
  destruct st as [radio w]. unfold AP.refreshStation.
  destruct (AP.getSsid env _ w) as [[ssid | err] w1]; [| discriminate].
  destruct (HasPrefix ssid "no-team-") eqn:P.
  - intros [= <-]. exists None. cbn. rewrite lookup_insert_eq. by split.
  - destruct (AP.getHashedWpaKeyAndSalt env (s + 1) w1) as [[hashed salt] w2].
    intros [= <-]. eexists. cbn. rewrite lookup_insert_eq. split; [reflexivity |].
    by intros x [= <-].
Qed.

Lemma ap_refreshStations_written env stations st st' s :
  NoDup stations ->
  s ∈ stations ->
  AP.refreshStations env stations st = (None, st') ->
  exists status,
    AP.StationStatuses st'.1 !! station_String s = Some status
    /\ (forall x, status = Some x -> HasPrefix (AP.Ssid x) "no-team-" = false).
Proof.
  revert st. induction stations as [| t rest IH]; intros st Hnd Hin Hrun.
  { by apply elem_of_nil in Hin. }
  apply NoDup_cons in Hnd as [Hfresh Hnd]. cbn [AP.refreshStations] in Hrun.
  destruct (AP.refreshStation env t st) as [[err |] st1] eqn:E1; [discriminate |].
  apply elem_of_cons in Hin as [-> | Hin].
  - destruct (ap_refreshStation_written env t st st1 E1) as (status & Hlook & Hstatus).
    exists status. split; [| exact Hstatus].
    pose proof (ap_refreshStations_others env rest st1 t Hfresh) as O.
    rewrite Hrun in O. cbn in O. by rewrite O.
  - by apply (IH st1).
Qed.

Lemma allStations_elem (s : station) : s ∈ allStations <-> 0 <= s <= 5.
Proof.
  unfold allStations, red1, red2, red3, blue1, blue2, blue3.
  rewrite !elem_of_cons, elem_of_nil. lia.
Qed.

Lemma ap_refreshStations_foreign env stations st name :
  (forall s, s ∈ stations -> name <> station_String s) ->
  AP.StationStatuses (AP.refreshStations env stations st).2.1 !! name
  = AP.StationStatuses st.1 !! name.
Proof.
  revert st. induction stations as [| t rest IH]; intros st Hname; [reflexivity |].
  cbn [AP.refreshStations].
  assert (E : AP.StationStatuses (AP.refreshStation env t st).2.1 !! name
              = AP.StationStatuses st.1 !! name).
  { destruct st as [radio w]. unfold AP.refreshStation.
    assert (N : station_String t <> name).
    { intros F. apply (Hname t); [by left | by symmetry]. }
    destruct (AP.getSsid env _ w) as [[ssid | err] w1]; [| reflexivity].
    destruct (HasPrefix ssid "no-team-"); cbn; [by rewrite lookup_insert_ne |].
    destruct (AP.getHashedWpaKeyAndSalt env (t + 1) w1) as [[hashed salt] w2].
    cbn. by rewrite lookup_insert_ne. }
  destruct (AP.refreshStation env t st) as [[err |] st1]; [exact E |].
  rewrite IH; [exact E |]. intros s Hin. apply Hname. by right.
Qed.

Lemma ap_refresh_entries (env : Env) (st st' : AP.State) :
  AP.updateStationStatuses env st = (None, st') ->
  (forall s, 0 <= s <= 5 ->
     exists status,
       AP.StationStatuses st'.1 !! station_String s = Some status
       /\ (forall x, status = Some x -> HasPrefix (AP.Ssid x) "no-team-" = false))
  /\ (forall name,
        (forall s, 0 <= s <= 5 -> name <> station_String s) ->
        AP.StationStatuses st'.1 !! name = AP.StationStatuses st.1 !! name).
Proof.
  intros Hrun. unfold AP.updateStationStatuses in Hrun. split.
  - intros s Hs.
    apply (ap_refreshStations_written env allStations st st' s allStations_NoDup);
      [by apply allStations_elem | exact Hrun].
  - intros name Hname.
    pose proof (ap_refreshStations_foreign env allStations st name) as F.
    rewrite Hrun in F. apply F. intros s Hin. apply Hname. by apply allStations_elem.
Qed.

(** After a status refresh of the access-point build that returns no error,
    [StationStatuses] has an entry for each of the six stations, a status
    in it never carries a placeholder SSID, and the entries under other
    names are as before. *)
Theorem ap_updateStationStatuses_entries (env : Env) (st st' : AP.State) :
  AP.updateStationStatuses env st = (None, st') ->
  (forall s, 0 <= s <= 5 ->
     exists status,
       AP.StationStatuses st'.1 !! station_String s = Some status
       /\ (forall x, status = Some x -> HasPrefix (AP.Ssid x) "no-team-" = false))
  /\ (forall name,
        (forall s, 0 <= s <= 5 -> name <> station_String s) ->
        AP.StationStatuses st'.1 !! name = AP.StationStatuses st.1 !! name).
Proof. exact (ap_refresh_entries env st st'). Qed.

(** ** What a successful reconciliation guarantees *)

Lemma ap_pass_frame env cfgs st :
  Spec.apFrame st.1 (AP.configureStationsPass env cfgs st).2.1.
Proof.
  destruct st as [radio w]. unfold AP.configureStationsPass.
  destruct (rangeMap env cfgs w) as [entries w0].
  destruct (Commit env _) as [[err |] w2]; [apply apFrame_refl |].
  destruct (runCommand env _ w2) as [[output | err] w3]; [| apply apFrame_refl].
  pose proof (ap_updateStationStatuses_kept env (radio, w3)) as [_ F].
  destruct (AP.updateStationStatuses env (radio, w3)) as [[err |] [radio4 w4]]; [exact F |].
  by destruct (AP.stationSsidsAreCorrect env cfgs (radio4, w4)) as [[[|] |] w5].
Qed.

Lemma ap_pass_converged env cfgs st st' :
  AP.configureStationsPass env cfgs st = (AP.Converged, st') ->
  Spec.apMatches cfgs (AP.StationStatuses st'.1)
  /\ (forall s, 0 <= s <= 5 -> is_Some (AP.StationStatuses st'.1 !! station_String s)).
Proof.
  destruct st as [radio w]. unfold AP.configureStationsPass.
  destruct (rangeMap env cfgs w) as [entries w0].
  destruct (Commit env _) as [[err |] w2]; [discriminate |].
  destruct (runCommand env _ w2) as [[output | err] w3]; [| discriminate].
  destruct (AP.updateStationStatuses env (radio, w3)) as [[err |] [radio4 w4]] eqn:U;
    [discriminate |].
  pose proof (ap_compare_matches env cfgs radio4 w4) as I.
  destruct (AP.stationSsidsAreCorrect env cfgs (radio4, w4)) as [[[|] |] w5];
    try discriminate.
  intros [= <-]. cbn [fst snd] in *. split; [by apply I |].
  intros s Hs. destruct (proj1 (ap_refresh_entries env _ _ U) s Hs)
    as (status & Hlook & _).
  by exists status.
Qed.

Lemma ap_loop_success env fuel cfgs retryCount st st' :
  AP.configureStationsFrom env fuel cfgs retryCount st = (Returns None, st') ->
  exists mid, AP.configureStationsPass env cfgs mid = (AP.Converged, st').
Proof.
  revert retryCount st. induction fuel as [| fuel IH]; intros retryCount st; [discriminate |].
  cbn [AP.configureStationsFrom].
  destruct (AP.configureStationsPass env cfgs st) as [[| | err |] st1] eqn:E;
    try discriminate.
  - intros [= <-]. by exists st.
  - destruct (retryCount >=? AP.maxRetryCount); [discriminate |]. apply IH.
Qed.

Lemma ap_loop_frame env fuel cfgs retryCount st :
  Spec.apFrame st.1 (AP.configureStationsFrom env fuel cfgs retryCount st).2.1.
Proof.
  revert retryCount st. induction fuel as [| fuel IH]; intros retryCount st;
    [apply apFrame_refl |].
  cbn [AP.configureStationsFrom].
  pose proof (ap_pass_frame env cfgs st) as F.
  destruct (AP.configureStationsPass env cfgs st) as [[| | err |] st1]; try exact F.
  destruct (retryCount >=? AP.maxRetryCount); [exact F |].
  exact (apFrame_trans _ _ _ F (IH _ st1)).
Qed.

Lemma ap_loop_matches (env : Env) (fuel : nat)
    (cfgs : gmap string (option AP.StationConfiguration.t)) (st st' : AP.State) :
  AP.configureStations env fuel cfgs st = (Returns None, st') ->
  Spec.apFrame st.1 st'.1
  /\ forall s, 0 <= s <= 5 ->
       match cfgs !! station_String s with
       | Some (Some config) =>
           exists x, AP.StationStatuses st'.1 !! station_String s = Some (Some x)
                     /\ AP.Ssid x = AP.StationConfiguration.Ssid config
       | Some None => False
       | None => AP.StationStatuses st'.1 !! station_String s = Some None
       end.
Proof.
  intros Hrun. split.
  - pose proof (ap_loop_frame env fuel cfgs 1 st) as F.
    unfold AP.configureStations in Hrun. by rewrite Hrun in F.
  - intros s Hs. destruct (ap_loop_success env fuel cfgs 1 st st' Hrun) as (mid & Hpass).
    destruct (ap_pass_converged env cfgs mid st' Hpass) as (Hmatch & Hpresent).
    destruct (Hpresent s Hs) as [status Hlook].
    specialize (Hmatch _ _ Hlook).
    destruct (cfgs !! station_String s) as [[config |] |].
    + destruct Hmatch as (x & -> & E). by exists x.
    + exact Hmatch.
    + by subst status.
Qed.

(** When [configureStations] of the access-point build returns nil, the
    statuses it leaves are those of the request: each of the six stations
    that the request names has a status with the requested SSID, each
    station that it does not name has none, and it names no station with a
    nil configuration.  No field of the radio other than the statuses has
    changed. *)
Theorem ap_configureStations_success (env : Env) (fuel : nat)
    (cfgs : gmap string (option AP.StationConfiguration.t)) (st st' : AP.State) :
  AP.configureStations env fuel cfgs st = (Returns None, st') ->
  Spec.apFrame st.1 st'.1
  /\ forall s, 0 <= s <= 5 ->
       match cfgs !! station_String s with
       | Some (Some config) =>
           exists x, AP.StationStatuses st'.1 !! station_String s = Some (Some x)
                     /\ AP.Ssid x = AP.StationConfiguration.Ssid config
       | Some None => False
       | None => AP.StationStatuses st'.1 !! station_String s = Some None
       end.
Proof. exact (ap_loop_matches env fuel cfgs st st'). Qed.

(** A request that names one of the six stations with a nil configuration
    is never reported as configured: neither [configureStations] nor
    [configure] returns nil for it, whatever the device answers. *)
Theorem ap_unassign_never_succeeds (env : Env) (fuel : nat)
    (request : AP.ConfigurationRequest.t) (st : AP.State) (s : station) :
  0 <= s <= 5 ->
  AP.ConfigurationRequest.StationConfigurations request !! station_String s = Some None ->
  (AP.configureStations env fuel (AP.ConfigurationRequest.StationConfigurations request) st).1
  <> Returns None
  /\ (AP.configure env fuel request st).1 <> Returns None.
Proof.
  intros Hs Hnil.
  assert (N : forall st0,
             (AP.configureStations env fuel
                (AP.ConfigurationRequest.StationConfigurations request) st0).1
             <> Returns None).
  { intros st0 H.
    destruct (AP.configureStations env fuel _ st0) as [r st'] eqn:E. cbn in H. subst r.
    destruct (ap_loop_success env fuel _ 1 st0 st' E) as (mid & Hpass).
    destruct (ap_pass_converged env _ mid st' Hpass) as (Hmatch & Hpresent).
    destruct (Hpresent s Hs) as [status Hlook].
    specialize (Hmatch _ _ Hlook). by rewrite Hnil in Hmatch. }
  split; [apply N |].
  destruct st as [radio w]. unfold AP.configure.
  set (st0 := if 0 <? AP.ConfigurationRequest.Channel request then _ else _).
  destruct st0 as [radio0 w0].
  assert (A : forall st1, (AP.configureAfterBandwidth env fuel request st1).1 <> Returns None).
  { intros [radio1 w1]. unfold AP.configureAfterBandwidth.
    set (radio2 := if decide _ then _ else radio1).
    set (after := if decide (AP.ConfigurationRequest.SyslogIpAddress request <> EmptyString)
                  then _ else _).
    destruct after as [[err |] [radio3 w3]]; [discriminate |].
    destruct (AP.Type_ radio3); try apply N.
    destruct (AP.configureStations env fuel ∅ (radio3, w3)) as [[[err |] | |] st2];
      try discriminate.
    apply N. }
  destruct (decide (AP.ConfigurationRequest.ChannelBandwidth request <> EmptyString));
    [| apply A].
  destruct (AP.htmodeOf _); [apply A | discriminate].
Qed.

Lemma legacy_refreshStation_written env entry st st' :
  Legacy.refreshStation env entry st = (None, st') ->
  exists status,
    Legacy.StationStatuses st'.1 !! station_String entry.1 = Some status
    /\ (forall x, status = Some x -> HasPrefix (Legacy.Ssid x) "no-team-" = false).
Proof.
  destruct entry as [s iface], st as [radio w]. unfold Legacy.refreshStation.
  destruct (runCommand env _ w) as [[output | err] w1]; [| discriminate].
  destruct (findSsid output) as [ssid |]; [| discriminate].
  destruct (HasPrefix ssid "no-team-") eqn:P.
  - intros [= <-]. exists None. cbn. rewrite lookup_insert_eq. by split.
  - destruct (Legacy.getHashedWpaKeyAndSalt env s w1) as [[hashed salt] w2].
    intros [= <-]. eexists. cbn. rewrite lookup_insert_eq. split; [reflexivity |].
    by intros x [= <-].
Qed.

Lemma legacy_refreshStations_written env entries st st' s :
  NoDup entries.*1 ->
  s ∈ entries.*1 ->
  Legacy.refreshStations env entries st = (None, st') ->
  exists status,
    Legacy.StationStatuses st'.1 !! station_String s = Some status
    /\ (forall x, status = Some x -> HasPrefix (Legacy.Ssid x) "no-team-" = false).
Proof.
  revert st. induction entries as [| [t i] rest IH]; intros st Hnd Hin Hrun.
  { by apply elem_of_nil in Hin. }
  rewrite fmap_cons in Hnd, Hin. cbn [fst] in Hnd, Hin.
  apply NoDup_cons in Hnd as [Hfresh Hnd].
  cbn [Legacy.refreshStations] in Hrun.
  destruct (Legacy.refreshStation env (t, i) st) as [[err |] st1] eqn:E1; [discriminate |].
  apply elem_of_cons in Hin as [-> | Hin].
  - destruct (legacy_refreshStation_written env (t, i) st st1 E1) as (status & Hlook & Hstatus).
    cbn [fst] in Hlook. exists status. split; [| exact Hstatus].
    pose proof (legacy_refreshStations_others env rest st1 t Hfresh) as O.
    rewrite Hrun in O. cbn in O. by rewrite O.
  - by apply (IH st1).
Qed.

Lemma legacy_refresh_entries (env : Env) (radio : Legacy.Radio) (w : World)
    (st' : Legacy.State) (s : station) :
  Legacy.updateStationStatuses env (radio, w) = (None, st') ->
  is_Some (Legacy.stationInterfaces radio !! s) ->
  exists status,
    Legacy.StationStatuses st'.1 !! station_String s = Some status
    /\ (forall x, status = Some x -> HasPrefix (Legacy.Ssid x) "no-team-" = false).
Proof.
  intros Hrun [iface Hiface]. unfold Legacy.updateStationStatuses in Hrun.
  destruct (rangeMap env (Legacy.stationInterfaces radio) w) as [entries w1] eqn:R.
  assert (P : entries ≡ₚ map_to_list (Legacy.stationInterfaces radio)).
  { unfold rangeMap in R. injection R as <- _. apply goRange_Permutation. }
  apply (legacy_refreshStations_written env entries (radio, w1) st' s); [| | exact Hrun].
  - rewrite P. apply NoDup_fst_map_to_list.
  - apply list_elem_of_fmap. exists (s, iface). split; [reflexivity |].
    rewrite P. by apply elem_of_map_to_list.
Qed.

(** After a status refresh of the single-file controller that returns no
    error, [StationStatuses] has an entry for every station of
    [stationInterfaces], in whatever order the map was ranged over, and a
    status in it never carries a placeholder SSID. *)
Theorem legacy_updateStationStatuses_entries (env : Env) (radio : Legacy.Radio) (w : World)
    (st' : Legacy.State) (s : station) :
  Legacy.updateStationStatuses env (radio, w) = (None, st') ->
  is_Some (Legacy.stationInterfaces radio !! s) ->
  exists status,
    Legacy.StationStatuses st'.1 !! station_String s = Some status
    /\ (forall x, status = Some x -> HasPrefix (Legacy.Ssid x) "no-team-" = false).
Proof. exact (legacy_refresh_entries env radio w st' s). Qed.

Lemma legacy_loop_matches (env : Env) (fuel : nat)
    (cfgs : gmap string Legacy.StationConfiguration.t) (st st' : Legacy.State) :
  Legacy.configureStations env fuel cfgs st = (Returns None, st') ->
  Spec.legacyMatches cfgs (Legacy.StationStatuses st'.1)
  /\ forall s, is_Some (Legacy.stationInterfaces st.1 !! s) ->
       match cfgs !! station_String s with
       | Some config =>
           exists x, Legacy.StationStatuses st'.1 !! station_String s = Some (Some x)
                     /\ Legacy.Ssid x = Legacy.StationConfiguration.Ssid config
       | None => Legacy.StationStatuses st'.1 !! station_String s = Some None
       end.
Proof.
  unfold Legacy.configureStations. generalize 1. revert st.
  induction fuel as [| fuel IH]; intros [radio w] retryCount; [discriminate |].
  cbn [Legacy.configureStationsFrom].
  destruct (Legacy.stageStations env _ cfgs _ w) as [[err |] w1]; [discriminate |].
  destruct (runCommand env _ w1) as [[output | err] w2]; [| discriminate].
  pose proof (legacy_updateStationStatuses_frame env (radio, w2)) as F.
  destruct (Legacy.updateStationStatuses env (radio, w2)) as [[err |] [radio3 w3]] eqn:U;
    [discriminate |].
  pose proof (legacy_compare_matches env cfgs radio3 w3) as I.
  destruct (Legacy.stationSsidsAreCorrect env cfgs (radio3, w3)) as [[|] w4].
  - intros [= <-]. cbn [fst snd] in *.
    assert (M : Spec.legacyMatches cfgs (Legacy.StationStatuses radio3)) by by apply I.
    split; [exact M |]. intros s Hs.
    destruct (legacy_refresh_entries env radio w2 _ s U Hs)
      as (status & Hlook & _). cbn [fst] in Hlook.
    specialize (M _ _ Hlook). destruct (cfgs !! station_String s) as [config |].
    + destruct M as (x & -> & E). by exists x.
    + by subst status.
  - intros Hrun. destruct (IH (radio3, w4) _ Hrun) as (M & P). split; [exact M |].
    intros s Hs. apply P. cbn [fst snd] in *. destruct F as (_ & _ & _ & _ & E).
    by rewrite E.
Qed.

(** When [configureStations] of the single-file controller returns nil,
    every entry of [StationStatuses] matches the request, and every station
    of [stationInterfaces] has an entry: a status with the requested SSID
    when the request names the station, nil when it does not. *)
Theorem legacy_configureStations_success (env : Env) (fuel : nat)
    (cfgs : gmap string Legacy.StationConfiguration.t) (st st' : Legacy.State) :
  Legacy.configureStations env fuel cfgs st = (Returns None, st') ->
  Spec.legacyMatches cfgs (Legacy.StationStatuses st'.1)
  /\ forall s, is_Some (Legacy.stationInterfaces st.1 !! s) ->
       match cfgs !! station_String s with
       | Some config =>
           exists x, Legacy.StationStatuses st'.1 !! station_String s = Some (Some x)
                     /\ Legacy.Ssid x = Legacy.StationConfiguration.Ssid config
       | None => Legacy.StationStatuses st'.1 !! station_String s = Some None
       end.
Proof. exact (legacy_loop_matches env fuel cfgs st st'). Qed.

(** ** Staging in the single-file controller *)

Lemma legacy_stageStation_spec env type cfgs i w :
  let out := Legacy.stageStation env type cfgs i w in
  let section := wifiIface (i + 1) in
  tree out.2 !! ("wireless", section, "ssid") = Some (Spec.legacyStaged cfgs i).1
  /\ tree out.2 !! ("wireless", section, "key") = Some (Spec.legacyStaged cfgs i).2
  /\ (type = Legacy.typeVividHosting ->
      tree out.2 !! ("wireless", section, "sae_password") = Some (Spec.legacyStaged cfgs i).2)
  /\ (forall key : UciKey, key.1.2 <> section -> tree out.2 !! key = tree w !! key)
  /\ commits out.2 = S (commits w)
  /\ out.1 = commitError env (commits w)
  /\ saved out.2 = (if commitError env (commits w) is Some _ then saved w else tree out.2).
Proof.
  intros out section. subst out. unfold Legacy.stageStation, Spec.legacyStaged.
  fold section.
  set (staged := match cfgs !! station_String i with
                 | Some config => _
                 | None => _
                 end).
  destruct staged as [ssid wpaKey]. cbn [fst snd].
  assert (C : forall x, commits (match type with
                                 | Legacy.typeVividHosting =>
                                     SetType "wireless" section "sae_password" wpaKey x
                                 | _ => x
                                 end) = commits x) by (intros x; by destruct type).
  assert (T : forall x,
             tree (Commit env x).2 = tree x) by (intros x; unfold Commit; by destruct (commitError _ _)).
  set (w3 := match type with
             | Legacy.typeVividHosting => _
             | _ => _
             end).
  assert (L : forall key : UciKey, key.1.2 <> section ->
                tree w3 !! key = tree w !! key).
  { intros [[c s] o] Hkey. cbn in Hkey. unfold w3. destruct type; cbn [SetType tree];
      rewrite ?lookup_insert_ne by (intros [= _ E _]; by apply Hkey); reflexivity. }
  assert (O1 : tree w3 !! ("wireless", section, "ssid") = Some ssid).
  { unfold w3. destruct type; cbn [SetType tree];
      repeat first [rewrite lookup_insert_eq; reflexivity
                   | rewrite lookup_insert_ne by discriminate]. }
  assert (O2 : tree w3 !! ("wireless", section, "key") = Some wpaKey).
  { unfold w3. destruct type; cbn [SetType tree];
      repeat first [rewrite lookup_insert_eq; reflexivity
                   | rewrite lookup_insert_ne by discriminate]. }
  assert (O3 : type = Legacy.typeVividHosting ->
               tree w3 !! ("wireless", section, "sae_password") = Some wpaKey).
  { intros ->. unfold w3. cbn [SetType tree]. by rewrite lookup_insert_eq. }
  assert (W : commits w3 = commits w) by (unfold w3; by destruct type).
  assert (S : saved w3 = saved w) by (unfold w3; by destruct type).
  unfold Commit. rewrite W.
  destruct (commitError env (commits w)) as [e |]; cbn [fst snd tree saved commits];
    rewrite ?W; repeat split; try assumption; try reflexivity.
Qed.

Lemma legacy_stageStations_ok env type cfgs indices w w' :
  NoDup indices ->
  Legacy.stageStations env type cfgs indices w = (None, w') ->
  (forall i, i ∈ indices ->
     tree w' !! ("wireless", wifiIface (i + 1), "ssid") = Some (Spec.legacyStaged cfgs i).1
     /\ tree w' !! ("wireless", wifiIface (i + 1), "key") = Some (Spec.legacyStaged cfgs i).2
     /\ (type = Legacy.typeVividHosting ->
         tree w' !! ("wireless", wifiIface (i + 1), "sae_password")
         = Some (Spec.legacyStaged cfgs i).2))
  /\ (forall key : UciKey,
        (forall i, i ∈ indices -> key.1.2 <> wifiIface (i + 1)) ->
        tree w' !! key = tree w !! key)
  /\ commits w' = (commits w + length indices)%nat
  /\ (indices <> [] -> saved w' = tree w').
Proof.
  revert w. induction indices as [| i rest IH]; intros w Hnd Hrun.
  { injection Hrun as <-. split; [| split; [| split]]; try done.
    - intros i Hi. by apply elem_of_nil in Hi. }
  apply NoDup_cons in Hnd as [Hfresh Hnd]. cbn [Legacy.stageStations] in Hrun.
  pose proof (legacy_stageStation_spec env type cfgs i w) as (O1 & O2 & O3 & L & C & R & Sv).
  destruct (Legacy.stageStation env type cfgs i w) as [[err |] w1]; [discriminate |].
  cbn [fst snd] in *.
  destruct (IH w1 Hnd Hrun) as (I1 & I2 & I3 & I4).
  assert (K : forall opt j, j ∈ rest -> (("wireless", wifiIface (i + 1), opt) : UciKey).1.2
                                        <> wifiIface (j + 1)).
  { intros opt j Hj E. cbn in E. apply wifiIface_inj in E.
    assert (i = j) as -> by lia. by apply Hfresh. }
  split; [| split; [| split]].
  - intros j Hj. apply elem_of_cons in Hj as [-> | Hj]; [| by apply I1].
    rewrite !I2 by apply K. auto.
  - intros key Hkey. rewrite I2; [apply L, Hkey; by left |].
    intros j Hj. apply Hkey. by right.
  - rewrite I3, C. cbn [length]. lia.
  - intros _. destruct rest as [| j rest']; [| by apply I4].
    cbn in Hrun. injection Hrun as <-. rewrite <- R in Sv. exact Sv.
Qed.

(** A turn of the loop of [configureStations] in the single-file
    controller whose commits all succeed has staged every one of the six
    stations: the SSID and the key of the request for a station that it
    names, the placeholder of the position for both otherwise, and the SAE
    password as well on Vivid-Hosting hardware.  It has committed six times,
    once per station, and all of it is written out. *)
Theorem legacy_stageStations_all_six (env : Env) (type : Legacy.radioType)
    (cfgs : gmap string Legacy.StationConfiguration.t) (w w' : World) :
  Legacy.stageStations env type cfgs [0; 1; 2; 3; 4; 5] w = (None, w') ->
  (forall i, 0 <= i <= 5 ->
     tree w' !! ("wireless", wifiIface (i + 1), "ssid") = Some (Spec.legacyStaged cfgs i).1
     /\ tree w' !! ("wireless", wifiIface (i + 1), "key") = Some (Spec.legacyStaged cfgs i).2
     /\ (type = Legacy.typeVividHosting ->
         tree w' !! ("wireless", wifiIface (i + 1), "sae_password")
         = Some (Spec.legacyStaged cfgs i).2)
     /\ (cfgs !! station_String i = None ->
         (Spec.legacyStaged cfgs i).1 = "no-team-" +:+ itoa (i + 1)))
  /\ commits w' = (commits w + 6)%nat
  /\ saved w' = tree w'.
Proof.
  intros Hrun.
  assert (ND : NoDup [0; 1; 2; 3; 4; 5]) by compute_done.
  destruct (legacy_stageStations_ok env type cfgs _ w w' ND Hrun) as (I1 & _ & I3 & I4).
  split; [| split; [exact I3 | by apply I4]].
  intros i Hi. destruct (I1 i) as (A & B & C).
  { change [0; 1; 2; 3; 4; 5] with allStations. by apply allStations_elem. }
  repeat split; try assumption.
  intros N. unfold Spec.legacyStaged. by rewrite N.
Qed.

(** The commit of one station fails: [stageStations] returns that error
    at once.  The stations before it stay written out, the station itself
    is staged but not written out, and the sections of the stations after
    it are untouched. *)
Lemma legacy_stageStations_failed env type cfgs indices w w' e :
  NoDup indices ->
  Legacy.stageStations env type cfgs indices w = (Some e, w') ->
  exists done i rest wd,
    indices = done ++ i :: rest
    /\ Legacy.stageStations env type cfgs done w = (None, wd)
    /\ commitError env (commits w + length done)%nat = Some e
    /\ commits w' = S (commits w + length done)
    /\ saved w' = saved wd
    /\ tree w' !! ("wireless", wifiIface (i + 1), "ssid") = Some (Spec.legacyStaged cfgs i).1
    /\ (forall (key : UciKey) j, j ∈ rest -> key.1.2 = wifiIface (j + 1) ->
          tree w' !! key = tree w !! key).
Proof.
  revert w. induction indices as [| i rest IH]; intros w Hnd Hrun; [discriminate |].
  apply NoDup_cons in Hnd as [Hfresh Hnd]. cbn [Legacy.stageStations] in Hrun.
  pose proof (legacy_stageStation_spec env type cfgs i w) as (O1 & O2 & O3 & L & C & R & Sv).
  destruct (Legacy.stageStation env type cfgs i w) as [[err |] w1] eqn:E; cbn [fst snd] in *.
  - injection Hrun as <- <-. exists [], i, rest, w. cbn [length app].
    rewrite Nat.add_0_r, <- R in *. repeat split; try done.
    intros key j Hj Hkey. apply L. rewrite Hkey. intros F. apply wifiIface_inj in F.
    assert (j = i) as -> by lia. by apply Hfresh.
  - destruct (IH w1 Hnd Hrun) as (done & k & rest' & wd & -> & Hdone & Hc & Hn & Hs & Ho & Hl).
    exists (i :: done), k, rest', wd. cbn [length app]. rewrite C in Hc, Hn.
    repeat split; try assumption.
    + cbn [Legacy.stageStations]. by rewrite E.
    + by replace (commits w + S (length done))%nat with (S (commits w) + length done)%nat by lia.
    + rewrite Hn. lia.
    + intros key j Hj Hkey. rewrite (Hl key j Hj Hkey). apply L. rewrite Hkey.
      intros F. apply wifiIface_inj in F. assert (j = i) as -> by lia.
      apply Hfresh. apply elem_of_app. right. by right.
Qed.

(** ** Names that are no station *)

Lemma filter_none {A} (P : A -> Prop) `{forall x, Decision (P x)} (l : list A) :
  (forall x, x ∈ l -> ~ P x) -> filter P l = [].
Proof.
  induction l as [| x l IH]; intros Hl; [reflexivity |].
  rewrite filter_cons_False by (apply Hl; by left).
  apply IH. intros y Hy. apply Hl. by right.
Qed.

Lemma stationOfName_unknown (name : string) :
  (forall s, 0 <= s <= 5 -> name <> station_String s) -> AP.stationOfName name = red1.
Proof.
  intros H. unfold AP.stationOfName.
  assert (E : filter (fun s => station_String s = name) allStations = []).
  { apply filter_none. intros s Hs F.
    apply allStations_elem in Hs. by apply (H s Hs). }
  by rewrite E.
Qed.

(** An entry of the request whose name is none of the six station names is
    not skipped: the access-point build stages its SSID, its key and the
    network of the VLAN of the first red station in the section of that
    station. *)
Theorem ap_unknown_name_stages_red1 (env : Env) (radio : AP.Radio) (w : World)
    (name : string) (config : AP.StationConfiguration.t) :
  (forall s, 0 <= s <= 5 -> name <> station_String s) ->
  let out := AP.configureStationsPass env {[ name := Some config ]} (radio, w) in
  tree out.2.2 !! ("wireless", wifiIface 1, "ssid")
  = Some (AP.StationConfiguration.Ssid config)
  /\ tree out.2.2 !! ("wireless", wifiIface 1, "key")
     = Some (AP.StationConfiguration.WpaKey config)
  /\ tree out.2.2 !! ("wireless", wifiIface 1, "network")
     = Some ("vlan" +:+ itoa (AP.getStationVlan radio red1)).
Proof.
  intros Hname out.
  pose proof (ap_pass_store env {[ name := Some config ]} (radio, w)) as (_ & T & _).
  fold out in T. rewrite T. unfold Spec.stagedBy, rangeMap. cbn [fst snd].
  assert (E : goRange (rangeSeed env (ranges w))
                (map_to_list ({[ name := Some config ]}
                              : gmap string (option AP.StationConfiguration.t)))
              = [(name, Some config)]).
  { apply Permutation_singleton_r. rewrite goRange_Permutation.
    by rewrite map_to_list_singleton. }
  rewrite E. unfold AP.stageStations. cbn [foldl].
  pose proof (ap_stageStation_own radio name config
                {| tree := tree w; saved := saved w; commits := commits w;
                   shellLog := shellLog w; draws := draws w; ranges := S (ranges w) |})
    as (O1 & O2 & O3 & _).
  rewrite (stationOfName_unknown name Hname) in O1, O2, O3.
  change (red1 + 1) with 1 in *. auto.
Qed.

(** ** VLAN numbers of the six stations *)

Lemma getStationVlan_offset (radio : AP.Radio) (s : station) :
  0 <= s <= 5 ->
  AP.getStationVlan radio s =
    match Spec.vlanOffset (Spec.allianceVlans radio s) with
    | Some offset => 10 * (Spec.positionInAlliance s + offset)
    | None => -1
    end.
Proof.
  intros Hs.
  destruct (station_cases s Hs) as [-> | [-> | [-> | [-> | [-> | ->]]]]];
    unfold AP.getStationVlan, Spec.vlanOffset, Spec.allianceVlans;
    cbn [bool_decide decide_rel]; simpl;
    repeat case_decide;
    unfold AP.Vlans102030, AP.Vlans405060, AP.Vlans708090 in *;
    try congruence; reflexivity.
Qed.

(** With two different valid VLAN groups for the two alliances, the six
    stations get six different VLAN numbers, all between 10 and 90. *)
Theorem getStationVlan_injective (radio : AP.Radio) (s t : station) :
  is_Some (Spec.vlanOffset (AP.RedVlans radio)) ->
  is_Some (Spec.vlanOffset (AP.BlueVlans radio)) ->
  AP.RedVlans radio <> AP.BlueVlans radio ->
  0 <= s <= 5 -> 0 <= t <= 5 ->
  10 <= AP.getStationVlan radio s <= 90
  /\ (AP.getStationVlan radio s = AP.getStationVlan radio t -> s = t).
Proof.
  intros [ro Hr] [bo Hb] Hne Hs Ht.
  rewrite (getStationVlan_offset radio s Hs), (getStationVlan_offset radio t Ht).
  unfold Spec.allianceVlans.
  assert (Or : ro = 0 \/ ro = 3 \/ ro = 6).
  { unfold Spec.vlanOffset in Hr.
    repeat case_decide; first [discriminate Hr | injection Hr as <-; lia]. }
  assert (Ob : bo = 0 \/ bo = 3 \/ bo = 6).
  { unfold Spec.vlanOffset in Hb.
    repeat case_decide; first [discriminate Hb | injection Hb as <-; lia]. }
  assert (D : ro <> bo).
  { intros ->. apply Hne. unfold Spec.vlanOffset in Hr, Hb.
    repeat case_decide; try discriminate; try congruence;
      injection Hr as Hr; injection Hb as Hb; lia. }
  destruct (station_cases s Hs) as [-> | [-> | [-> | [-> | [-> | ->]]]]];
    destruct (station_cases t Ht) as [-> | [-> | [-> | [-> | [-> | ->]]]]];
    cbn [bool_decide decide_rel]; simpl; rewrite ?Hr, ?Hb;
    vm_compute (Spec.positionInAlliance _); lia.
Qed.

(** ** Parsing the SSID *)

Lemma string_substring_all (s : string) : substring 0 (String.length s) s = s.
Proof. induction s as [| c s IH]; cbn; [reflexivity | by rewrite IH]. Qed.

Lemma spanSsid_app (run rest : string) :
  forallb isSsidChar (list_ascii_of_string run) = true ->
  (if rest is String c _ then isSsidChar c = false else True) ->
  spanSsid (run +:+ rest) = (run, rest).
Proof.
  intros Hrun Hrest. induction run as [| c run IH].
  - destruct rest as [| c rest]; [reflexivity |]. simpl in *. by rewrite Hrest.
  - simpl in Hrun. apply andb_true_iff in Hrun as [Hc Hrun].
    simpl. rewrite Hc. simpl in IH. by rewrite (IH Hrun).
Qed.

Lemma spanSsid_spec (s run rest : string) :
  spanSsid s = (run, rest) ->
  s = run +:+ rest /\ forallb isSsidChar (list_ascii_of_string run) = true.
Proof.
  revert run rest. induction s as [| c s IH]; intros run rest; cbn [spanSsid].
  - by intros [= <- <-].
  - destruct (isSsidChar c) eqn:Hc; [| by intros [= <- <-]].
    destruct (spanSsid s) as [run' rest']. intros [= <- <-].
    destruct (IH run' rest' eq_refl) as [-> Hrun]. cbn. by rewrite Hc, Hrun.
Qed.

Lemma string_prefix_app (p x : string) : String.prefix p (p +:+ x) = true.
Proof.
  induction p as [| c p IH]; simpl; [by destruct x |].
  destruct (ascii_dec c c) as [_ | N]; [exact IH | by destruct N].
Qed.

Lemma string_substring_app_drop (p x : string) :
  substring (String.length p) (String.length (p +:+ x) - String.length p) (p +:+ x) = x.
Proof.
  induction p as [| c p IH]; simpl.
  - rewrite Nat.sub_0_r. apply string_substring_all.
  - exact IH.
Qed.

Lemma string_prefix_split (p s : string) :
  String.prefix p s = true ->
  s = p +:+ substring (String.length p) (String.length s - String.length p) s.
Proof.
  revert s. induction p as [| c p IH]; intros s.
  - intros _. simpl. by rewrite Nat.sub_0_r, string_substring_all.
  - destruct s as [| d s]; simpl; [discriminate |].
    destruct (ascii_dec c d) as [<- |]; [| discriminate].
    intros H. change (String c p +:+ ?x) with (String c (p +:+ x)). f_equal. by apply IH.
Qed.

Lemma matchSsidAt_open (ssid rest : string) :
  forallb isSsidChar (list_ascii_of_string ssid) = true ->
  matchSsidAt (ssidOpen +:+ ssid +:+ String quote rest) = Some ssid.
Proof.
  intros Hssid. unfold matchSsidAt.
  rewrite string_prefix_app, string_substring_app_drop, (spanSsid_app ssid (String quote rest) Hssid)
    by reflexivity.
  reflexivity.
Qed.

Lemma matchSsidAt_spec (s ssid : string) :
  matchSsidAt s = Some ssid ->
  forallb isSsidChar (list_ascii_of_string ssid) = true
  /\ exists rest, s = ssidOpen +:+ ssid +:+ String quote rest.
Proof.
  unfold matchSsidAt. destruct (String.prefix ssidOpen s) eqn:P; [| discriminate].
  apply string_prefix_split in P.
  destruct (spanSsid _) as [run rest] eqn:Sp.
  destruct rest as [| c rest]; [discriminate |].
  destruct (Ascii.eqb_spec c quote) as [-> |]; [| discriminate].
  intros [= <-]. destruct (spanSsid_spec _ _ _ Sp) as [E Hrun].
  split; [exact Hrun |]. exists rest. rewrite P at 1. by rewrite E.
Qed.

(** The pattern finds the SSID that the device prints: in front of the
    opening text anything without a capital E, then an SSID made of letters,
    digits, hyphens, underscores and spaces, then the closing quote. *)
Theorem findSsid_roundtrip (front ssid rest : string) :
  forallb (fun c => negb (Ascii.eqb c "E")) (list_ascii_of_string front) = true ->
  forallb isSsidChar (list_ascii_of_string ssid) = true ->
  findSsid (front +:+ ssidOpen +:+ ssid +:+ String quote rest) = Some ssid.
Proof.
  intros Hfront Hssid. induction front as [| c front IH].
  - cbn [String.append]. 
    assert (E : forall s, matchSsidAt s = Some ssid -> findSsid s = Some ssid).
    { intros s H. destruct s; cbn [findSsid]; by rewrite H. }
    apply E, matchSsidAt_open, Hssid.
  - cbn [list_ascii_of_string forallb] in Hfront.
    apply andb_true_iff in Hfront as [Hc Hfront].
    change ((String c front) +:+ ssidOpen +:+ ssid +:+ String quote rest)
      with (String c (front +:+ ssidOpen +:+ ssid +:+ String quote rest)).
    cbn [findSsid].
    assert (N : matchSsidAt (String c (front +:+ ssidOpen +:+ ssid +:+ String quote rest))
                = None).
    { unfold matchSsidAt.
      change ssidOpen with (String "E" (String "S" (String "S" (String "I" (String "D"
                             (String ":" (String " " (String quote EmptyString)))))))) at 1.
      cbn [String.prefix].
      destruct (ascii_dec "E" c) as [<- |]; [discriminate Hc | reflexivity]. }
    rewrite N. by apply IH.
Qed.

(** Whatever the pattern finds is made of letters, digits, hyphens,
    underscores and spaces only, and stands in the output between the
    opening text and a closing quote. *)
Theorem findSsid_sound (output ssid : string) :
  findSsid output = Some ssid ->
  forallb isSsidChar (list_ascii_of_string ssid) = true
  /\ exists front rest, output = front +:+ ssidOpen +:+ ssid +:+ String quote rest.
Proof.
  induction output as [| c output IH].
  - cbn [findSsid]. destruct (matchSsidAt EmptyString) eqn:M; [| discriminate].
    intros [= ->]. destruct (matchSsidAt_spec _ _ M) as [H [rest E]].
    split; [exact H |]. by exists EmptyString, rest.
  - cbn [findSsid]. destruct (matchSsidAt (String c output)) eqn:M.
    + intros [= ->]. destruct (matchSsidAt_spec _ _ M) as [H [rest E]].
      split; [exact H |]. by exists EmptyString, rest.
    + intros H. destruct (IH H) as [Hs (front & rest & ->)].
      split; [exact Hs |]. by exists (String c front), rest.
Qed.

(** ** The shape of the hashed key *)

Lemma be_bytes_length n x : length (Sha256.be_bytes n x) = n.
Proof. unfold Sha256.be_bytes. by rewrite length_fmap, length_rev, length_seq. Qed.

Lemma be_bytes_range n x : Forall (fun b => 0 <= b < 256) (Sha256.be_bytes n x).
Proof.
  unfold Sha256.be_bytes. apply Forall_fmap, Forall_forall. intros i _. cbn.
  apply Z.mod_pos_bound. lia.
Qed.

Lemma compress_length h block : length h = 8%nat -> length (Sha256.compress h block) = 8%nat.
Proof. intros H. unfold Sha256.compress. rewrite length_zip_with, H. reflexivity. Qed.

Lemma blocks_length fuel h bs : length h = 8%nat -> length (Sha256.blocks fuel h bs) = 8%nat.
Proof.
  revert h bs. induction fuel as [| fuel IH]; intros h bs H; [exact H |].
  destruct bs as [| b bs]; [exact H |]. cbn [Sha256.blocks].
  apply IH. by apply compress_length.
Qed.

Lemma sum_shape msg :
  length (Sha256.sum msg) = 32%nat /\ Forall (fun b => 0 <= b < 256) (Sha256.sum msg).
Proof.
  unfold Sha256.sum.
  pose proof (blocks_length (length (Sha256.pad msg)) Sha256.H0 (Sha256.pad msg) eq_refl) as L.
  destruct (Sha256.blocks _ _ _) as [| a [| b [| c [| d [| e [| f [| g [| h [| ? ?]]]]]]]]];
    try discriminate L.
  cbn [fmap list_fmap mjoin list_join]. split.
  - rewrite !length_app, !be_bytes_length. reflexivity.
  - repeat (apply Forall_app; split; [apply be_bytes_range |]). constructor.
Qed.

Lemma hexdigit_lower n : 0 <= n < 16 -> Spec.isLowerHex (hexdigit n) = true.
Proof.
  intros H. replace n with (Z.of_nat (Z.to_nat n)) by lia.
  assert (L : (Z.to_nat n < 16)%nat) by lia.
  revert L. generalize (Z.to_nat n). intros k L.
  do 16 (destruct k as [| k]; [reflexivity |]). lia.
Qed.

Lemma EncodeToString_shape bs :
  Forall (fun b => 0 <= b < 256) bs ->
  String.length (EncodeToString bs) = (2 * length bs)%nat
  /\ forallb Spec.isLowerHex (list_ascii_of_string (EncodeToString bs)) = true.
Proof.
  induction 1 as [| b bs Hb _ [IH1 IH2]]; [by split |].
  cbn [EncodeToString String.length length list_ascii_of_string forallb].
  rewrite IH1, IH2, !hexdigit_lower; [split; [lia | reflexivity] | |].
  - apply Z.mod_pos_bound. lia.
  - split; [apply Z.div_pos; lia | apply Z.div_lt_upper_bound; lia].
Qed.

(** Whatever the key and the salt, the digest is 64 lower-case hexadecimal
    characters. *)
Lemma sha256_hex_shape (s : string) :
  String.length (sha256_hex s) = 64%nat
  /\ forallb Spec.isLowerHex (list_ascii_of_string (sha256_hex s)) = true.
Proof.
  unfold sha256_hex. destruct (sum_shape (bytes_of_string s)) as [L R].
  destruct (EncodeToString_shape _ R) as [E1 E2]. by rewrite E1, L.
Qed.

(** What [getHashedWpaKeyAndSalt] returns is either two empty strings, when
    the store holds no key for the station, or a digest of 64 lower-case
    hexadecimal characters next to a salt of 16 letters and digits; the
    store itself is never changed. *)
Theorem getHashedWpaKeyAndSalt_shape (env : Env) (s : station) (w : World) :
  let out := Legacy.getHashedWpaKeyAndSalt env s w in
  Spec.storeKept w out.2
  /\ (if GetLast "wireless" (wifiIface (s + 1)) "key" w is Some _ then
        String.length out.1.1 = 64%nat
        /\ forallb Spec.isLowerHex (list_ascii_of_string out.1.1) = true
        /\ String.length out.1.2 = 16%nat
        /\ forallb Spec.isAlphanumeric (list_ascii_of_string out.1.2) = true
        /\ draws out.2 = (draws w + 16)%nat
      else out = ((EmptyString, EmptyString), w)).
Proof.
  intros out. split; [apply hashedWpaKeyAndSaltAt_storeKept |].
  subst out. unfold Legacy.getHashedWpaKeyAndSalt, hashedWpaKeyAndSaltAt.
  destruct (GetLast _ _ _ w) as [wpaKey |]; [| reflexivity].
  rewrite drawSalt_spec. cbn [fst snd].
  destruct (sha256_hex_shape (wpaKey +:+ Spec.saltOfDraws (Spec.nextDraws env w saltLength)))
    as [H1 H2].
  split; [exact H1 |]. split; [exact H2 |]. split; [| split].
  - unfold Spec.nextDraws. by rewrite saltOfDraws_length, length_fmap, length_seq.
  - apply saltOfDraws_alphanumeric.
  - cbn. lia.
Qed.

(** ** Printing and parsing the channel *)

Lemma digitsValue_acc (d : Decimal.uint) (p : positive) :
  digitsValue (Zpos p) (NilEmpty.string_of_uint d) = Zpos (Pos.of_uint_acc d p).
Proof.
  revert p. induction d as [| d IH | d IH | d IH | d IH | d IH | d IH | d IH | d IH | d IH | d IH];
    intros p; [reflexivity | ..];
    cbn [NilEmpty.string_of_uint digitsValue Pos.of_uint_acc];
    match goal with
    | |- digitsValue ?a _ = Zpos (Pos.of_uint_acc _ ?q) =>
        replace a with (Zpos q)
          by (match goal with
              | |- context [Z.of_nat (nat_of_ascii ?c)] =>
                  let v := eval vm_compute in (Z.of_nat (nat_of_ascii c)) in
                  change (Z.of_nat (nat_of_ascii c)) with v
              end; lia)
    end; apply IH.
Qed.

Lemma digitsValue_uint (d : Decimal.uint) :
  digitsValue 0 (NilEmpty.string_of_uint d) = Z.of_N (Pos.of_uint d).
Proof.
  induction d as [| d IH | d IH | d IH | d IH | d IH | d IH | d IH | d IH | d IH | d IH];
    [reflexivity | exact IH | ..];
    cbn [NilEmpty.string_of_uint digitsValue Pos.of_uint Z.of_N];
    match goal with
    | |- digitsValue ?a _ = Zpos (Pos.of_uint_acc _ ?q) =>
        replace a with (Zpos q)
          by (match goal with
              | |- context [Z.of_nat (nat_of_ascii ?c)] =>
                  let v := eval vm_compute in (Z.of_nat (nat_of_ascii c)) in
                  change (Z.of_nat (nat_of_ascii c)) with v
              end; lia)
    end; apply digitsValue_acc.
Qed.

Lemma string_of_uint_digits (d : Decimal.uint) :
  forallb isDigit (list_ascii_of_string (NilEmpty.string_of_uint d)) = true.
Proof.
  induction d; cbn [NilEmpty.string_of_uint list_ascii_of_string forallb];
    [reflexivity | ..]; rewrite IHd; reflexivity.
Qed.

(** The unsigned digits of a positive number parse back to it. *)
Lemma Atoi_digits (p : positive) (negative : bool) :
  let s := NilEmpty.string_of_uint (Pos.to_uint p) in
  s <> EmptyString
  /\ (if s is String c _ then Ascii.eqb c "+" = false /\ Ascii.eqb c "-" = false else True)
  /\ forallb isDigit (list_ascii_of_string s) = true
  /\ digitsValue 0 s = Zpos p.
Proof.
  intros s. subst s.
  pose proof (DecimalPos.Unsigned.to_uint_nonnil p) as N.
  split; [| split; [| split]].
  - destruct (Pos.to_uint p); [by destruct N | discriminate ..].
  - destruct (Pos.to_uint p); [by destruct N | by split ..].
  - apply string_of_uint_digits.
  - by rewrite digitsValue_uint, DecimalPos.Unsigned.of_to.
Qed.

(** What [strconv.Itoa] prints for a 64-bit integer, [strconv.Atoi] reads
    back. *)
Theorem Atoi_itoa (z : Z) : - 2 ^ 63 <= z < 2 ^ 63 -> Atoi (itoa z) = z.
Proof.
  intros Hz. destruct z as [| p | p]; [reflexivity | |].
  - unfold itoa. cbn [Z.to_int NilZero.string_of_int NilZero.string_of_uint].
    destruct (Atoi_digits p false) as (N & S & D & V).
    assert (E : NilZero.string_of_uint (Pos.to_uint p)
                = NilEmpty.string_of_uint (Pos.to_uint p)).
    { pose proof (DecimalPos.Unsigned.to_uint_nonnil p). by destruct (Pos.to_uint p). }
    rewrite E. unfold Atoi.
    destruct (NilEmpty.string_of_uint (Pos.to_uint p)) as [| c rest] eqn:Es;
      [by destruct N |].
    destruct S as [-> ->]. rewrite D, V.
    destruct (Z.leb_spec (2 ^ 63) (Z.pos p)); [lia | reflexivity].
  - unfold itoa. cbn [Z.to_int NilZero.string_of_int].
    destruct (Atoi_digits p true) as (N & S & D & V).
    assert (E : NilZero.string_of_uint (Pos.to_uint p)
                = NilEmpty.string_of_uint (Pos.to_uint p)).
    { pose proof (DecimalPos.Unsigned.to_uint_nonnil p). by destruct (Pos.to_uint p). }
    rewrite E. unfold Atoi.
    change (Ascii.eqb "-" "+") with false. change (Ascii.eqb "-" "-") with true.
    cbn beta iota.
    destruct (NilEmpty.string_of_uint (Pos.to_uint p)) as [| c rest] eqn:Es;
      [by destruct N |].
    rewrite D, V.
    destruct (Z.ltb_spec (2 ^ 63) (Z.pos p)); [lia | reflexivity].
Qed.

(** ** Reading the configuration back *)

(** Staging a station writes its SSID, key, SAE password and network and
    nothing else. *)
Lemma ap_stageStations_options radio entries w (key : UciKey) :
  ~ Spec.stationOption key.2 ->
  tree (AP.stageStations radio entries w) !! key = tree w !! key.
Proof.
  intros Hopt. unfold AP.stageStations. revert w.
  induction entries as [| [name config] rest IH]; intros w; [reflexivity |].
  cbn [foldl]. rewrite IH. destruct config as [c |]; [| reflexivity].
  destruct key as [[cfg sec] opt]. cbn in Hopt. unfold Spec.stationOption in Hopt.
  unfold AP.stageStation. destruct (AP.Type_ radio); unfold SetType; cbn [tree];
    rewrite ?lookup_insert_ne by (intros [= _ _ <-]; tauto); reflexivity.
Qed.

Lemma ap_loop_options env fuel cfgs retryCount st (key : UciKey) :
  ~ Spec.stationOption key.2 ->
  tree (AP.configureStationsFrom env fuel cfgs retryCount st).2.2 !! key = tree st.2 !! key.
Proof.
  intros Hopt. revert retryCount st. induction fuel as [| fuel IH]; intros retryCount st;
    [reflexivity |].
  cbn [AP.configureStationsFrom].
  assert (P : tree (AP.configureStationsPass env cfgs st).2.2 !! key = tree st.2 !! key).
  { destruct (ap_pass_store env cfgs st) as (_ & -> & _). unfold Spec.stagedBy.
    by rewrite ap_stageStations_options. }
  destruct (AP.configureStationsPass env cfgs st) as [[| | err |] st1]; try exact P.
  destruct (retryCount >=? AP.maxRetryCount); [exact P |].
  rewrite IH. exact P.
Qed.

(** What [configure] has set and staged for the channel and the bandwidth,
    [setInitialState] reads back from the tree: the same channel and the
    same bandwidth, however the configuration of the stations ended. *)
Theorem ap_configure_setInitialState (env env' : Env) (fuel : nat)
    (request : AP.ConfigurationRequest.t) (radio : AP.Radio) (w : World) :
  0 < AP.ConfigurationRequest.Channel request < 2 ^ 63 ->
  is_Some (AP.htmodeOf (AP.ConfigurationRequest.ChannelBandwidth request)) ->
  let out := AP.configure env fuel request (radio, w) in
  let back := AP.setInitialState env' out.2 in
  AP.Channel back.1 = AP.ConfigurationRequest.Channel request
  /\ AP.ChannelBandwidth back.1 = AP.ConfigurationRequest.ChannelBandwidth request
  /\ AP.Channel out.2.1 = AP.Channel back.1
  /\ AP.ChannelBandwidth out.2.1 = AP.ChannelBandwidth back.1.
Proof.
  intros Hc [htmode Hh] out back.
  set (c := AP.ConfigurationRequest.Channel request) in *.
  set (b := AP.ConfigurationRequest.ChannelBandwidth request) in *.
  (* what [configure] leaves in the radio and in the tree *)
  assert (O : AP.device out.2.1 = AP.device radio
              /\ AP.Channel out.2.1 = c /\ AP.ChannelBandwidth out.2.1 = b
              /\ tree out.2.2 !! ("wireless", AP.device radio, "channel") = Some (itoa c)
              /\ tree out.2.2 !! ("wireless", AP.device radio, "htmode") = Some htmode).
  { subst out. unfold AP.configure. fold c b.
    destruct (Z.ltb_spec 0 c) as [_ | F]; [| lia].
    assert (Hb : b <> EmptyString).
    { intros E. rewrite E in Hh. discriminate Hh. }
    destruct (decide (b <> EmptyString)) as [_ | N]; [| by destruct N].
    rewrite Hh.
    set (radio1 := AP.setChannelBandwidth b (AP.setChannel c radio)).
    set (w1 := SetType "wireless" (AP.device (AP.setChannel c radio)) "htmode" htmode _).
    assert (K1 : forall cfgs st,
               AP.device st.1 = AP.device radio -> AP.Channel st.1 = c ->
               AP.ChannelBandwidth st.1 = b ->
               tree st.2 !! ("wireless", AP.device radio, "channel") = Some (itoa c) ->
               tree st.2 !! ("wireless", AP.device radio, "htmode") = Some htmode ->
               let o := AP.configureStationsFrom env fuel cfgs 1 st in
               AP.device o.2.1 = AP.device radio /\ AP.Channel o.2.1 = c
               /\ AP.ChannelBandwidth o.2.1 = b
               /\ tree o.2.2 !! ("wireless", AP.device radio, "channel") = Some (itoa c)
               /\ tree o.2.2 !! ("wireless", AP.device radio, "htmode") = Some htmode).
    { intros cfgs st D C B T1 T2 o. subst o.
      pose proof (ap_loop_frame env fuel cfgs 1 st) as F.
      unfold Spec.apFrame in F.
      rewrite !ap_loop_options
        by (cbn; unfold Spec.stationOption; intros [|[|[|]]]; discriminate).
      rewrite F. cbn [AP.setStationStatuses AP.device AP.Channel AP.ChannelBandwidth].
      auto. }
    unfold AP.configureAfterBandwidth.
    set (radio2 := if decide _ then _ else radio1).
    assert (R2 : AP.device radio2 = AP.device radio /\ AP.Channel radio2 = c
                 /\ AP.ChannelBandwidth radio2 = b /\ AP.Type_ radio2 = AP.Type_ radio).
    { subst radio2. by destruct (decide _). }
    destruct R2 as (D2 & C2 & B2 & Ty2).
    assert (T1 : tree w1 !! ("wireless", AP.device radio, "channel") = Some (itoa c)).
    { subst w1. cbn [SetType tree AP.setChannel AP.device].
      rewrite lookup_insert_ne by discriminate. by rewrite lookup_insert_eq. }
    assert (T2 : tree w1 !! ("wireless", AP.device radio, "htmode") = Some htmode).
    { subst w1. cbn [SetType tree AP.setChannel AP.device]. by rewrite lookup_insert_eq. }
    destruct (decide (AP.ConfigurationRequest.SyslogIpAddress request <> EmptyString))
      as [Hs | Hs].
    - unfold Commit. cbn [SetType commits tree saved].
      destruct (commitError env (commits w1)) as [e |]; cbn [fst snd].
      { repeat split; try assumption;
          cbn [tree]; by rewrite lookup_insert_ne by discriminate. }
      unfold runCommand. cbn [shellLog].
      destruct (shellReply env _ _) as [o | e]; cbn [fst snd].
      2: { repeat split; try assumption;
             cbn [tree]; by rewrite lookup_insert_ne by discriminate. }
      set (w3 := {| tree := _ |}).
      assert (T13 : tree w3 !! ("wireless", AP.device radio, "channel") = Some (itoa c))
        by (subst w3; cbn [tree]; by rewrite lookup_insert_ne by discriminate).
      assert (T23 : tree w3 !! ("wireless", AP.device radio, "htmode") = Some htmode)
        by (subst w3; cbn [tree]; by rewrite lookup_insert_ne by discriminate).
      set (radio3 := AP.setSyslogIpAddress _ radio2).
      change (AP.Type_ radio3) with (AP.Type_ radio2).
      destruct (AP.Type_ radio2).
      + apply (K1 _ (radio3, w3)); assumption.
      + pose proof (K1 ∅ (radio3, w3) D2 C2 B2 T13 T23) as K. cbn zeta in K.
        unfold AP.configureStations.
        destruct (AP.configureStationsFrom env fuel ∅ 1 (radio3, w3)) as [[[e |] | |] st2];
          try exact K.
        destruct K as (Ka & Kb & Kc & Kd & Ke). by apply (K1 _ st2).
      + apply (K1 _ (radio3, w3)); assumption.
    - cbn [fst snd]. destruct (AP.Type_ radio2).
      + apply (K1 _ (radio2, w1)); assumption.
      + pose proof (K1 ∅ (radio2, w1) D2 C2 B2 T1 T2) as K. cbn zeta in K.
        unfold AP.configureStations.
        destruct (AP.configureStationsFrom env fuel ∅ 1 (radio2, w1)) as [[[e |] | |] st2];
          try exact K.
        destruct K as (Ka & Kb & Kc & Kd & Ke). by apply (K1 _ st2).
      + apply (K1 _ (radio2, w1)); assumption. }
  destruct O as (D & C & B & T1 & T2).
  (* what [setInitialState] reads *)
  subst back. destruct out.2 as [radio' w'] eqn:E. cbn [fst snd] in *.
  unfold AP.setInitialState.
  change (AP.device (AP.setChannel _ radio')) with (AP.device radio').
  unfold GetLast. rewrite D, T1, T2. cbn [default].
  set (bw := if decide (htmode = "HT20") then "20MHz"
             else if decide (htmode = "HT40") then "40MHz" else "INVALID").
  assert (Hbw : bw = b).
  { subst bw. unfold AP.htmodeOf in Hh.
    destruct (decide (b = "20MHz")) as [-> |]; [by injection Hh as <- |].
    destruct (decide (b = "40MHz")) as [-> |]; [by injection Hh as <- | discriminate]. }
  pose proof (ap_updateStationStatuses_kept env'
                (AP.setChannelBandwidth bw (AP.setChannel (Atoi (itoa c)) radio'), w'))
    as [_ F].
  destruct (AP.updateStationStatuses env' _) as [r [radio4 w4]]. cbn [fst snd] in *.
  unfold Spec.apFrame in F. rewrite F.
  cbn [AP.setSyslogIpAddress AP.setStationStatuses AP.setChannelBandwidth AP.setChannel
       AP.Channel AP.ChannelBandwidth].
  rewrite Hbw, Atoi_itoa by lia. auto.
Qed.

(** ** Building the radio *)

Lemma Contains_spec (s substr : string) :
  Contains s substr = true <-> exists a b, s = a +:+ substr +:+ b.
Proof.
  split.
  - induction s as [| c s IH]; cbn [Contains].
    + destruct (String.prefix substr EmptyString) eqn:P; [| discriminate].
      intros _. exists EmptyString. eexists. apply (string_prefix_split _ _ P).
    + destruct (String.prefix substr (String c s)) eqn:P.
      * intros _. exists EmptyString. eexists. apply (string_prefix_split _ _ P).
      * intros H. destruct (IH H) as (a & b & ->). by exists (String c a), b.
  - intros (a & b & ->). induction a as [| c a IH].
    + assert (P : String.prefix substr (substr +:+ b) = true) by apply string_prefix_app.
      change (EmptyString +:+ substr +:+ b) with (substr +:+ b).
      destruct (substr +:+ b); cbn [Contains]; by rewrite P.
    + change (String c a +:+ substr +:+ b) with (String c (a +:+ substr +:+ b)).
      cbn [Contains]. rewrite IH. by destruct (String.prefix _ _).
Qed.

Lemma NewRadio_statuses (name : string) :
  foldl (fun m s => <[station_String s := None]> m)
        (∅ : gmap string (option AP.NetworkStatus)) allStations !! name
  = if decide (name ∈ station_String <$> allStations) then Some None else None.
Proof.
  destruct (decide (name ∈ station_String <$> allStations)) as [I | N].
  - apply list_elem_of_fmap in I as (s & -> & Hs). apply allStations_elem in Hs.
    destruct (station_cases s Hs) as [-> | [-> | [-> | [-> | [-> | ->]]]]];
      vm_compute; reflexivity.
  - cbn [foldl allStations].
    assert (F : forall s, 0 <= s <= 5 -> station_String s <> name).
    { intros s Hs E. apply N. rewrite <- E. apply list_elem_of_fmap. exists s.
      split; [reflexivity | by apply allStations_elem]. }
    rewrite !lookup_insert_ne, lookup_empty; [reflexivity | ..];
      apply F; unfold red1, red2, red3, blue1, blue2, blue3; lia.
Qed.

Lemma interfacesOf_distinct (type : AP.RadioType) (s t : station) :
  type <> AP.TypeUnknown -> 0 <= s <= 5 -> 0 <= t <= 5 ->
  default EmptyString (AP.interfacesOf type !! s) <> EmptyString
  /\ (default EmptyString (AP.interfacesOf type !! s)
      = default EmptyString (AP.interfacesOf type !! t) -> s = t).
Proof.
  intros Hty Hs Ht. destruct type; [by destruct Hty | |];
    destruct (station_cases s Hs) as [-> | [-> | [-> | [-> | [-> | ->]]]]];
    destruct (station_cases t Ht) as [-> | [-> | [-> | [-> | [-> | ->]]]]];
    (split; [vm_compute; discriminate
            | vm_compute; intros E; first [reflexivity | discriminate E]]).
Qed.

(** [NewRadio] never takes its fatal exit: the hardware type it detects is
    Vivid-Hosting exactly when the model of the store contains VH and
    Linksys otherwise, a missing model included.  The radio it builds has
    an empty status for each of the six station names and for no other
    name, and an interface of its own for each of the six stations. *)
Theorem NewRadio_total (version : string) (w : World) :
  exists radio,
    AP.NewRadio version w = Some radio
    /\ AP.Type_ radio <> AP.TypeUnknown
    /\ (AP.Type_ radio = AP.TypeVividHosting
        <-> exists model a b,
              GetLast "system" "@system[0]" "model" w = Some model
              /\ model = a +:+ "VH" +:+ b)
    /\ (forall name,
          AP.StationStatuses radio !! name
          = if decide (name ∈ station_String <$> allStations) then Some None else None)
    /\ (forall s t, 0 <= s <= 5 -> 0 <= t <= 5 ->
          AP.interfaceOf radio s <> EmptyString
          /\ (AP.interfaceOf radio s = AP.interfaceOf radio t -> s = t)).
Proof.
  unfold AP.NewRadio.
  assert (T : AP.determineAndSetType w <> AP.TypeUnknown
              /\ (AP.determineAndSetType w = AP.TypeVividHosting
                  <-> exists model a b,
                        GetLast "system" "@system[0]" "model" w = Some model
                        /\ model = a +:+ "VH" +:+ b)).
  { unfold AP.determineAndSetType.
    destruct (GetLast "system" "@system[0]" "model" w) as [model |];
      unfold default, from_option, id.
    - destruct (Contains model "VH") eqn:C.
      + split; [discriminate |]. split; [intros _ | done].
        apply Contains_spec in C as (a & b & ->). by exists (a +:+ "VH" +:+ b), a, b.
      + split; [discriminate |]. split; [discriminate |].
        intros (m & a & b & [= <-] & E).
        assert (Contains model "VH" = true) by (apply Contains_spec; by exists a, b).
        congruence.
    - split; [discriminate |]. split; [discriminate |]. by intros (m & a & b & F & _). }
  destruct T as [Tn Tv].
  destruct (AP.determineAndSetType w) eqn:Ty; [by destruct Tn | |];
    (eexists; split; [reflexivity |]; cbn [AP.Type_];
     split; [discriminate |]; split; [exact Tv |]; split;
     [ intros name; apply NewRadio_statuses
     | intros s t Hs Ht; unfold AP.interfaceOf; cbn [AP.stationInterfaces];
       apply interfacesOf_distinct; [discriminate | exact Hs | exact Ht] ]).
Qed.

(** ** The two phases on Linksys hardware *)

Lemma rangeMap_empty {V} env w : (rangeMap env (∅ : gmap string V) w).1 = [].
Proof.
  unfold rangeMap. cbn [fst]. apply Permutation_nil_r.
  rewrite goRange_Permutation. by rewrite map_to_list_empty.
Qed.

Lemma ap_pass_empty_tree env st :
  tree (AP.configureStationsPass env ∅ st).2.2 = tree st.2.
Proof.
  destruct (ap_pass_store env ∅ st) as (_ & -> & _).
  unfold Spec.stagedBy. rewrite rangeMap_empty. reflexivity.
Qed.

Lemma ap_loop_empty_tree env fuel retryCount st :
  tree (AP.configureStationsFrom env fuel ∅ retryCount st).2.2 = tree st.2.
Proof.
  revert retryCount st. induction fuel as [| fuel IH]; intros retryCount st; [reflexivity |].
  cbn [AP.configureStationsFrom].
  pose proof (ap_pass_empty_tree env st) as P.
  destruct (AP.configureStationsPass env ∅ st) as [[| | err |] st1]; try exact P.
  destruct (retryCount >=? AP.maxRetryCount); [exact P |].
  rewrite IH. exact P.
Qed.

(** The empty request of the clearing phase stages nothing: whatever
    [configureStations] returns for it, the tree is the one it started
    from; and it returns nil only when the device has reported a
    placeholder on every one of the six stations. *)
Theorem ap_clearing_phase (env : Env) (fuel : nat) (st : AP.State) :
  let out := AP.configureStations env fuel ∅ st in
  tree out.2.2 = tree st.2
  /\ out.1 <> Panics
  /\ (out.1 = Returns None ->
      forall s, 0 <= s <= 5 -> AP.StationStatuses out.2.1 !! station_String s = Some None).
Proof.
  intros out. split; [apply ap_loop_empty_tree | split].
  - subst out. unfold AP.configureStations. generalize 1. revert st.
    induction fuel as [| fuel IH]; intros st retryCount; [discriminate |].
    cbn [AP.configureStationsFrom].
    destruct (AP.configureStationsPass env ∅ st) as [[| | err |] st1] eqn:E;
      try discriminate.
    + destruct (retryCount >=? AP.maxRetryCount); [discriminate | apply IH].
    + exfalso. destruct st as [radio w]. unfold AP.configureStationsPass in E.
      destruct (rangeMap env ∅ w) as [entries w0].
      destruct (Commit env _) as [[e |] w2]; [discriminate |].
      destruct (runCommand env _ w2) as [[o | e] w3]; [| discriminate].
      destruct (AP.updateStationStatuses env (radio, w3)) as [[e |] [radio4 w4]];
        [discriminate |].
      pose proof (ap_compare_panics env ∅ radio4 w4) as Pn.
      destruct (AP.stationSsidsAreCorrect env ∅ (radio4, w4)) as [[[|] |] w5];
        try discriminate.
      destruct (Pn eq_refl) as (name & x & _ & F). by rewrite lookup_empty in F.
  - intros Hnil s Hs. subst out.
    destruct (AP.configureStations env fuel ∅ st) as [r st'] eqn:E. cbn in Hnil. subst r.
    destruct (ap_loop_matches env fuel ∅ st st' E) as [_ M].
    specialize (M s Hs). by rewrite lookup_empty in M.
Qed.

(** ** The syslog address *)

(** The request carries a syslog address and a bandwidth that is empty or
    valid, and the commit of the system configuration fails: [configure]
    returns that error, the radio keeps its old syslog address, the log
    service is not restarted, nothing is written out, and no station is
    configured or refreshed. *)
Theorem ap_configure_syslog_commit_fails (env : Env) (fuel : nat)
    (request : AP.ConfigurationRequest.t) (radio : AP.Radio) (w : World) (err : string) :
  AP.ConfigurationRequest.SyslogIpAddress request <> EmptyString ->
  (AP.ConfigurationRequest.ChannelBandwidth request = EmptyString
   \/ is_Some (AP.htmodeOf (AP.ConfigurationRequest.ChannelBandwidth request))) ->
  commitError env (commits w) = Some err ->
  let out := AP.configure env fuel request (radio, w) in
  out.1 = Returns (Some ("failed to commit system configuration: " +:+ err))
  /\ AP.SyslogIpAddress out.2.1 = AP.SyslogIpAddress radio
  /\ AP.StationStatuses out.2.1 = AP.StationStatuses radio
  /\ shellLog out.2.2 = shellLog w
  /\ saved out.2.2 = saved w
  /\ commits out.2.2 = S (commits w)
  /\ tree out.2.2 !! ("system", "@system[0]", "log_ip")
     = Some (AP.ConfigurationRequest.SyslogIpAddress request)
  /\ forall key : UciKey,
       key.1.2 <> AP.device radio -> key <> ("system", "@system[0]", "log_ip") ->
       tree out.2.2 !! key = tree w !! key.
Proof.
  intros Hsys Hbw Herr out. subst out.
  unfold AP.configure.
  set (st0 := if 0 <? AP.ConfigurationRequest.Channel request then _ else _).
  assert (F : AP.SyslogIpAddress st0.1 = AP.SyslogIpAddress radio
              /\ AP.StationStatuses st0.1 = AP.StationStatuses radio
              /\ AP.device st0.1 = AP.device radio
              /\ shellLog st0.2 = shellLog w /\ saved st0.2 = saved w
              /\ commits st0.2 = commits w
              /\ forall key : UciKey, key.1.2 <> AP.device radio ->
                   tree st0.2 !! key = tree w !! key).
  { subst st0. destruct (0 <? _); cbn; repeat split; try reflexivity.
    intros [[c s] o] Hk. cbn in Hk. rewrite lookup_insert_ne; [reflexivity | congruence]. }
  destruct st0 as [radio0 w0]. cbn [fst snd] in F.
  destruct F as (F1 & F2 & F3 & F4 & F5 & F6 & F7).
  assert (G : forall st : AP.State,
            AP.SyslogIpAddress st.1 = AP.SyslogIpAddress radio ->
            AP.StationStatuses st.1 = AP.StationStatuses radio ->
            shellLog st.2 = shellLog w -> saved st.2 = saved w ->
            commits st.2 = commits w ->
            (forall key : UciKey, key.1.2 <> AP.device radio ->
               tree st.2 !! key = tree w !! key) ->
            let out := AP.configureAfterBandwidth env fuel request st in
            out.1 = Returns (Some ("failed to commit system configuration: " +:+ err))
            /\ AP.SyslogIpAddress out.2.1 = AP.SyslogIpAddress radio
            /\ AP.StationStatuses out.2.1 = AP.StationStatuses radio
            /\ shellLog out.2.2 = shellLog w
            /\ saved out.2.2 = saved w
            /\ commits out.2.2 = S (commits w)
            /\ tree out.2.2 !! ("system", "@system[0]", "log_ip")
               = Some (AP.ConfigurationRequest.SyslogIpAddress request)
            /\ forall key : UciKey,
                 key.1.2 <> AP.device radio -> key <> ("system", "@system[0]", "log_ip") ->
                 tree out.2.2 !! key = tree w !! key).
  { intros [r v] G1 G2 G3 G4 G5 G6. cbn [fst snd] in *.
    unfold AP.configureAfterBandwidth.
    destruct (decide (AP.ConfigurationRequest.SyslogIpAddress request <> EmptyString))
      as [_ | N]; [| by destruct N].
    assert (C : commitError env (commits (SetType "system" "@system[0]" "log_ip"
                  (AP.ConfigurationRequest.SyslogIpAddress request) v)) = Some err)
      by (cbn [SetType commits]; by rewrite G5).
    unfold Commit. rewrite C. cbn [fst snd].
    destruct (decide (_ /\ _)); cbn;
      (split; [reflexivity |]); (split; [exact G1 |]); (split; [exact G2 |]);
      (split; [exact G3 |]); (split; [exact G4 |]); (split; [by rewrite G5 |]);
      (split; [by rewrite lookup_insert_eq |]);
      intros key Hk Hn; (rewrite lookup_insert_ne by congruence); by apply G6. }
  destruct (decide (AP.ConfigurationRequest.ChannelBandwidth request <> EmptyString))
    as [Hne | He].
  - destruct Hbw as [Hb | [htmode Hb]]; [by destruct Hne |].
    rewrite Hb. apply G; cbn [fst snd AP.setChannelBandwidth AP.SyslogIpAddress
                              AP.StationStatuses SetType shellLog saved commits tree];
      try assumption.
    intros [[c s] o] Hk. cbn in Hk.
    rewrite lookup_insert_ne by (rewrite F3; congruence). by apply F7.
  - apply G; cbn [fst snd]; assumption.
Qed.

(** ** What a successful [configure] guarantees *)

Lemma apFrame_fields r r' :
  Spec.apFrame r r' ->
  AP.Channel r' = AP.Channel r /\ AP.ChannelBandwidth r' = AP.ChannelBandwidth r
  /\ AP.SyslogIpAddress r' = AP.SyslogIpAddress r /\ AP.Type_ r' = AP.Type_ r
  /\ AP.RedVlans r' = AP.RedVlans r /\ AP.BlueVlans r' = AP.BlueVlans r.
Proof. unfold Spec.apFrame. intros ->. repeat split. Qed.

Lemma ap_phases_success env fuel cfgs radio w st' :
  match AP.Type_ radio with
  | AP.TypeLinksys =>
      match AP.configureStations env fuel ∅ (radio, w) with
      | (Returns None, st2) => AP.configureStations env fuel cfgs st2
      | other => other
      end
  | _ => AP.configureStations env fuel cfgs (radio, w)
  end = (Returns None, st') ->
  Spec.apFrame radio st'.1
  /\ forall s, 0 <= s <= 5 ->
       match cfgs !! station_String s with
       | Some (Some config) =>
           exists x, AP.StationStatuses st'.1 !! station_String s = Some (Some x)
                     /\ AP.Ssid x = AP.StationConfiguration.Ssid config
       | Some None => False
       | None => AP.StationStatuses st'.1 !! station_String s = Some None
       end.
Proof.
  destruct (AP.Type_ radio).
  - apply ap_loop_matches.
  - destruct (AP.configureStations env fuel ∅ (radio, w)) as [[[e |] | |] st2] eqn:E1;
      try discriminate.
    intros E2.
    destruct (ap_loop_matches env fuel ∅ (radio, w) st2 E1) as [F1 _].
    destruct (ap_loop_matches env fuel cfgs st2 st' E2) as [F2 M].
    split; [| exact M].
    exact (apFrame_trans _ _ _ F1 F2).
  - apply ap_loop_matches.
Qed.

(** When [configure] of the access-point build returns nil, the radio
    reflects the request: the channel when it is positive, the bandwidth
    when it is given (and it is then one of the two valid ones), both VLAN
    groups when both are given, the syslog address when it is given, and
    for each of the six stations a status with the requested SSID when the
    request names it and none when it does not.  What the request leaves
    out is as it was, and the hardware type never changes. *)
Theorem ap_configure_success (env : Env) (fuel : nat)
    (request : AP.ConfigurationRequest.t) (radio : AP.Radio) (w : World) (st' : AP.State) :
  AP.configure env fuel request (radio, w) = (Returns None, st') ->
  AP.Channel st'.1
  = (if 0 <? AP.ConfigurationRequest.Channel request
     then AP.ConfigurationRequest.Channel request else AP.Channel radio)
  /\ AP.ChannelBandwidth st'.1
     = (if decide (AP.ConfigurationRequest.ChannelBandwidth request = EmptyString)
        then AP.ChannelBandwidth radio else AP.ConfigurationRequest.ChannelBandwidth request)
  /\ (AP.ConfigurationRequest.ChannelBandwidth request <> EmptyString ->
      is_Some (AP.htmodeOf (AP.ConfigurationRequest.ChannelBandwidth request)))
  /\ (AP.RedVlans st'.1, AP.BlueVlans st'.1)
     = (if decide (AP.ConfigurationRequest.RedVlans request <> EmptyString
                   /\ AP.ConfigurationRequest.BlueVlans request <> EmptyString)
        then (AP.ConfigurationRequest.RedVlans request,
              AP.ConfigurationRequest.BlueVlans request)
        else (AP.RedVlans radio, AP.BlueVlans radio))
  /\ AP.SyslogIpAddress st'.1
     = (if decide (AP.ConfigurationRequest.SyslogIpAddress request = EmptyString)
        then AP.SyslogIpAddress radio else AP.ConfigurationRequest.SyslogIpAddress request)
  /\ AP.Type_ st'.1 = AP.Type_ radio
  /\ forall s, 0 <= s <= 5 ->
       match AP.ConfigurationRequest.StationConfigurations request !! station_String s with
       | Some (Some config) =>
           exists x, AP.StationStatuses st'.1 !! station_String s = Some (Some x)
                     /\ AP.Ssid x = AP.StationConfiguration.Ssid config
       | Some None => False
       | None => AP.StationStatuses st'.1 !! station_String s = Some None
       end.
Proof.
  assert (G : forall (r : AP.Radio) (v : World),
            AP.configureAfterBandwidth env fuel request (r, v) = (Returns None, st') ->
            AP.Channel st'.1 = AP.Channel r
            /\ AP.ChannelBandwidth st'.1 = AP.ChannelBandwidth r
            /\ (AP.RedVlans st'.1, AP.BlueVlans st'.1)
               = (if decide (AP.ConfigurationRequest.RedVlans request <> EmptyString
                             /\ AP.ConfigurationRequest.BlueVlans request <> EmptyString)
                  then (AP.ConfigurationRequest.RedVlans request,
                        AP.ConfigurationRequest.BlueVlans request)
                  else (AP.RedVlans r, AP.BlueVlans r))
            /\ AP.SyslogIpAddress st'.1
               = (if decide (AP.ConfigurationRequest.SyslogIpAddress request = EmptyString)
                  then AP.SyslogIpAddress r
                  else AP.ConfigurationRequest.SyslogIpAddress request)
            /\ AP.Type_ st'.1 = AP.Type_ r
            /\ forall s, 0 <= s <= 5 ->
                 match AP.ConfigurationRequest.StationConfigurations request
                       !! station_String s with
                 | Some (Some config) =>
                     exists x, AP.StationStatuses st'.1 !! station_String s = Some (Some x)
                               /\ AP.Ssid x = AP.StationConfiguration.Ssid config
                 | Some None => False
                 | None => AP.StationStatuses st'.1 !! station_String s = Some None
                 end).
  { intros r v. unfold AP.configureAfterBandwidth.
    set (r1 := if decide (_ /\ _) then _ else r).
    assert (R1 : AP.Channel r1 = AP.Channel r
                 /\ AP.ChannelBandwidth r1 = AP.ChannelBandwidth r
                 /\ AP.SyslogIpAddress r1 = AP.SyslogIpAddress r
                 /\ AP.Type_ r1 = AP.Type_ r
                 /\ (AP.RedVlans r1, AP.BlueVlans r1)
                    = (if decide (AP.ConfigurationRequest.RedVlans request <> EmptyString
                                  /\ AP.ConfigurationRequest.BlueVlans request <> EmptyString)
                       then (AP.ConfigurationRequest.RedVlans request,
                             AP.ConfigurationRequest.BlueVlans request)
                       else (AP.RedVlans r, AP.BlueVlans r))).
    { subst r1. destruct (decide (_ /\ _)); repeat split. }
    clearbody r1. destruct R1 as (C1 & C2 & C3 & C4 & C5).
    destruct (decide (AP.ConfigurationRequest.SyslogIpAddress request <> EmptyString))
      as [Hs | Hs].
    - destruct (Commit env _) as [[e |] w2]; [discriminate |].
      destruct (runCommand env _ w2) as [[o | e] w3]; [| discriminate].
      intros E. apply ap_phases_success in E. destruct E as [F M].
      destruct (apFrame_fields _ _ F) as (D1 & D2 & D3 & D4 & D5 & D6).
      cbn in D1, D2, D3, D4, D5, D6.
      split; [congruence |]. split; [congruence |].
      split; [rewrite D5, D6; exact C5 |].
      split; [rewrite D3;
              destruct (decide (AP.ConfigurationRequest.SyslogIpAddress request
                                = EmptyString)) as [N |];
              [exfalso; apply Hs; exact N | reflexivity] |].
      split; [congruence | exact M].
    - intros E. apply ap_phases_success in E. destruct E as [F M].
      destruct (apFrame_fields _ _ F) as (D1 & D2 & D3 & D4 & D5 & D6).
      split; [congruence |]. split; [congruence |].
      split; [rewrite D5, D6; exact C5 |].
      split; [rewrite D3, C3;
              destruct (decide (AP.ConfigurationRequest.SyslogIpAddress request
                                = EmptyString)) as [| N];
              [reflexivity | exfalso; apply Hs; exact N] |].
      split; [congruence | exact M]. }
  unfold AP.configure.
  destruct (0 <? AP.ConfigurationRequest.Channel request);
    (destruct (decide (AP.ConfigurationRequest.ChannelBandwidth request <> EmptyString))
       as [Hb | Hb];
     [ destruct (AP.htmodeOf (AP.ConfigurationRequest.ChannelBandwidth request))
         as [htmode |] eqn:Eh; [| discriminate];
       intros E; apply G in E; destruct E as (E1 & E2 & E3 & E4 & E5 & E6);
       cbn in E1, E2, E3, E4, E5;
       (split; [exact E1 |]);
       (split; [destruct (decide (AP.ConfigurationRequest.ChannelBandwidth request
                                  = EmptyString)) as [N |];
                [exfalso; apply Hb; exact N | exact E2] |]);
       (split; [intros _; by exists htmode |]);
       (split; [exact E3 |]); (split; [exact E4 |]); (split; [exact E5 | exact E6])
     | intros E; apply G in E; destruct E as (E1 & E2 & E3 & E4 & E5 & E6);
       cbn in E1, E2, E3, E4, E5;
       (split; [exact E1 |]);
       (split; [destruct (decide (AP.ConfigurationRequest.ChannelBandwidth request
                                  = EmptyString)) as [| N];
                [exact E2 | exfalso; apply Hb; exact N] |]);
       (split; [intros N; exfalso; apply Hb; exact N |]);
       (split; [exact E3 |]); (split; [exact E4 |]); (split; [exact E5 | exact E6]) ]).
Qed.

(** When [configure] of the single-file controller returns nil, every
    entry of [StationStatuses] matches the request and every station of
    [stationInterfaces] has one: a status with the requested SSID when the
    request names the station, nil when it does not.  On Linksys hardware
    this holds although the stations were first cleared. *)
Theorem legacy_configure_success (env : Env) (fuel : nat)
    (request : Legacy.ConfigurationRequest.t) (radio : Legacy.Radio) (w : World)
    (st' : Legacy.State) :
  Legacy.configure env fuel request (radio, w) = (Returns None, st') ->
  Spec.legacyFrame radio st'.1
  /\ Spec.legacyMatches (Legacy.ConfigurationRequest.StationConfigurations request)
       (Legacy.StationStatuses st'.1)
  /\ forall s, is_Some (Legacy.stationInterfaces radio !! s) ->
       match Legacy.ConfigurationRequest.StationConfigurations request
             !! station_String s with
       | Some config =>
           exists x, Legacy.StationStatuses st'.1 !! station_String s = Some (Some x)
                     /\ Legacy.Ssid x = Legacy.StationConfiguration.Ssid config
       | None => Legacy.StationStatuses st'.1 !! station_String s = Some None
       end.
Proof.
  intros E.
  pose proof (legacy_configure_frame env fuel request (radio, w)) as F.
  rewrite E in F. cbn [fst snd] in F. split; [exact F |].
  revert E. unfold Legacy.configure.
  set (st0 := if 0 <? Legacy.ConfigurationRequest.Channel request then _ else _).
  assert (I0 : Legacy.stationInterfaces st0.1 = Legacy.stationInterfaces radio)
    by (subst st0; by destruct (0 <? _)).
  destruct st0 as [radio0 w0]. cbn [fst] in I0.
  destruct (Legacy.Type_ radio0).
  - intros E. destruct (legacy_loop_matches env fuel _ _ _ E) as [M S].
    cbn [fst] in S. rewrite I0 in S. by split.
  - destruct (Legacy.configureStations env fuel ∅ (radio0, w0)) as [[[e |] | |] st1] eqn:E1;
      try discriminate.
    intros E. destruct (legacy_loop_matches env fuel _ _ _ E) as [M S].
    split; [exact M |]. intros s Hs. apply S.
    pose proof (legacy_configureStationsFrom_frame env fuel ∅ 1 (radio0, w0)) as F1.
    unfold Legacy.configureStations in E1. rewrite E1 in F1.
    destruct F1 as (_ & _ & _ & _ & F1). cbn [fst snd] in F1. rewrite F1. by rewrite I0.
  - intros E. destruct (legacy_loop_matches env fuel _ _ _ E) as [M S].
    cbn [fst] in S. rewrite I0 in S. by split.
Qed.

(** * The properties at concrete inputs *)

Lemma station_String_distinct_witness :
  red1 <> blue1 /\ station_String red1 <> station_String blue1.
Proof.
  assert (H : red1 <> blue1) by (unfold red1, blue1; lia).
  split; [exact H | exact (station_String_distinct red1 blue1 H)].
Defined.

Lemma ap_stationSsidsAreCorrect_panics_witness :
  let cfgs : gmap string (option AP.StationConfiguration.t) := {[ "red1" := None ]} in
  let radio :=
    AP.setStationStatuses
      {[ "red1" := Some (AP.Build_NetworkStatus "1234" EmptyString EmptyString) ]}
      Scenario.vividRadio in
  (AP.stationSsidsAreCorrect Scenario.quiet cfgs (radio, Scenario.emptyWorld)).1 = None
  /\ exists name st,
       AP.StationStatuses radio !! name = Some (Some st) /\ cfgs !! name = Some None.
Proof.
  intros cfgs radio.
  assert (H : (AP.stationSsidsAreCorrect Scenario.quiet cfgs
                 (radio, Scenario.emptyWorld)).1 = None) by (vm_compute; reflexivity).
  split; [exact H |].
  exact (ap_stationSsidsAreCorrect_panics Scenario.quiet cfgs radio Scenario.emptyWorld H).
Defined.

Lemma ap_updateStationStatuses_entries_witness :
  let env := Scenario.serving 0 "1234" in
  let st : AP.State := (Scenario.vividRadio, Scenario.emptyWorld) in
  let st' := (AP.updateStationStatuses env st).2 in
  AP.updateStationStatuses env st = (None, st')
  /\ exists status,
       AP.StationStatuses st'.1 !! station_String red1 = Some status
       /\ (forall x, status = Some x -> HasPrefix (AP.Ssid x) "no-team-" = false).
Proof.
  intros env st st'.
  assert (H0 : (AP.updateStationStatuses env st).1 = None) by (vm_compute; reflexivity).
  pose proof (pair_of_fst (AP.updateStationStatuses env st) None H0) as H.
  split; [exact H |].
  apply (proj1 (ap_updateStationStatuses_entries env st st' H) red1).
  unfold red1. lia.
Defined.

Lemma ap_configureStations_success_witness :
  let env := Scenario.serving 0 "1234" in
  let cfgs : gmap string (option AP.StationConfiguration.t) :=
    {[ "red1" := Scenario.team "1234" "hunter22" ]} in
  let st : AP.State := (Scenario.vividRadio, Scenario.emptyWorld) in
  let st' := (AP.configureStations env 1 cfgs st).2 in
  AP.configureStations env 1 cfgs st = (Returns None, st')
  /\ Spec.apFrame st.1 st'.1
  /\ AP.StationStatuses st'.1 !! station_String blue3 = Some None.
Proof.
  intros env cfgs st st'.
  assert (H0 : (AP.configureStations env 1 cfgs st).1 = Returns None)
    by (vm_compute; reflexivity).
  pose proof (pair_of_fst (AP.configureStations env 1 cfgs st) (Returns None) H0) as H.
  split; [exact H |].
  destruct (ap_configureStations_success env 1 cfgs st st' H) as [F M].
  split; [exact F |].
  assert (Hs : 0 <= blue3 <= 5) by (unfold blue3; lia).
  exact (M blue3 Hs).
Defined.

Lemma ap_unassign_never_succeeds_witness :
  let request := Scenario.apRequest 36 EmptyString {[ "red1" := None ]} in
  let st : AP.State := (Scenario.vividRadio, Scenario.emptyWorld) in
  0 <= red1 <= 5
  /\ AP.ConfigurationRequest.StationConfigurations request !! station_String red1 = Some None
  /\ (AP.configureStations Scenario.quiet 3
        (AP.ConfigurationRequest.StationConfigurations request) st).1 <> Returns None
  /\ (AP.configure Scenario.quiet 3 request st).1 <> Returns None.
Proof.
  intros request st.
  assert (H1 : 0 <= red1 <= 5) by (unfold red1; lia).
  assert (H2 : AP.ConfigurationRequest.StationConfigurations request
               !! station_String red1 = Some None) by reflexivity.
  split; [exact H1 |]. split; [exact H2 |].
  exact (ap_unassign_never_succeeds Scenario.quiet 3 request st red1 H1 H2).
Defined.

Lemma legacy_updateStationStatuses_entries_witness :
  let radio := Scenario.legacyRadio Legacy.typeLinksys in
  let st' := (Legacy.updateStationStatuses Scenario.quiet (radio, Scenario.emptyWorld)).2 in
  Legacy.updateStationStatuses Scenario.quiet (radio, Scenario.emptyWorld) = (None, st')
  /\ is_Some (Legacy.stationInterfaces radio !! red1)
  /\ exists status,
       Legacy.StationStatuses st'.1 !! station_String red1 = Some status
       /\ (forall x, status = Some x -> HasPrefix (Legacy.Ssid x) "no-team-" = false).
Proof.
  intros radio st'.
  assert (H0 : (Legacy.updateStationStatuses Scenario.quiet
                  (radio, Scenario.emptyWorld)).1 = None) by (vm_compute; reflexivity).
  pose proof (pair_of_fst (Legacy.updateStationStatuses Scenario.quiet
                             (radio, Scenario.emptyWorld)) None H0) as H.
  assert (H1 : is_Some (Legacy.stationInterfaces radio !! red1))
    by (exists "wlan0"; reflexivity).
  split; [exact H |]. split; [exact H1 |].
  exact (legacy_updateStationStatuses_entries Scenario.quiet radio Scenario.emptyWorld
           st' red1 H H1).
Defined.

Lemma legacy_configureStations_success_witness :
  let st : Legacy.State := (Scenario.legacyRadio Legacy.typeLinksys, Scenario.emptyWorld) in
  let st' := (Legacy.configureStations Scenario.quiet 1 ∅ st).2 in
  Legacy.configureStations Scenario.quiet 1 ∅ st = (Returns None, st')
  /\ Spec.legacyMatches ∅ (Legacy.StationStatuses st'.1).
Proof.
  intros st st'.
  assert (H0 : (Legacy.configureStations Scenario.quiet 1 ∅ st).1 = Returns None)
    by (vm_compute; reflexivity).
  pose proof (pair_of_fst (Legacy.configureStations Scenario.quiet 1 ∅ st)
                (Returns None) H0) as H.
  split; [exact H |].
  exact (proj1 (legacy_configureStations_success Scenario.quiet 1 ∅ st st' H)).
Defined.

Lemma legacy_stageStations_all_six_witness :
  let cfgs : gmap string Legacy.StationConfiguration.t :=
    {[ "red1" := Legacy.StationConfiguration.mk "1234" "hunter22" ]} in
  let w' := (Legacy.stageStations Scenario.quiet Legacy.typeLinksys cfgs
               [0; 1; 2; 3; 4; 5] Scenario.emptyWorld).2 in
  Legacy.stageStations Scenario.quiet Legacy.typeLinksys cfgs [0; 1; 2; 3; 4; 5]
    Scenario.emptyWorld = (None, w')
  /\ commits w' = (commits Scenario.emptyWorld + 6)%nat
  /\ saved w' = tree w'.
Proof.
  intros cfgs w'.
  assert (H0 : (Legacy.stageStations Scenario.quiet Legacy.typeLinksys cfgs
                  [0; 1; 2; 3; 4; 5] Scenario.emptyWorld).1 = None)
    by (vm_compute; reflexivity).
  pose proof (pair_of_fst (Legacy.stageStations Scenario.quiet Legacy.typeLinksys cfgs
                             [0; 1; 2; 3; 4; 5] Scenario.emptyWorld) None H0) as H.
  split; [exact H |].
  exact (proj2 (legacy_stageStations_all_six Scenario.quiet Legacy.typeLinksys cfgs
                  Scenario.emptyWorld w' H)).
Defined.

Lemma legacy_stageStations_failed_witness :
  let env := Scenario.readOnly 2 Scenario.quiet in
  let indices := [0; 1; 2; 3; 4; 5] in
  let w' := (Legacy.stageStations env Legacy.typeLinksys ∅ indices Scenario.emptyWorld).2 in
  NoDup indices
  /\ Legacy.stageStations env Legacy.typeLinksys ∅ indices Scenario.emptyWorld
     = (Some "permission denied", w')
  /\ exists done i rest wd,
       indices = done ++ i :: rest
       /\ Legacy.stageStations env Legacy.typeLinksys ∅ done Scenario.emptyWorld = (None, wd)
       /\ commitError env (commits Scenario.emptyWorld + length done)%nat
          = Some "permission denied"
       /\ commits w' = S (commits Scenario.emptyWorld + length done)
       /\ saved w' = saved wd
       /\ tree w' !! ("wireless", wifiIface (i + 1), "ssid")
          = Some (Spec.legacyStaged ∅ i).1
       /\ (forall (key : UciKey) j, j ∈ rest -> key.1.2 = wifiIface (j + 1) ->
             tree w' !! key = tree Scenario.emptyWorld !! key).
Proof.
  intros env indices w'.
  assert (N : NoDup indices) by (apply (bool_decide_unpack _); vm_compute; exact I).
  assert (H0 : (Legacy.stageStations env Legacy.typeLinksys ∅ indices
                  Scenario.emptyWorld).1 = Some "permission denied")
    by (vm_compute; reflexivity).
  pose proof (pair_of_fst (Legacy.stageStations env Legacy.typeLinksys ∅ indices
                             Scenario.emptyWorld) (Some "permission denied") H0) as H.
  split; [exact N |]. split; [exact H |].
  exact (legacy_stageStations_failed env Legacy.typeLinksys ∅ indices
           Scenario.emptyWorld w' "permission denied" N H).
Defined.

Lemma ap_unknown_name_stages_red1_witness :
  let config := AP.StationConfiguration.mk "1234" "hunter22" in
  let out := AP.configureStationsPass Scenario.quiet {[ "green1" := Some config ]}
               (Scenario.vividRadio, Scenario.emptyWorld) in
  (forall s, 0 <= s <= 5 -> "green1" <> station_String s)
  /\ tree out.2.2 !! ("wireless", wifiIface 1, "ssid") = Some "1234"
  /\ tree out.2.2 !! ("wireless", wifiIface 1, "key") = Some "hunter22"
  /\ tree out.2.2 !! ("wireless", wifiIface 1, "network")
     = Some ("vlan" +:+ itoa (AP.getStationVlan Scenario.vividRadio red1)).
Proof.
  intros config out.
  assert (H : forall s, 0 <= s <= 5 -> "green1" <> station_String s).
  { intros s Hs.
    destruct (station_cases s Hs) as [-> | [-> | [-> | [-> | [-> | ->]]]]]; discriminate. }
  split; [exact H |].
  exact (ap_unknown_name_stages_red1 Scenario.quiet Scenario.vividRadio Scenario.emptyWorld
           "green1" config H).
Defined.

Lemma getStationVlan_injective_witness :
  is_Some (Spec.vlanOffset (AP.RedVlans Scenario.vividRadio))
  /\ is_Some (Spec.vlanOffset (AP.BlueVlans Scenario.vividRadio))
  /\ AP.RedVlans Scenario.vividRadio <> AP.BlueVlans Scenario.vividRadio
  /\ 0 <= red3 <= 5 /\ 0 <= blue1 <= 5
  /\ 10 <= AP.getStationVlan Scenario.vividRadio red3 <= 90
  /\ (AP.getStationVlan Scenario.vividRadio red3 = AP.getStationVlan Scenario.vividRadio blue1
      -> red3 = blue1).
Proof.
  assert (H1 : is_Some (Spec.vlanOffset (AP.RedVlans Scenario.vividRadio)))
    by (exists 0; reflexivity).
  assert (H2 : is_Some (Spec.vlanOffset (AP.BlueVlans Scenario.vividRadio)))
    by (exists 3; reflexivity).
  assert (H3 : AP.RedVlans Scenario.vividRadio <> AP.BlueVlans Scenario.vividRadio)
    by discriminate.
  assert (H4 : 0 <= red3 <= 5) by (unfold red3; lia).
  assert (H5 : 0 <= blue1 <= 5) by (unfold blue1; lia).
  split; [exact H1 |]. split; [exact H2 |]. split; [exact H3 |].
  split; [exact H4 |]. split; [exact H5 |].
  exact (getStationVlan_injective Scenario.vividRadio red3 blue1 H1 H2 H3 H4 H5).
Defined.

Lemma findSsid_roundtrip_witness :
  let front := "ath1      " in
  let ssid := "FRC 1234-a_b" in
  let rest := "  Access Point: 00:11:22:33:44:55" in
  forallb (fun c => negb (Ascii.eqb c "E")) (list_ascii_of_string front) = true
  /\ forallb isSsidChar (list_ascii_of_string ssid) = true
  /\ findSsid (front +:+ ssidOpen +:+ ssid +:+ String quote rest) = Some ssid.
Proof.
  intros front ssid rest.
  assert (H1 : forallb (fun c => negb (Ascii.eqb c "E")) (list_ascii_of_string front) = true)
    by reflexivity.
  assert (H2 : forallb isSsidChar (list_ascii_of_string ssid) = true) by reflexivity.
  split; [exact H1 |]. split; [exact H2 |].
  exact (findSsid_roundtrip front ssid rest H1 H2).
Defined.

Lemma findSsid_sound_witness :
  let output := iwinfoLine "ath1" "1234" in
  findSsid output = Some "1234"
  /\ forallb isSsidChar (list_ascii_of_string "1234") = true
  /\ exists front rest, output = front +:+ ssidOpen +:+ "1234" +:+ String quote rest.
Proof.
  intros output.
  assert (H : findSsid output = Some "1234") by (vm_compute; reflexivity).
  split; [exact H | exact (findSsid_sound output "1234" H)].
Defined.

Lemma ap_configure_setInitialState_witness :
  let request := Scenario.apRequest 36 "40MHz" ∅ in
  let out := AP.configure Scenario.quiet 1 request
               (Scenario.vividRadio, Scenario.emptyWorld) in
  let back := AP.setInitialState Scenario.quiet out.2 in
  0 < AP.ConfigurationRequest.Channel request < 2 ^ 63
  /\ is_Some (AP.htmodeOf (AP.ConfigurationRequest.ChannelBandwidth request))
  /\ AP.Channel back.1 = 36
  /\ AP.ChannelBandwidth back.1 = "40MHz".
Proof.
  intros request out back.
  assert (H1 : 0 < AP.ConfigurationRequest.Channel request < 2 ^ 63) by (simpl; lia).
  assert (H2 : is_Some (AP.htmodeOf (AP.ConfigurationRequest.ChannelBandwidth request)))
    by (exists "HT40"; reflexivity).
  split; [exact H1 |]. split; [exact H2 |].
  destruct (ap_configure_setInitialState Scenario.quiet Scenario.quiet 1 request
              Scenario.vividRadio Scenario.emptyWorld H1 H2) as (A & B & _).
  split; [exact A | exact B].
Defined.

Lemma ap_configure_syslog_commit_fails_witness :
  let env := Scenario.readOnly 0 Scenario.quiet in
  let request :=
    AP.ConfigurationRequest.mk 36 "20MHz" EmptyString EmptyString "10.0.100.5" ∅ in
  let out := AP.configure env 3 request (Scenario.vividRadio, Scenario.emptyWorld) in
  AP.ConfigurationRequest.SyslogIpAddress request <> EmptyString
  /\ (AP.ConfigurationRequest.ChannelBandwidth request = EmptyString
      \/ is_Some (AP.htmodeOf (AP.ConfigurationRequest.ChannelBandwidth request)))
  /\ commitError env (commits Scenario.emptyWorld) = Some "permission denied"
  /\ out.1 = Returns (Some "failed to commit system configuration: permission denied")
  /\ AP.SyslogIpAddress out.2.1 = EmptyString
  /\ shellLog out.2.2 = [].
Proof.
  intros env request out.
  assert (H1 : AP.ConfigurationRequest.SyslogIpAddress request <> EmptyString)
    by discriminate.
  assert (H2 : AP.ConfigurationRequest.ChannelBandwidth request = EmptyString
               \/ is_Some (AP.htmodeOf (AP.ConfigurationRequest.ChannelBandwidth request)))
    by (right; exists "HT20"; reflexivity).
  assert (H3 : commitError env (commits Scenario.emptyWorld) = Some "permission denied")
    by reflexivity.
  split; [exact H1 |]. split; [exact H2 |]. split; [exact H3 |].
  destruct (ap_configure_syslog_commit_fails env 3 request Scenario.vividRadio
              Scenario.emptyWorld "permission denied" H1 H2 H3) as (A & B & _ & C & _).
  split; [exact A |]. split; [exact B | exact C].
Defined.

Lemma ap_configure_success_witness :
  let env := Scenario.serving 0 "1234" in
  let request := Scenario.apRequest 36 "40MHz" {[ "red1" := Scenario.team "1234" "hunter22" ]} in
  let st' := (AP.configure env 1 request (Scenario.vividRadio, Scenario.emptyWorld)).2 in
  AP.configure env 1 request (Scenario.vividRadio, Scenario.emptyWorld) = (Returns None, st')
  /\ AP.Channel st'.1 = 36
  /\ AP.ChannelBandwidth st'.1 = "40MHz".
Proof.
  intros env request st'.
  assert (H0 : (AP.configure env 1 request (Scenario.vividRadio, Scenario.emptyWorld)).1
               = Returns None) by (vm_compute; reflexivity).
  pose proof (pair_of_fst (AP.configure env 1 request
                             (Scenario.vividRadio, Scenario.emptyWorld))
                (Returns None) H0) as H.
  split; [exact H |].
  destruct (ap_configure_success env 1 request Scenario.vividRadio Scenario.emptyWorld
              st' H) as (A & B & _).
  split; [exact A | exact B].
Defined.

Lemma legacy_configure_success_witness :
  let start : Legacy.State :=
    (Scenario.legacyRadio Legacy.typeLinksys, Scenario.emptyWorld) in
  let st' := (Legacy.configure Scenario.quiet 1 (Scenario.noTeams 36) start).2 in
  Legacy.configure Scenario.quiet 1 (Scenario.noTeams 36) start = (Returns None, st')
  /\ Spec.legacyMatches ∅ (Legacy.StationStatuses st'.1).
Proof.
  intros start st'.
  assert (H0 : (Legacy.configure Scenario.quiet 1 (Scenario.noTeams 36) start).1
               = Returns None) by (vm_compute; reflexivity).
  pose proof (pair_of_fst (Legacy.configure Scenario.quiet 1 (Scenario.noTeams 36) start)
                (Returns None) H0) as H.
  split; [exact H |].
  exact (proj1 (proj2 (legacy_configure_success Scenario.quiet 1 (Scenario.noTeams 36)
                         (Scenario.legacyRadio Legacy.typeLinksys) Scenario.emptyWorld
                         st' H))).
Defined.
